(** * Cost-optimization decision logic of the AI starter kit

    A shallow embedding of the two AWS cost-automation scripts,
    [scripts/cost-optimization-lambda.py] (class [AIStarterKitCostOptimizer],
    module [Lambda] below) and [scripts/cost-optimization-automation.py]
    (class [CostOptimizationManager], module [Automation] below).

    Conventions of the embedding.
    - Python floats are the kernel's binary64 floats ([PrimFloat.float]);
      comparisons are the IEEE ones, so a NaN compares false with everything.
    - A Python [dict] is an association list in insertion order ([Dict.t]).
    - A call that may raise returns [exc A]; a method that also talks to AWS
      runs in the monad [M], which keeps the log of the calls that change
      something outside the process (capacity writes, alert dispatches).
    - The answers of the provider are given by a record of functions and are
      fixed for the duration of one run.
    - Log lines, ISO timestamps and formatted message strings are left out of
      the report values; every field a decision depends on is kept. *)

From Stdlib Require Import ZArith List String Ascii Bool Floats Lia.
From Stdlib Require Import Sorting.Sorted Sorting.Permutation.
Import ListNotations.

Set Warnings "-inexact-float".
Open Scope string_scope.
Open Scope float_scope.
Open Scope list_scope.

(** ** Python primitives *)

Module Py.

(** The exceptions the scripts can meet. [ClientError] stands for whatever
    an AWS call raises. *)
Inductive exn : Type :=
| ZeroDivisionError
| ValueError (msg : string)
| KeyError (key : string)
| IndexError
| OSError (msg : string)
| ClientError (msg : string).

(** Outcome of an expression that may raise. *)
Inductive exc (A : Type) : Type :=
| Ok (a : A)
| Raise (e : exn).
Arguments Ok {A} a.
Arguments Raise {A} e.

Definition exc_bind {A B} (x : exc A) (f : A -> exc B) : exc B :=
  match x with
  | Ok a => f a
  | Raise e => Raise e
  end.

(** Truth value of a list: [if l:]. *)
Definition truthy {A} (l : list A) : bool :=
  match l with
  | [] => false
  | _ :: _ => true
  end.

(** [any(bs)]. *)
Definition any (bs : list bool) : bool := existsb (fun b => b) bs.

(** [len(l)] as an integer, and the float an integer becomes in mixed
    arithmetic. *)
Definition len {A} (l : list A) : Z := Z.of_nat (List.length l).

Definition float_of_int (n : Z) : float := PrimFloat.of_uint63 (Uint63.of_Z n).

(** [sum(l)] on floats: the accumulator starts at the integer 0, which the
    first addition turns into 0.0, and the elements are added from the left.
    (From CPython 3.12 on [sum] also carries a compensation term; it changes
    the result only when a partial sum is inexact.) *)
Definition sum (l : list float) : float := fold_left PrimFloat.add l 0.

(** [x / y] on floats raises ZeroDivisionError when [y] is a zero. *)
Definition truediv (x y : float) : exc float :=
  if (y =? 0) then Raise ZeroDivisionError else Ok (x / y).

(** [min(l)] and [max(l)]: the first element, replaced by a later one only
    when that one is strictly smaller (larger). ValueError on []. *)
Definition min_from (x : float) (l : list float) : float :=
  fold_left (fun acc y => if (y <? acc) then y else acc) l x.

Definition max_from (x : float) (l : list float) : float :=
  fold_left (fun acc y => if (acc <? y) then y else acc) l x.

Definition min (l : list float) : exc float :=
  match l with
  | [] => Raise (ValueError "min() arg is an empty sequence")
  | x :: r => Ok (min_from x r)
  end.

Definition max (l : list float) : exc float :=
  match l with
  | [] => Raise (ValueError "max() arg is an empty sequence")
  | x :: r => Ok (max_from x r)
  end.

(** [min(l, key=key)]: the first element whose key is smallest. *)
Definition min_by {A} (key : A -> float) (l : list A) : exc A :=
  match l with
  | [] => Raise (ValueError "min() arg is an empty sequence")
  | x :: r =>
      Ok (fold_left (fun acc y => if (key y <? key acc) then y else acc) r x)
  end.

(** [sorted(l, key=key)] with integer keys: a stable sort. *)
Fixpoint insert_by {A} (key : A -> Z) (x : A) (l : list A) : list A :=
  match l with
  | [] => [x]
  | y :: r => if (key y <=? key x)%Z then y :: insert_by key x r else x :: l
  end.

Definition sorted {A} (key : A -> Z) (l : list A) : list A :=
  fold_left (fun acc x => insert_by key x acc) l [].

(** [s.lower()] on ASCII text and [sub in s]. *)
Definition lower_ascii (c : ascii) : ascii :=
  let n := nat_of_ascii c in
  if ((65 <=? n) && (n <=? 90))%nat then ascii_of_nat (n + 32) else c.

Fixpoint lower (s : string) : string :=
  match s with
  | EmptyString => EmptyString
  | String c r => String (lower_ascii c) (lower r)
  end.

Fixpoint contains (sub s : string) : bool :=
  String.prefix sub s ||
  match s with
  | EmptyString => false
  | String _ r => contains sub r
  end.

End Py.

(** A [dict] with string keys, in insertion order. *)
Module Dict.

Definition t (V : Type) : Type := list (string * V).

Definition empty {V} : t V := [].

Fixpoint get {V} (d : t V) (k : string) : option V :=
  match d with
  | [] => None
  | (k', v) :: r => if String.eqb k k' then Some v else get r k
  end.

(** [d.get(k, default)]. *)
Definition get_default {V} (d : t V) (k : string) (default : V) : V :=
  match get d k with
  | Some v => v
  | None => default
  end.

(** [d[k] = v]: an existing key keeps its place. *)
Fixpoint set {V} (d : t V) (k : string) (v : V) : t V :=
  match d with
  | [] => [(k, v)]
  | (k', v') :: r =>
      if String.eqb k k' then (k, v) :: r else (k', v') :: set r k v
  end.

(** [d.values()]. *)
Definition values {V} (d : t V) : list V := map snd d.

End Dict.

(** ** The provider: answers and effects *)

Module Aws.

Import Py.

(** One entry of [SpotPriceHistory]. [SpotPrice] is the outcome of
    [float(price_info['SpotPrice'])]: the text the provider sent may fail
    to convert. *)
Record spot_price_info : Type := {
  InstanceType : string;
  AvailabilityZone : string;
  SpotPrice : exc float;
  PriceTimestamp : Z
}.

(** One entry of [Datapoints] of [get_metric_statistics]. *)
Record datapoint : Type := {
  Timestamp : Z;
  Average : float
}.

Record tag : Type := { Key : string; Value : string }.

Record asg_instance : Type := { AsgInstanceId : string }.

(** One entry of [AutoScalingGroups]. *)
Record auto_scaling_group : Type := {
  AutoScalingGroupName : string;
  Tags : list tag;
  DesiredCapacity : Z;
  MinSize : Z;
  MaxSize : Z;
  Instances : list asg_instance
}.

(** The calls that change something outside the process. *)
Inductive event : Type :=
| SetDesiredCapacity (AutoScalingGroupName : string) (DesiredCapacity : Z)
| SnsPublish (TopicArn Subject : string)
| CostAlertWarning (daily_cost threshold : float).

(** A computation that may perform such calls and may raise: the calls
    performed so far, then the outcome. *)
Definition M (A : Type) : Type := (list event * exc A)%type.

Definition ret {A} (a : A) : M A := ([], Ok a).

Definition bind {A B} (m : M A) (f : A -> M B) : M B :=
  match m with
  | (log, Ok a) => let (log', r) := f a in (log ++ log', r)
  | (log, Raise e) => (log, Raise e)
  end.

(** A computation without effects. *)
Definition lift {A} (x : exc A) : M A := ([], x).

(** Perform one call: it is logged, whatever its outcome. *)
Definition perform {A} (ev : event) (outcome : exc A) : M A := ([ev], outcome).

(** [try: m except Exception as e: h e]. *)
Definition try_except {A} (m : M A) (h : exn -> M A) : M A :=
  match m with
  | (log, Ok a) => (log, Ok a)
  | (log, Raise e) => let (log', r) := h e in (log ++ log', r)
  end.

Definition events {A} (m : M A) : list event := fst m.
Definition outcome {A} (m : M A) : exc A := snd m.

End Aws.

Declare Scope exc_scope.
Delimit Scope exc_scope with exc.
Notation "x <- m ;; k" := (Py.exc_bind m (fun x => k))
  (at level 61, m at next level, right associativity) : exc_scope.

Declare Scope aws_scope.
Delimit Scope aws_scope with aws.
Notation "x <- m ;; k" := (Aws.bind m (fun x => k))
  (at level 61, m at next level, right associativity) : aws_scope.

(** ** cost-optimization-lambda.py *)

Module Lambda.

Import Py Aws.

(** *** Answers of the boto3 clients *)

(** One element of [PriceList], after [json.loads] and the chain of [get]:
    the OnDemand terms, each with its price dimensions, each dimension the
    outcome of [float(... .get('USD', '0'))]. *)
Definition price_item : Type := exc (list (list (exc float))).

Record instance : Type := {
  InstanceId : string;
  InstanceKind : string; (* instance['InstanceType'] *)
  LaunchTime : Z
}.

(** One entry of [Groups] of [get_cost_and_usage]; [Amount] is the outcome
    of [float(group['Metrics']['BlendedCost']['Amount'])]. *)
Record cost_group : Type := {
  Keys : list string;
  Amount : exc float
}.

Record activity : Type := { Description : string }.

Record clients : Type := {
  describe_availability_zones : exc (list string);
  describe_spot_price_history :
    list string -> list string -> exc (list spot_price_info);
  get_products : string -> exc (list price_item);
  describe_instances : exc (list (list instance));
  get_metric_statistics : string -> string -> string -> exc (list datapoint);
  get_cost_and_usage : exc (list (list cost_group));
  get_cost_forecast : exc float;
  describe_auto_scaling_groups : exc (list auto_scaling_group);
  describe_scaling_activities : string -> exc (list activity);
  sns_publish : string -> string -> exc unit
}.

Record thresholds : Type := {
  daily_warning : float;
  daily_critical : float;
  monthly_warning : float;
  monthly_critical : float
}.

(** [self] of [AIStarterKitCostOptimizer]. *)
Record optimizer : Type := {
  region : string;
  cost_thresholds : thresholds;
  sns_topic_arn : option string;
  aws : clients
}.

(** *** Report values *)

Record az_stat : Type := {
  current_price : float;
  avg_price : float;
  min_price : float;
  max_price : float;
  price_volatility : float
}.

(** An entry of the spot price analysis: [{'error': str(e)}] or the four
    fields of the analysis. *)
Inductive price_entry : Type :=
| PriceError (error : exn)
| PriceData (availability_zones : Dict.t az_stat) (on_demand_price : float)
    (best_az : option string) (max_savings_percent : float).

(** An idle resource; the fields computed from the clock (runtime hours,
    estimated cost) are left out. *)
Record idle_resource : Type := {
  instance_id : string;
  instance_type : string;
  launch_time : Z
}.

Inductive cost_insights : Type :=
| InsightsError (error : exn)
| Insights (current_month_cost forecasted_month_cost : float)
    (service_breakdown : Dict.t float) (cost_trend : string)
    (savings_opportunities : list string).

Record scaling_recommendation : Type := {
  sr_type : string;
  current : Z;
  recommended : Z
}.

Record optimization : Type := {
  asg_name : string;
  current_config : Z * Z * Z; (* desired, min, max *)
  recent_activities : Z * Z; (* scale_ups, scale_downs *)
  recommendations : list scaling_recommendation
}.

Inductive scaling_result : Type :=
| ScalingError (error : exn)
| Optimizations (optimizations : list optimization).

Record recommendation : Type := {
  type : string;
  priority : string;
  subject : string (* the instance type or the figure the message cites *)
}.

Record report : Type := {
  report_region : string;
  spot_price_analysis : Dict.t price_entry;
  idle_resources : list idle_resource;
  report_cost_insights : cost_insights;
  scaling_optimizations : scaling_result;
  report_recommendations : list recommendation
}.

Section Methods.

(** [round(x, 2)] of the Python runtime. *)
Variable round2 : float -> float.

(** *** analyze_spot_price_trends *)

Definition instance_types : list string :=
  ["g4dn.xlarge"; "g4dn.2xlarge"; "g4dn.4xlarge"; "g4ad.xlarge"; "g5.xlarge"].

(** [_get_on_demand_price]: the first price dimension met, 0.0 when there
    is none or when anything raises. *)
Fixpoint first_dimension (terms : list (list (exc float)))
  : option (exc float) :=
  match terms with
  | [] => None
  | [] :: rest => first_dimension rest
  | (dim :: _) :: _ => Some dim
  end.

Fixpoint first_price (items : list price_item) : exc (option float) :=
  match items with
  | [] => Ok None
  | item :: rest =>
      (terms <- item ;;
       match first_dimension terms with
       | Some dim => (p <- dim ;; Ok (Some p))
       | None => first_price rest
       end)%exc
  end.

Definition _get_on_demand_price (self : optimizer) (instance_type : string)
  : float :=
  match (items <- get_products (aws self) instance_type ;;
         first_price items)%exc with
  | Ok (Some price_per_hour) => price_per_hour
  | Ok None => 0.0
  | Raise _ => 0.0
  end.

(** The loop that fills [prices_by_az]. *)
Definition add_price (prices_by_az : Dict.t (list float))
    (price_info : spot_price_info) : exc (Dict.t (list float)) :=
  (let az := AvailabilityZone price_info in
   price <- SpotPrice price_info ;;
   Ok (match Dict.get prices_by_az az with
       | None => Dict.set prices_by_az az [price]
       | Some prices => Dict.set prices_by_az az (prices ++ [price])
       end))%exc.

Definition group_prices (history : list spot_price_info)
  : exc (Dict.t (list float)) :=
  fold_left (fun acc price_info =>
               (d <- acc ;; add_price d price_info)%exc)
            history (Ok Dict.empty).

(** ['price_volatility']: the division is evaluated only under the guard
    [min(prices) > 0]. *)
Definition price_volatility_of (prices : list float) : exc float :=
  (lo <- min prices ;;
   if (0 <? lo)
   then (hi <- max prices ;; truediv (hi - lo) lo)
   else Ok 0)%exc.

(** The dictionary built for one zone. *)
Definition az_stat_of (prices : list float) : exc az_stat :=
  (first <- match prices with
            | [] => Raise IndexError
            | p :: _ => Ok p
            end ;;
   avg <- truediv (sum prices) (float_of_int (len prices)) ;;
   lo <- min prices ;;
   hi <- max prices ;;
   vol <- price_volatility_of prices ;;
   Ok {| current_price := first; avg_price := avg; min_price := lo;
         max_price := hi; price_volatility := vol |})%exc.

Definition az_stats_of (prices_by_az : Dict.t (list float))
  : exc (Dict.t az_stat) :=
  fold_left (fun acc item =>
               (az_stats <- acc ;;
                let '(az, prices) := item in
                if truthy prices
                then (st <- az_stat_of prices ;; Ok (Dict.set az_stats az st))
                else Ok az_stats)%exc)
            prices_by_az (Ok Dict.empty).

(** ['max_savings_percent']: the division is evaluated only under the
    guard [az_stats and on_demand_price > 0]. *)
Definition max_savings_percent_of (az_stats : Dict.t az_stat)
    (on_demand_price : float) : exc float :=
  if truthy az_stats && (0 <? on_demand_price)
  then (lowest <- min (map current_price (Dict.values az_stats)) ;;
        q <- truediv lowest on_demand_price ;;
        Ok (100 * (1 - q)))%exc
  else Ok 0.

Definition best_az_of (az_stats : Dict.t az_stat) : exc (option string) :=
  if truthy az_stats
  then (best <- min_by (fun x => current_price (snd x)) az_stats ;;
        Ok (Some (fst best)))%exc
  else Ok None.

(** The body of the [try] of the loop over the instance types. *)
Definition analyze_instance_type_body (self : optimizer)
    (availability_zones : list string) (instance_type : string)
  : exc price_entry :=
  (history <- describe_spot_price_history (aws self) [instance_type]
                availability_zones ;;
   prices_by_az <- group_prices history ;;
   az_stats <- az_stats_of prices_by_az ;;
   let on_demand_price := _get_on_demand_price self instance_type in
   best <- best_az_of az_stats ;;
   savings <- max_savings_percent_of az_stats on_demand_price ;;
   Ok (PriceData az_stats on_demand_price best savings))%exc.

(** One turn of the loop: the body, with its [except] clause. *)
Definition analyze_instance_type (self : optimizer)
    (availability_zones : list string) (instance_type : string)
  : price_entry :=
  match analyze_instance_type_body self availability_zones instance_type with
  | Ok entry => entry
  | Raise e => PriceError e
  end.

Definition analyze_spot_price_trends (self : optimizer)
  : exc (Dict.t price_entry) :=
  (availability_zones <- describe_availability_zones (aws self) ;;
   Ok (fold_left
         (fun price_analysis instance_type =>
            Dict.set price_analysis instance_type
              (analyze_instance_type self availability_zones instance_type))
         instance_types Dict.empty))%exc.

(** *** check_idle_resources *)

Definition metric_queries : list (string * string) :=
  [("GPUUtilization", "GPU/AI-Starter-Kit");
   ("GPUMemoryUtilization", "GPU/AI-Starter-Kit");
   ("CPUUtilization", "AWS/EC2")].

(** [_get_instance_metrics(instance_id, hours)]: one query per metric,
    each with its own [except] clause. The window only selects the answer
    of the provider. *)
Definition _get_instance_metrics (self : optimizer) (instance_id : string)
  : Dict.t (list float) :=
  fold_left
    (fun metrics query =>
       let '(name, namespace) := query in
       match get_metric_statistics (aws self) namespace name instance_id with
       | Ok datapoints =>
           Dict.set metrics name (map Average (sorted Timestamp datapoints))
       | Raise _ => Dict.set metrics name []
       end)
    metric_queries Dict.empty.

(** [_is_instance_idle(metrics, instance_id)]. *)
Definition _is_instance_idle (metrics : Dict.t (list float))
    (instance_id : string) : bool :=
  let gpu_util := Dict.get_default metrics "GPUUtilization" [] in
  let gpu_memory := Dict.get_default metrics "GPUMemoryUtilization" [] in
  let cpu_util := Dict.get_default metrics "CPUUtilization" [] in
  if truthy gpu_util && (0 <? len gpu_util)%Z
     && (5.0 <=? sum gpu_util / float_of_int (len gpu_util))
  then false
  else if truthy gpu_memory && (0 <? len gpu_memory)%Z
     && (10.0 <=? sum gpu_memory / float_of_int (len gpu_memory))
  then false
  else if truthy cpu_util && (0 <? len cpu_util)%Z
     && (10.0 <=? sum cpu_util / float_of_int (len cpu_util))
  then false
  else if negb (any [truthy gpu_util; truthy gpu_memory; truthy cpu_util])
  then false
  else true.

(** The body of the loop over the instances. *)
Definition check_instance (self : optimizer) (inst : instance)
  : list idle_resource :=
  let gpu_metrics := _get_instance_metrics self (InstanceId inst) in
  if _is_instance_idle gpu_metrics (InstanceId inst)
  then [{| instance_id := InstanceId inst;
           instance_type := InstanceKind inst;
           launch_time := LaunchTime inst |}]
  else [].

(** [check_idle_resources]: no [try] around the call of
    [describe_instances]. *)
Definition check_idle_resources (self : optimizer)
  : exc (list idle_resource) :=
  (reservations <- describe_instances (aws self) ;;
   Ok (flat_map (fun reservation => flat_map (check_instance self) reservation)
                reservations))%exc.

(** *** get_cost_insights *)

Definition add_group (acc : float * Dict.t float) (group : cost_group)
  : exc (float * Dict.t float) :=
  (let '(total_cost, service_costs) := acc in
   let service := match Keys group with
                  | k :: _ => k
                  | [] => "Unknown"
                  end in
   cost <- Amount group ;;
   Ok (total_cost + cost,
       Dict.set service_costs service
         (Dict.get_default service_costs service 0 + cost)))%exc.

Definition get_cost_insights_body (self : optimizer) : exc cost_insights :=
  (results <- get_cost_and_usage (aws self) ;;
   acc <- fold_left (fun acc group => (a <- acc ;; add_group a group)%exc)
            (List.concat results) (Ok (0.0, Dict.empty)) ;;
   let '(total_cost, service_costs) := acc in
   forecasted_cost <- get_cost_forecast (aws self) ;;
   Ok (Insights (round2 total_cost) (round2 forecasted_cost)
         (map (fun kv => (fst kv, round2 (snd kv))) service_costs)
         (if (total_cost <? forecasted_cost) then "increasing" else "stable")
         (if (monthly_warning (cost_thresholds self) <? total_cost)
          then ["cost_alert"] else [])))%exc.

Definition get_cost_insights (self : optimizer) : cost_insights :=
  match get_cost_insights_body self with
  | Ok insights => insights
  | Raise e => InsightsError e
  end.

(** *** optimize_auto_scaling *)

Definition is_ai_starter_kit (asg : auto_scaling_group) : bool :=
  existsb (fun tag => String.eqb (Key tag) "Project"
                      && String.eqb (Value tag) "AI-Starter-Kit")
          (Tags asg).

(** The counters [recent_scale_ups] and [recent_scale_downs]. *)
Definition count_activities (activities : list activity) : Z * Z :=
  fold_left
    (fun counts activity =>
       let '(ups, downs) := counts in
       if contains "scale up" (lower (Description activity))
       then (ups + 1, downs)%Z
       else if contains "scale down" (lower (Description activity))
       then (ups, downs + 1)%Z
       else (ups, downs))
    activities (0, 0)%Z.

Definition scaling_recommendations (current_capacity min_size max_size
    recent_scale_ups recent_scale_downs : Z) : list scaling_recommendation :=
  (if (recent_scale_ups =? 0)%Z && (min_size <? current_capacity)%Z
   then [{| sr_type := "reduce_capacity"; current := current_capacity;
            recommended := Z.max min_size (current_capacity - 1) |}]
   else [])
  ++
  (if (recent_scale_downs <? recent_scale_ups)%Z && (max_size <? 10)%Z
   then [{| sr_type := "increase_max_capacity"; current := max_size;
            recommended := Z.min 10 (max_size + 2) |}]
   else []).

(** One turn of the loop over the groups. *)
Definition optimize_group (self : optimizer) (asg : auto_scaling_group)
  : exc (list optimization) :=
  if negb (is_ai_starter_kit asg) then Ok []
  else
    (activities <- describe_scaling_activities (aws self)
                     (AutoScalingGroupName asg) ;;
     let '(ups, downs) := count_activities activities in
     Ok [{| asg_name := AutoScalingGroupName asg;
            current_config := (DesiredCapacity asg, MinSize asg, MaxSize asg);
            recent_activities := (ups, downs);
            recommendations :=
              scaling_recommendations (DesiredCapacity asg) (MinSize asg)
                (MaxSize asg) ups downs |}])%exc.

Definition optimize_auto_scaling_body (self : optimizer)
  : exc (list optimization) :=
  (groups <- describe_auto_scaling_groups (aws self) ;;
   fold_left (fun acc asg =>
                (done <- acc ;; more <- optimize_group self asg ;;
                 Ok (done ++ more))%exc)
             groups (Ok []))%exc.

Definition optimize_auto_scaling (self : optimizer) : scaling_result :=
  match optimize_auto_scaling_body self with
  | Ok optimizations => Optimizations optimizations
  | Raise e => ScalingError e
  end.

(** *** send_cost_alert *)

Definition send_cost_alert (self : optimizer) (alert_type : string)
  : M bool :=
  match sns_topic_arn self with
  | None => ret false
  | Some topic =>
      if String.eqb topic "" then ret false
      else
        let subject :=
          String.append "AI Starter Kit Cost Alert - " alert_type in
        try_except
          (_ <- perform (SnsPublish topic subject)
                  (sns_publish (aws self) topic subject) ;;
           ret true)%aws
          (fun _ => ret false)
  end.

(** *** generate_comprehensive_report *)

Definition spot_recommendations (spot_analysis : Dict.t price_entry)
  : list recommendation :=
  flat_map
    (fun item =>
       match snd item with
       | PriceData _ _ _ savings =>
           if (60 <? savings)
           then [{| type := "spot_savings"; priority := "high";
                    subject := fst item |}]
           else []
       | PriceError _ => []
       end)
    spot_analysis.

Definition idle_recommendations (idle : list idle_resource)
  : list recommendation :=
  if truthy idle
  then [{| type := "idle_resources"; priority := "medium";
           subject := "idle resources" |}]
  else [].

Definition cost_recommendations (self : optimizer) (insights : cost_insights)
  : list recommendation :=
  match insights with
  | Insights current_cost _ _ _ _ =>
      if (monthly_critical (cost_thresholds self) <? current_cost)
      then [{| type := "cost_alert"; priority := "critical";
               subject := "monthly costs" |}]
      else if (monthly_warning (cost_thresholds self) <? current_cost)
      then [{| type := "cost_alert"; priority := "warning";
               subject := "monthly costs" |}]
      else []
  | InsightsError _ => []
  end.

Definition is_critical (r : recommendation) : bool :=
  String.eqb (priority r) "critical".

Definition generate_comprehensive_report (self : optimizer) : M report :=
  (spot <- lift (analyze_spot_price_trends self) ;;
   idle <- lift (check_idle_resources self) ;;
   let insights := get_cost_insights self in
   let scaling := optimize_auto_scaling self in
   let recommendations :=
     spot_recommendations spot ++ idle_recommendations idle
     ++ cost_recommendations self insights in
   let rep := {| report_region := region self;
                 spot_price_analysis := spot;
                 idle_resources := idle;
                 report_cost_insights := insights;
                 scaling_optimizations := scaling;
                 report_recommendations := recommendations |} in
   let critical_recommendations := filter is_critical recommendations in
   if truthy critical_recommendations
   then (_ <- send_cost_alert self "critical_cost_alert" ;; ret rep)
   else ret rep)%aws.

(** *** lambda_handler *)

Inductive result : Type :=
| SpotAnalysis (r : Dict.t price_entry)
| IdleCheck (r : list idle_resource)
| CostInsights (r : cost_insights)
| ScalingOptimization (r : scaling_result)
| ComprehensiveReport (r : report).

(** The dictionary the handler returns: the status code and the body
    before serialisation. *)
Inductive response : Type :=
| Response200 (body : result)
| Response500 (error : exn).

(** [lambda_handler(event, context)]. [init] is the outcome of the
    constructor call and [event] the dictionary of the invocation. *)
Definition lambda_handler (init : exc optimizer) (event : Dict.t string)
  : M response :=
  try_except
    (optim <- lift init ;;
     let action := Dict.get_default event "action" "comprehensive_report" in
     res <- (if String.eqb action "spot_analysis"
             then lift (r <- analyze_spot_price_trends optim ;;
                        Ok (SpotAnalysis r))%exc
             else if String.eqb action "idle_check"
             then lift (r <- check_idle_resources optim ;;
                        Ok (IdleCheck r))%exc
             else if String.eqb action "cost_insights"
             then ret (CostInsights (get_cost_insights optim))
             else if String.eqb action "scaling_optimization"
             then ret (ScalingOptimization (optimize_auto_scaling optim))
             else (r <- generate_comprehensive_report optim ;;
                   ret (ComprehensiveReport r))) ;;
     ret (Response200 res))%aws
    (fun e => ret (Response500 e)).

End Methods.

End Lambda.

(** ** cost-optimization-automation.py *)

Module Automation.

Import Py Aws.

Record CostOptimizationConfig : Type := {
  region : string;
  instance_type : string;
  max_spot_price : float;
  target_utilization : float;
  scale_down_threshold : float;
  idle_timeout_minutes : Z;
  cost_alert_threshold : float
}.

(** The defaults of the dataclass. *)
Definition config : CostOptimizationConfig :=
  {| region := "us-east-1";
     instance_type := "g4dn.xlarge";
     max_spot_price := 0.75;
     target_utilization := 70.0;
     scale_down_threshold := 20.0;
     idle_timeout_minutes := 30;
     cost_alert_threshold := 50.0 |}.

(** Answers of the boto3 clients. [get_metric_statistics] takes the
    instance id and the length of the window in minutes; [save_report] is
    the writing of the report file. *)
Record clients : Type := {
  describe_spot_price_history : exc (list spot_price_info);
  get_metric_statistics : string -> Z -> exc (list datapoint);
  describe_auto_scaling_groups : string -> exc (list auto_scaling_group);
  set_desired_capacity : string -> Z -> exc unit;
  save_report : exc unit
}.

(** [self] of [CostOptimizationManager]. *)
Record manager : Type := {
  self_config : CostOptimizationConfig;
  instance_id : string;
  asg_name : option string;
  aws : clients
}.

(** [self.asg_name] when it is true as a condition. *)
Definition asg_name_if_set (self : manager) : option string :=
  match asg_name self with
  | Some name => if String.eqb name "" then None else Some name
  | None => None
  end.

Record spot_entry : Type := {
  price : float;
  timestamp : Z;
  az : string
}.

(** One turn of the loop of [get_current_spot_prices]. *)
Definition keep_latest (current_prices : Dict.t spot_entry)
    (p : spot_price_info) : exc (Dict.t spot_entry) :=
  let newer :=
    match Dict.get current_prices (InstanceType p) with
    | None => true
    | Some entry => (timestamp entry <? PriceTimestamp p)%Z
    end in
  if newer
  then (value <- SpotPrice p ;;
        Ok (Dict.set current_prices (InstanceType p)
              {| price := value; timestamp := PriceTimestamp p;
                 az := AvailabilityZone p |}))%exc
  else Ok current_prices.

Definition get_current_spot_prices_body (self : manager)
  : exc (Dict.t spot_entry) :=
  (history <- describe_spot_price_history (aws self) ;;
   fold_left (fun acc p => (d <- acc ;; keep_latest d p)%exc)
             history (Ok Dict.empty))%exc.

(** [get_current_spot_prices]: one query for the four instance types,
    inside one [try]; [{}] when anything raises. *)
Definition get_current_spot_prices (self : manager) : Dict.t spot_entry :=
  match get_current_spot_prices_body self with
  | Ok current_prices => current_prices
  | Raise _ => Dict.empty
  end.

Definition get_on_demand_prices : Dict.t float :=
  [("g4dn.xlarge", 1.19); ("g4dn.2xlarge", 2.38); ("g4ad.xlarge", 0.95);
   ("g5.xlarge", 1.21)].

Record savings : Type := {
  spot_price : float;
  on_demand_price : float;
  hourly_savings : float;
  daily_savings : float;
  monthly_savings : float;
  savings_percent : float
}.

(** The analysis of one instance type that has an on-demand price. *)
Definition savings_of (spot on_demand : float) : exc savings :=
  (let hourly := on_demand - spot in
   let daily := hourly * 24 in
   let monthly := daily * 30 in
   q <- truediv hourly on_demand ;;
   Ok {| spot_price := spot; on_demand_price := on_demand;
         hourly_savings := hourly; daily_savings := daily;
         monthly_savings := monthly; savings_percent := q * 100 |})%exc.

Definition potential_savings (spot_prices : Dict.t spot_entry)
    (on_demand_prices : Dict.t float) : exc (Dict.t savings) :=
  fold_left
    (fun acc item =>
       (savings_analysis <- acc ;;
        let '(instance_type, entry) := item in
        match Dict.get on_demand_prices instance_type with
        | Some on_demand =>
            s <- savings_of (price entry) on_demand ;;
            Ok (Dict.set savings_analysis instance_type s)
        | None => Ok savings_analysis
        end)%exc)
    spot_prices (Ok Dict.empty).

Definition calculate_potential_savings (self : manager)
  : exc (Dict.t savings) :=
  potential_savings (get_current_spot_prices self) get_on_demand_prices.

(** [get_gpu_utilization]: the average of the last data point of the last
    ten minutes; 0.0 when there is none and when the query raises. *)
Definition get_gpu_utilization (self : manager) : float :=
  match get_metric_statistics (aws self) (instance_id self) 10 with
  | Ok datapoints =>
      match rev datapoints with
      | last :: _ => Average last
      | [] => 0.0
      end
  | Raise _ => 0.0
  end.

(** The loop of [check_idle_instances]; a query that raises ends it with
    the instances found so far. The divisor is the length of a non-empty
    list. *)
Fixpoint idle_among (self : manager) (instances : list asg_instance)
  : list string :=
  match instances with
  | [] => []
  | inst :: rest =>
      match get_metric_statistics (aws self) (AsgInstanceId inst)
              (idle_timeout_minutes (self_config self)) with
      | Ok datapoints =>
          (if truthy datapoints
              && (sum (map Average datapoints) / float_of_int (len datapoints)
                  <? scale_down_threshold (self_config self))
           then [AsgInstanceId inst]
           else [])
          ++ idle_among self rest
      | Raise _ => []
      end
  end.

Definition check_idle_instances (self : manager) : list string :=
  match asg_name_if_set self with
  | None => []
  | Some name =>
      match describe_auto_scaling_groups (aws self) name with
      | Ok (asg :: _) => idle_among self (Instances asg)
      | Ok [] => []
      | Raise _ => []
      end
  end.

(** [optimize_spot_instance_pricing]: it only logs; the lookup of the best
    option in [spot_prices] is the one expression that may raise. *)
Definition best_option_of (self : manager) (savings_analysis : Dict.t savings)
  : option string * float :=
  fold_left
    (fun best item =>
       let '(instance_type, analysis) := item in
       if (snd best <? savings_percent analysis)
          && (spot_price analysis <=? max_spot_price (self_config self))
       then (Some instance_type, savings_percent analysis)
       else best)
    savings_analysis (None, 0).

Definition optimize_spot_instance_pricing (self : manager) : exc unit :=
  (let spot_prices := get_current_spot_prices self in
   savings_analysis <- calculate_potential_savings self ;;
   match fst (best_option_of self savings_analysis) with
   | Some best_option =>
       match Dict.get spot_prices best_option with
       | Some _ => Ok tt
       | None => Raise (KeyError best_option)
       end
   | None => Ok tt
   end)%exc.

(** [implement_auto_scaling]. *)
Definition implement_auto_scaling (self : manager) : M unit :=
  let current_utilization := get_gpu_utilization self in
  match asg_name_if_set self with
  | None => ret tt
  | Some name =>
      try_except
        (groups <- lift (describe_auto_scaling_groups (aws self) name) ;;
         match groups with
         | [] => ret tt
         | asg :: _ =>
             let current_capacity := DesiredCapacity asg in
             let max_capacity := MaxSize asg in
             let min_capacity := MinSize asg in
             if (target_utilization (self_config self) <? current_utilization)
                && (current_capacity <? max_capacity)%Z
             then
               let new_capacity := Z.min (current_capacity + 1) max_capacity in
               perform (SetDesiredCapacity name new_capacity)
                 (set_desired_capacity (aws self) name new_capacity)
             else if (current_utilization
                      <? scale_down_threshold (self_config self))
                     && (min_capacity <? current_capacity)%Z
             then
               let idle_instances := check_idle_instances self in
               if (0 <? len idle_instances)%Z
               then
                 let new_capacity :=
                   Z.max (current_capacity - 1) min_capacity in
                 perform (SetDesiredCapacity name new_capacity)
                   (set_desired_capacity (aws self) name new_capacity)
               else ret tt
             else ret tt
         end)%aws
        (fun _ => ret tt)
  end.

(** [optimize_storage_costs] and [cleanup_unused_resources] read and log
    inside a [try] of their own: no effect, no exception. *)
Definition optimize_storage_costs (self : manager) : M unit := ret tt.
Definition cleanup_unused_resources (self : manager) : M unit := ret tt.

(** [_send_cost_alert]: the alert is the warning it logs. *)
Definition _send_cost_alert (self : manager) (daily_cost : float) : M unit :=
  try_except
    (perform (CostAlertWarning daily_cost
                (cost_alert_threshold (self_config self)))
             (Ok tt))
    (fun _ => ret tt).

(** [monitor_daily_costs]. *)
Definition monitor_daily_costs (self : manager) : M float :=
  try_except
    (let current_utilization := get_gpu_utilization self in
     let spot_prices := get_current_spot_prices self in
     match Dict.get spot_prices (instance_type (self_config self)) with
     | Some entry =>
         let hourly_cost := price entry in
         let estimated_daily_cost := hourly_cost * 24 in
         _ <- (if (cost_alert_threshold (self_config self)
                   <? estimated_daily_cost)
               then _send_cost_alert self estimated_daily_cost
               else ret tt) ;;
         ret estimated_daily_cost
     | None => ret 0.0
     end)%aws
    (fun _ => ret 0.0).

Record report : Type := {
  report_instance_id : string;
  current_gpu_utilization : float;
  estimated_daily_cost : float;
  spot_prices : Dict.t spot_entry;
  savings_analysis : Dict.t savings;
  recommendations : list string
}.

(** [generate_cost_report]; the recommendations are named by their
    subject. *)
Definition generate_cost_report (self : manager) : M report :=
  (let spot := get_current_spot_prices self in
   analysis <- lift (calculate_potential_savings self) ;;
   let current_utilization := get_gpu_utilization self in
   daily <- monitor_daily_costs self ;;
   best_instance <- lift (if truthy analysis
                          then (b <- min_by (fun x => spot_price (snd x))
                                       analysis ;;
                                Ok (Some b))%exc
                          else Ok None) ;;
   ret {| report_instance_id := instance_id self;
          current_gpu_utilization := current_utilization;
          estimated_daily_cost := daily;
          spot_prices := spot;
          savings_analysis := analysis;
          recommendations :=
            (if (current_utilization <? 30)
             then ["low GPU utilization"] else [])
            ++ (if (cost_alert_threshold (self_config self) <? daily)
                then ["daily cost exceeds threshold"] else [])
            ++ match best_instance with
               | Some (instance_type, analysis) =>
                   if (50 <? savings_percent analysis)
                   then [instance_type] else []
               | None => []
               end |})%aws.

(** [run_optimization_cycle]. *)
Definition run_optimization_cycle (self : manager) : M unit :=
  try_except
    (_ <- lift (optimize_spot_instance_pricing self) ;;
     _ <- implement_auto_scaling self ;;
     _ <- optimize_storage_costs self ;;
     _ <- monitor_daily_costs self ;;
     _ <- cleanup_unused_resources self ;;
     report <- generate_cost_report self ;;
     _ <- lift (save_report (aws self)) ;;
     ret tt)%aws
    (fun _ => ret tt).

End Automation.

(** ** Vocabulary of the statements *)

(** The metrics dictionary [_get_instance_metrics] hands to the idle
    detector. *)
Definition metrics_of (gpu_util gpu_mem_util cpu_util : list float)
  : Dict.t (list float) :=
  [("GPUUtilization", gpu_util); ("GPUMemoryUtilization", gpu_mem_util);
   ("CPUUtilization", cpu_util)].

(** [sum(l) / len(l)], the average the idle detector compares. *)
Definition average (l : list float) : float :=
  Py.sum l / Py.float_of_int (Py.len l).

(** A float that is a number: a zero or a finite non-zero value. *)
Definition is_number (x : float) : bool :=
  match Prim2SF x with
  | S754_zero _ | S754_finite _ _ _ => true
  | _ => false
  end.

Definition sf_number (x : spec_float) : Prop :=
  match x with
  | S754_zero _ | S754_finite _ _ _ => True
  | _ => False
  end.

Definition positive_finite (x : float) : bool :=
  match Prim2SF x with
  | S754_finite false _ _ => true
  | _ => false
  end.

(** The most data points one call of [get_metric_statistics] returns. *)
Definition max_datapoints : nat := 1440.

(** A metric passes when it has no sample or when its average is not at or
    above the bound. *)
Definition passes (bound : float) (samples : list float) : bool :=
  negb (Py.truthy samples && (bound <=? average samples)).

(** Data points in ascending order of their timestamps. *)
Definition by_timestamp (a b : Aws.datapoint) : Prop :=
  (Aws.Timestamp a <= Aws.Timestamp b)%Z.

(** At most one call, and only a publication. *)
Definition at_most_one_publish (calls : list Aws.event) : Prop :=
  calls = [] \/ exists topic subject, calls = [Aws.SnsPublish topic subject].

(** ** Scenarios

    Concrete providers and managers the statements are tried on. *)

Module Scenario.

Import Py Aws.

(** A group of three instances, between 1 and 5. *)
Definition gpu_asg : auto_scaling_group :=
  {| AutoScalingGroupName := "gpu-asg";
     Tags := [{| Key := "Project"; Value := "AI-Starter-Kit" |}];
     DesiredCapacity := 3;
     MinSize := 1;
     MaxSize := 5;
     Instances := [{| AsgInstanceId := "i-01" |}; {| AsgInstanceId := "i-02" |};
                   {| AsgInstanceId := "i-03" |}] |}.

(** A provider that reports the same GPU utilization for every instance, at
    two points in time, and the given spot price history. *)
Definition steady_clients (utilization : float) (prices : list spot_price_info)
  : Automation.clients :=
  {| Automation.describe_spot_price_history := Ok prices;
     Automation.get_metric_statistics := fun _ _ =>
       Ok [{| Timestamp := 1000; Average := utilization |};
           {| Timestamp := 1300; Average := utilization |}];
     Automation.describe_auto_scaling_groups := fun _ => Ok [gpu_asg];
     Automation.set_desired_capacity := fun _ _ => Ok tt;
     Automation.save_report := Ok tt |}.

Definition cheap_prices : list spot_price_info :=
  [{| InstanceType := "g4dn.xlarge"; AvailabilityZone := "us-east-1a";
      SpotPrice := Ok 0.5; PriceTimestamp := 1000 |}].

(** The manager of instance i-01 with the default configuration, at 85% GPU
    utilization. *)
Definition busy_manager : Automation.manager :=
  {| Automation.self_config := Automation.config;
     Automation.instance_id := "i-01";
     Automation.asg_name := Some "gpu-asg";
     Automation.aws := steady_clients 85 cheap_prices |}.

(** The same manager when every instance is at 3%. *)
Definition idle_manager : Automation.manager :=
  {| Automation.self_config := Automation.config;
     Automation.instance_id := "i-01";
     Automation.asg_name := Some "gpu-asg";
     Automation.aws := steady_clients 3 cheap_prices |}.

(** A provider that has no data point for the last ten minutes and a 3%
    average over the longer window of the idle check. *)
Definition blind_clients : Automation.clients :=
  {| Automation.describe_spot_price_history := Ok cheap_prices;
     Automation.get_metric_statistics := fun _ minutes =>
       if (minutes =? 10)%Z then Ok []
       else Ok [{| Timestamp := 100; Average := 3 |}];
     Automation.describe_auto_scaling_groups := fun _ => Ok [gpu_asg];
     Automation.set_desired_capacity := fun _ _ => Ok tt;
     Automation.save_report := Ok tt |}.

Definition blind_manager : Automation.manager :=
  {| Automation.self_config := Automation.config;
     Automation.instance_id := "i-01";
     Automation.asg_name := Some "gpu-asg";
     Automation.aws := blind_clients |}.

(** The price history with one more record, for another instance type,
    whose price text does not convert. *)
Definition garbled_prices : list spot_price_info :=
  cheap_prices
  ++ [{| InstanceType := "g5.xlarge"; AvailabilityZone := "us-east-1b";
         SpotPrice := Raise (ValueError "could not convert string to float");
         PriceTimestamp := 1000 |}].

Definition garbled_manager : Automation.manager :=
  {| Automation.self_config := Automation.config;
     Automation.instance_id := "i-01";
     Automation.asg_name := Some "gpu-asg";
     Automation.aws := steady_clients 85 garbled_prices |}.

(** A spot price of 3 dollars an hour: 72 dollars a day, above the alert
    threshold of 50. *)
Definition costly_prices : list spot_price_info :=
  [{| InstanceType := "g4dn.xlarge"; AvailabilityZone := "us-east-1a";
      SpotPrice := Ok 3; PriceTimestamp := 1000 |}].

Definition costly_manager : Automation.manager :=
  {| Automation.self_config := Automation.config;
     Automation.instance_id := "i-01";
     Automation.asg_name := Some "gpu-asg";
     Automation.aws := steady_clients 50 costly_prices |}.

End Scenario.

Module LambdaScenario.

Import Py Aws.

(** A provider for the Lambda: one zone, one running instance whose three
    metrics stay at [utilization], the group [Scenario.gpu_asg] with no
    scaling activity, and a month-to-date cost of [month_cost]. *)
Definition steady_clients (utilization month_cost : float) : Lambda.clients :=
  {| Lambda.describe_availability_zones := Ok ["us-east-1a"];
     Lambda.describe_spot_price_history := fun _ _ =>
       Ok [{| InstanceType := "g4dn.xlarge"; AvailabilityZone := "us-east-1a";
              SpotPrice := Ok 0.5; PriceTimestamp := 1000 |}];
     Lambda.get_products := fun _ => Ok [Ok [[Ok 1]]];
     Lambda.describe_instances :=
       Ok [[{| Lambda.InstanceId := "i-01";
               Lambda.InstanceKind := "g4dn.xlarge";
               Lambda.LaunchTime := 0 |}]];
     Lambda.get_metric_statistics := fun _ _ _ =>
       Ok [{| Timestamp := 1300; Average := utilization |};
           {| Timestamp := 1000; Average := utilization |}];
     Lambda.get_cost_and_usage :=
       Ok [[{| Lambda.Keys := ["Amazon Elastic Compute Cloud"];
               Lambda.Amount := Ok month_cost |}]];
     Lambda.get_cost_forecast := Ok month_cost;
     Lambda.describe_auto_scaling_groups := Ok [Scenario.gpu_asg];
     Lambda.describe_scaling_activities := fun _ => Ok [];
     Lambda.sns_publish := fun _ _ => Ok tt |}.

(** The thresholds the constructor reads when the environment sets none. *)
Definition default_thresholds : Lambda.thresholds :=
  {| Lambda.daily_warning := 50.0;
     Lambda.daily_critical := 100.0;
     Lambda.monthly_warning := 1000.0;
     Lambda.monthly_critical := 2000.0 |}.

Definition optimizer_with (clients : Lambda.clients) : Lambda.optimizer :=
  {| Lambda.region := "us-east-1";
     Lambda.cost_thresholds := default_thresholds;
     Lambda.sns_topic_arn := Some "arn:aws:sns:us-east-1:000000000000:alerts";
     Lambda.aws := clients |}.

(** Every instance at 95%, 120 dollars spent this month. *)
Definition busy_optimizer : Lambda.optimizer :=
  optimizer_with (steady_clients 95 120).

(** [round(x, 2)] on the amounts of the scenarios, which have no more than
    two decimals. *)
Definition round2_exact (x : float) : float := x.

(** The same provider when the listing of the instances is throttled. *)
Definition throttled_clients : Lambda.clients :=
  {| Lambda.describe_availability_zones := Ok ["us-east-1a"];
     Lambda.describe_spot_price_history :=
       Lambda.describe_spot_price_history (steady_clients 95 120);
     Lambda.get_products := Lambda.get_products (steady_clients 95 120);
     Lambda.describe_instances := Raise (ClientError "RequestLimitExceeded");
     Lambda.get_metric_statistics :=
       Lambda.get_metric_statistics (steady_clients 95 120);
     Lambda.get_cost_and_usage := Lambda.get_cost_and_usage (steady_clients 95 120);
     Lambda.get_cost_forecast := Ok 120;
     Lambda.describe_auto_scaling_groups := Ok [Scenario.gpu_asg];
     Lambda.describe_scaling_activities := fun _ => Ok [];
     Lambda.sns_publish := fun _ _ => Ok tt |}.

Definition throttled_optimizer : Lambda.optimizer :=
  optimizer_with throttled_clients.

(** 2500 dollars spent this month, above the critical threshold of 2000. *)
Definition overspent_optimizer : Lambda.optimizer :=
  optimizer_with (steady_clients 95 2500).

(** A provider with no data point for any metric. *)
Definition silent_clients : Lambda.clients :=
  {| Lambda.describe_availability_zones := Ok ["us-east-1a"];
     Lambda.describe_spot_price_history :=
       Lambda.describe_spot_price_history (steady_clients 95 120);
     Lambda.get_products := Lambda.get_products (steady_clients 95 120);
     Lambda.describe_instances :=
       Lambda.describe_instances (steady_clients 95 120);
     Lambda.get_metric_statistics := fun _ _ _ => Ok [];
     Lambda.get_cost_and_usage := Lambda.get_cost_and_usage (steady_clients 95 120);
     Lambda.get_cost_forecast := Ok 120;
     Lambda.describe_auto_scaling_groups := Ok [Scenario.gpu_asg];
     Lambda.describe_scaling_activities := fun _ => Ok [];
     Lambda.sns_publish := fun _ _ => Ok tt |}.

Definition silent_optimizer : Lambda.optimizer := optimizer_with silent_clients.

(** A provider whose price history fails for g5.xlarge alone. *)
Definition partial_clients : Lambda.clients :=
  {| Lambda.describe_availability_zones := Ok ["us-east-1a"];
     Lambda.describe_spot_price_history := fun types zones =>
       if existsb (String.eqb "g5.xlarge") types
       then Raise (ClientError "InternalError")
       else Lambda.describe_spot_price_history (steady_clients 95 120)
              types zones;
     Lambda.get_products := Lambda.get_products (steady_clients 95 120);
     Lambda.describe_instances :=
       Lambda.describe_instances (steady_clients 95 120);
     Lambda.get_metric_statistics :=
       Lambda.get_metric_statistics (steady_clients 95 120);
     Lambda.get_cost_and_usage := Lambda.get_cost_and_usage (steady_clients 95 120);
     Lambda.get_cost_forecast := Ok 120;
     Lambda.describe_auto_scaling_groups := Ok [Scenario.gpu_asg];
     Lambda.describe_scaling_activities := fun _ => Ok [];
     Lambda.sns_publish := fun _ _ => Ok tt |}.

Definition partial_optimizer : Lambda.optimizer :=
  optimizer_with partial_clients.

End LambdaScenario.

(** ** Vocabulary of the further properties *)

(** The keys of a dictionary are distinct. *)
Definition keys_distinct {V} (d : Dict.t V) : Prop := NoDup (map fst d).

(** The price text of a record converts. *)
Definition price_converts (p : Aws.spot_price_info) : Prop :=
  exists value, Aws.SpotPrice p = Py.Ok value.

(** The prices of the records of one zone, in the order of the history. *)
Definition prices_in (az : string) (history : list Aws.spot_price_info)
  : list float :=
  flat_map (fun p => if String.eqb az (Aws.AvailabilityZone p)
                     then match Aws.SpotPrice p with
                          | Py.Ok value => [value]
                          | Py.Raise _ => []
                          end
                     else [])
           history.

(** The entry [get_current_spot_prices] builds from a record. *)
Definition entry_of (p : Aws.spot_price_info) (e : Automation.spot_entry)
  : Prop :=
  Aws.SpotPrice p = Py.Ok (Automation.price e)
  /\ Aws.PriceTimestamp p = Automation.timestamp e
  /\ Aws.AvailabilityZone p = Automation.az e.

Module MoreScenarios.

Import Py Aws.

(** A history with two records of g4dn.xlarge, the later one last, and one
    record of g5.xlarge. *)
Definition mixed_prices : list spot_price_info :=
  [{| InstanceType := "g4dn.xlarge"; AvailabilityZone := "us-east-1a";
      SpotPrice := Ok 0.5; PriceTimestamp := 1000 |};
   {| InstanceType := "g5.xlarge"; AvailabilityZone := "us-east-1b";
      SpotPrice := Ok 0.25; PriceTimestamp := 900 |};
   {| InstanceType := "g4dn.xlarge"; AvailabilityZone := "us-east-1c";
      SpotPrice := Ok 0.75; PriceTimestamp := 1200 |}].

Definition mixed_manager : Automation.manager :=
  {| Automation.self_config := Automation.config;
     Automation.instance_id := "i-01";
     Automation.asg_name := Some "gpu-asg";
     Automation.aws := Scenario.steady_clients 50 mixed_prices |}.

End MoreScenarios.

(** The analysis [calculate_potential_savings] stores for a spot price and
    an on-demand price. *)
Definition savings_entry (spot on_demand : float) : Automation.savings :=
  {| Automation.spot_price := spot;
     Automation.on_demand_price := on_demand;
     Automation.hourly_savings := on_demand - spot;
     Automation.daily_savings := (on_demand - spot) * 24;
     Automation.monthly_savings := (on_demand - spot) * 24 * 30;
     Automation.savings_percent := (on_demand - spot) / on_demand * 100 |}.

(** An analysis whose spot price is within [max_spot_price]. *)
Definition affordable (self : Automation.manager) (a : Automation.savings)
  : bool :=
  Automation.spot_price a
  <=? Automation.max_spot_price (Automation.self_config self).

Module FailingScenario.

Import Py Aws.

(** A provider whose utilization query fails for instance i-02: i-01 and
    i-03 are at 3%. *)
Definition flaky_clients : Automation.clients :=
  {| Automation.describe_spot_price_history := Ok Scenario.cheap_prices;
     Automation.get_metric_statistics := fun id _ =>
       if String.eqb id "i-02" then Raise (ClientError "Throttling")
       else Ok [{| Timestamp := 1000; Average := 3 |}];
     Automation.describe_auto_scaling_groups := fun _ => Ok [Scenario.gpu_asg];
     Automation.set_desired_capacity := fun _ _ => Ok tt;
     Automation.save_report := Ok tt |}.

Definition flaky_manager : Automation.manager :=
  {| Automation.self_config := Automation.config;
     Automation.instance_id := "i-01";
     Automation.asg_name := Some "gpu-asg";
     Automation.aws := flaky_clients |}.

(** A provider whose spot price query is throttled. *)
Definition priceless_clients : Automation.clients :=
  {| Automation.describe_spot_price_history :=
       Raise (ClientError "RequestLimitExceeded");
     Automation.get_metric_statistics := fun _ _ =>
       Ok [{| Timestamp := 1000; Average := 50 |}];
     Automation.describe_auto_scaling_groups := fun _ => Ok [Scenario.gpu_asg];
     Automation.set_desired_capacity := fun _ _ => Ok tt;
     Automation.save_report := Ok tt |}.

Definition priceless_manager : Automation.manager :=
  {| Automation.self_config := Automation.config;
     Automation.instance_id := "i-01";
     Automation.asg_name := Some "gpu-asg";
     Automation.aws := priceless_clients |}.

End FailingScenario.

(** The optimization [optimize_auto_scaling] records for a group, given the
    answer of its activity query. *)
Definition optimization_of (asg : Aws.auto_scaling_group)
    (activities : list Lambda.activity) : Lambda.optimization :=
  {| Lambda.asg_name := Aws.AutoScalingGroupName asg;
     Lambda.current_config :=
       (Aws.DesiredCapacity asg, Aws.MinSize asg, Aws.MaxSize asg);
     Lambda.recent_activities := Lambda.count_activities activities;
     Lambda.recommendations :=
       Lambda.scaling_recommendations (Aws.DesiredCapacity asg)
         (Aws.MinSize asg) (Aws.MaxSize asg)
         (fst (Lambda.count_activities activities))
         (snd (Lambda.count_activities activities)) |}.

(** A query that brought no data: it raised or returned no data point. *)
Definition no_data (answer : Py.exc (list Aws.datapoint)) : Prop :=
  match answer with
  | Py.Ok datapoints => datapoints = []
  | Py.Raise _ => True
  end.

Module ScalingScenario.

Import Py Aws.

(** A second group, without the project tag, and a provider that lists both
    groups and reports two scale-ups and one scale-down for the tagged one. *)
Definition other_asg : auto_scaling_group :=
  {| AutoScalingGroupName := "web-asg";
     Tags := [{| Key := "Project"; Value := "Website" |}];
     DesiredCapacity := 2;
     MinSize := 2;
     MaxSize := 4;
     Instances := [] |}.

Definition active_clients : Lambda.clients :=
  {| Lambda.describe_availability_zones := Ok ["us-east-1a"];
     Lambda.describe_spot_price_history :=
       Lambda.describe_spot_price_history (LambdaScenario.steady_clients 95 120);
     Lambda.get_products := fun _ => Raise (ClientError "AccessDenied");
     Lambda.describe_instances :=
       Lambda.describe_instances (LambdaScenario.steady_clients 95 120);
     Lambda.get_metric_statistics :=
       Lambda.get_metric_statistics (LambdaScenario.steady_clients 95 120);
     Lambda.get_cost_and_usage :=
       Lambda.get_cost_and_usage (LambdaScenario.steady_clients 95 120);
     Lambda.get_cost_forecast := Ok 150;
     Lambda.describe_auto_scaling_groups := Ok [other_asg; Scenario.gpu_asg];
     Lambda.describe_scaling_activities := fun name =>
       if String.eqb name "gpu-asg"
       then Ok [{| Lambda.Description := "Scale up to 3 instances" |};
                {| Lambda.Description := "Launching: scale up" |};
                {| Lambda.Description := "Scale down after scale up" |};
                {| Lambda.Description := "scale down to 2" |};
                {| Lambda.Description := "Health check" |}]
       else Raise (ClientError "ValidationError");
     Lambda.sns_publish := fun _ _ => Raise (ClientError "EndpointDisabled") |}.

Definition active_optimizer : Lambda.optimizer :=
  LambdaScenario.optimizer_with active_clients.

(** The same listing when every activity query is throttled. *)
Definition throttled_clients : Lambda.clients :=
  {| Lambda.describe_availability_zones := Ok ["us-east-1a"];
     Lambda.describe_spot_price_history :=
       Lambda.describe_spot_price_history (LambdaScenario.steady_clients 95 120);
     Lambda.get_products := fun _ => Raise (ClientError "AccessDenied");
     Lambda.describe_instances :=
       Lambda.describe_instances (LambdaScenario.steady_clients 95 120);
     Lambda.get_metric_statistics :=
       Lambda.get_metric_statistics (LambdaScenario.steady_clients 95 120);
     Lambda.get_cost_and_usage :=
       Lambda.get_cost_and_usage (LambdaScenario.steady_clients 95 120);
     Lambda.get_cost_forecast := Ok 150;
     Lambda.describe_auto_scaling_groups := Ok [other_asg; Scenario.gpu_asg];
     Lambda.describe_scaling_activities := fun _ =>
       Raise (ClientError "Throttling");
     Lambda.sns_publish := fun _ _ => Ok tt |}.

Definition throttled_optimizer : Lambda.optimizer :=
  LambdaScenario.optimizer_with throttled_clients.

End ScalingScenario.

(** The actions of the handler that run one stage only. *)
Definition single_stage_actions : list string :=
  ["spot_analysis"; "idle_check"; "cost_insights"; "scaling_optimization"].

(** The action an event asks for. *)
Definition action_of (event : Dict.t string) : string :=
  Dict.get_default event "action" "comprehensive_report".

(** The amount of a cost group converts. *)
Definition amount_converts (g : Lambda.cost_group) : Prop :=
  exists value, Lambda.Amount g = Py.Ok value.

(** The service a cost group is booked on. *)
Definition service_of (g : Lambda.cost_group) : string :=
  match Lambda.Keys g with
  | k :: _ => k
  | [] => "Unknown"
  end.

(** The amounts of the groups, and those of one service, in their order. *)
Definition amounts (groups : list Lambda.cost_group) : list float :=
  flat_map (fun g => match Lambda.Amount g with
                     | Py.Ok value => [value]
                     | Py.Raise _ => []
                     end)
           groups.

Definition booked_on (service : string) (g : Lambda.cost_group) : bool :=
  String.eqb service (service_of g).

Definition amounts_of (service : string) (groups : list Lambda.cost_group)
  : list float :=
  amounts (filter (booked_on service) groups).

(** The cost insights show a month-to-date cost above the critical
    threshold. *)
Definition over_critical (round2 : float -> float) (self : Lambda.optimizer)
  : bool :=
  match Lambda.get_cost_insights round2 self with
  | Lambda.Insights current_cost _ _ _ _ =>
      Lambda.monthly_critical (Lambda.cost_thresholds self) <? current_cost
  | Lambda.InsightsError _ => false
  end.

Module CostScenario.

Import Py Aws.

(** Three cost groups on two services, and a forecast query that fails. *)
Definition booked_groups : list (list Lambda.cost_group) :=
  [[{| Lambda.Keys := ["Amazon Elastic Compute Cloud"];
       Lambda.Amount := Ok 1500 |};
    {| Lambda.Keys := ["Amazon Simple Storage Service"];
       Lambda.Amount := Ok 250 |}];
   [{| Lambda.Keys := ["Amazon Elastic Compute Cloud"];
       Lambda.Amount := Ok 750 |}]].

Definition booked_clients (forecast : exc float) : Lambda.clients :=
  {| Lambda.describe_availability_zones := Ok ["us-east-1a"];
     Lambda.describe_spot_price_history :=
       Lambda.describe_spot_price_history (LambdaScenario.steady_clients 95 120);
     Lambda.get_products :=
       Lambda.get_products (LambdaScenario.steady_clients 95 120);
     Lambda.describe_instances :=
       Lambda.describe_instances (LambdaScenario.steady_clients 95 120);
     Lambda.get_metric_statistics :=
       Lambda.get_metric_statistics (LambdaScenario.steady_clients 95 120);
     Lambda.get_cost_and_usage := Ok booked_groups;
     Lambda.get_cost_forecast := forecast;
     Lambda.describe_auto_scaling_groups := Ok [Scenario.gpu_asg];
     Lambda.describe_scaling_activities := fun _ => Ok [];
     Lambda.sns_publish := fun _ _ => Ok tt |}.

(** 2500 dollars booked, 3000 forecast. *)
Definition booked_optimizer : Lambda.optimizer :=
  LambdaScenario.optimizer_with (booked_clients (Ok 3000)).

(** The same costs when the forecast is not available. *)
Definition unforecast_optimizer : Lambda.optimizer :=
  LambdaScenario.optimizer_with
    (booked_clients (Raise (ClientError "DataUnavailableException"))).

End CostScenario.

(** The optimizer with another topic and another answer of the SNS
    client, everything else unchanged. *)
Definition with_sns (self : Lambda.optimizer) (topic : option string)
    (publish : string -> string -> Py.exc unit) : Lambda.optimizer :=
  {| Lambda.region := Lambda.region self;
     Lambda.cost_thresholds := Lambda.cost_thresholds self;
     Lambda.sns_topic_arn := topic;
     Lambda.aws :=
       {| Lambda.describe_availability_zones :=
            Lambda.describe_availability_zones (Lambda.aws self);
          Lambda.describe_spot_price_history :=
            Lambda.describe_spot_price_history (Lambda.aws self);
          Lambda.get_products := Lambda.get_products (Lambda.aws self);
          Lambda.describe_instances :=
            Lambda.describe_instances (Lambda.aws self);
          Lambda.get_metric_statistics :=
            Lambda.get_metric_statistics (Lambda.aws self);
          Lambda.get_cost_and_usage :=
            Lambda.get_cost_and_usage (Lambda.aws self);
          Lambda.get_cost_forecast :=
            Lambda.get_cost_forecast (Lambda.aws self);
          Lambda.describe_auto_scaling_groups :=
            Lambda.describe_auto_scaling_groups (Lambda.aws self);
          Lambda.describe_scaling_activities :=
            Lambda.describe_scaling_activities (Lambda.aws self);
          Lambda.sns_publish := publish |} |}.

(** ** Facts about floats *)

Lemma SFcompare_swap (x y : spec_float) :
  SFcompare y x = option_map CompOpp (SFcompare x y).
Proof.
  destruct x as [s|s| |s m e], y as [s'|s'| |s' m' e']; cbn;
    try reflexivity;
    try (destruct s; reflexivity); try (destruct s'; reflexivity);
    try (destruct s, s'; reflexivity).
  destruct s, s'; try reflexivity;
    rewrite (Z.compare_antisym e' e); destruct (e' ?= e)%Z; cbn;
    try reflexivity;
    rewrite Pos.compare_cont_antisym; cbn;
    try rewrite CompOpp_involutive; reflexivity.
Qed.

Lemma is_nan_false_iff (x : float) :
  PrimFloat.is_nan x = false <-> Prim2SF x <> S754_nan.
Proof.
  unfold PrimFloat.is_nan. rewrite eqb_spec. unfold SFeqb.
  destruct (Prim2SF x) as [s|s| |s m e]; cbn; split; try congruence;
    intros _; destruct s; try reflexivity;
    rewrite Z.compare_refl, ?Pos.compare_cont_refl; reflexivity.
Qed.

(** On numbers, [x < y] is the negation of [y <= x]. *)
Lemma ltb_negb_leb (x y : float) :
  PrimFloat.is_nan x = false -> PrimFloat.is_nan y = false ->
  (x <? y) = negb (y <=? x).
Proof.
  intros Hx%is_nan_false_iff Hy%is_nan_false_iff.
  rewrite ltb_spec, leb_spec. unfold SFltb, SFleb.
  rewrite (SFcompare_swap (Prim2SF x) (Prim2SF y)).
  destruct (Prim2SF x) as [s|s| |s m e]; try congruence;
    destruct (Prim2SF y) as [s'|s'| |s' m' e']; try congruence;
    destruct (SFcompare _ _) as [[]|] eqn:E; cbn; try reflexivity;
    cbn in E; discriminate E.
Qed.

(** A float above zero is not a zero. *)
Lemma positive_not_zero (x : float) : (0 <? x) = true -> (x =? 0) = false.
Proof.
  rewrite ltb_spec, eqb_spec.
  change (Prim2SF 0) with (S754_zero false).
  destruct (Prim2SF x) as [s|s| |s m e]; cbn; try congruence;
    destruct s; cbn; congruence.
Qed.

Lemma truediv_positive (x y : float) :
  (0 <? y) = true -> Py.truediv x y = Py.Ok (x / y).
Proof.
  intros H. unfold Py.truediv. rewrite (positive_not_zero _ H). reflexivity.
Qed.

(** *** Sums and quotients of numbers are not NaN *)

Lemma shr_1_nonneg (mrs : shr_record) :
  (0 <= shr_m mrs)%Z -> (0 <= shr_m (shr_1 mrs))%Z.
Proof. destruct mrs as [[|[p|p|]|[p|p|]] r s]; cbn; lia. Qed.

Lemma iter_shr_1_nonneg (p : positive) :
  forall mrs, (0 <= shr_m mrs)%Z -> (0 <= shr_m (iter_pos shr_1 p mrs))%Z.
Proof.
  induction p as [p IH|p IH|]; cbn [iter_pos]; intros mrs H.
  - apply IH, IH, shr_1_nonneg, H.
  - apply IH, IH, H.
  - apply shr_1_nonneg, H.
Qed.

Lemma shr_fexp_nonneg (m e : Z) (l : location) :
  (0 <= m)%Z -> (0 <= shr_m (fst (shr_fexp prec emax m e l)))%Z.
Proof.
  intros H. unfold shr_fexp, shr.
  assert (H0 : (0 <= shr_m (shr_record_of_loc m l))%Z)
    by (destruct l as [|[]]; exact H).
  destruct (_ - e)%Z; cbn [fst]; try exact H0.
  apply iter_shr_1_nonneg, H0.
Qed.

Lemma round_nearest_even_nonneg (m : Z) (l : location) :
  (0 <= m)%Z -> (0 <= round_nearest_even m l)%Z.
Proof.
  intros H. destruct l as [|[]]; cbn; try lia. destruct (Z.even m); lia.
Qed.

(** Rounding a non-negative mantissa gives a zero, a finite value or an
    infinity. *)
Lemma binary_round_aux_not_nan (sx : bool) (mx ex : Z) (lx : location) :
  (0 <= mx)%Z -> binary_round_aux prec emax sx mx ex lx <> S754_nan.
Proof.
  intros H. unfold binary_round_aux.
  pose proof (shr_fexp_nonneg mx ex lx H) as H1.
  destruct (shr_fexp prec emax mx ex lx) as [mrs' e']. cbn [fst] in H1.
  pose proof (shr_fexp_nonneg _ e' loc_Exact
                (round_nearest_even_nonneg _ (loc_of_shr_record mrs') H1)) as H2.
  destruct (shr_fexp prec emax _ e' loc_Exact) as [mrs'' e'']. cbn [fst] in H2.
  destruct (shr_m mrs''); [discriminate| |lia].
  destruct (Z.leb _ _); discriminate.
Qed.

Lemma binary_normalize_not_nan (m e : Z) (s : bool) :
  binary_normalize prec emax m e s <> S754_nan.
Proof.
  unfold binary_normalize, binary_round.
  destruct m; [discriminate| |];
    destruct (shl_align _ _ _); apply binary_round_aux_not_nan; lia.
Qed.

Lemma SF64add_not_nan (x y : spec_float) :
  x <> S754_nan -> sf_number y -> SF64add x y <> S754_nan.
Proof.
  intros Hx Hy. unfold SF64add, SFadd.
  destruct x as [sx|sx| |sx mx ex]; try congruence;
    destruct y as [sy|sy| |sy my ey]; try contradiction;
    try discriminate; try (destruct sx, sy; discriminate).
  apply binary_normalize_not_nan.
Qed.

Lemma SF64div_not_nan (x : spec_float) (sy : bool) (my : positive) (ey : Z) :
  x <> S754_nan -> SF64div x (S754_finite sy my ey) <> S754_nan.
Proof.
  intros Hx. unfold SF64div, SFdiv.
  destruct x as [sx|sx| |sx mx ex]; try congruence; try discriminate.
  unfold SFdiv_core_binary.
  set (m' := match _ with Zpos _ => _ | Z0 => _ | Zneg _ => _ end).
  assert (Hm : (0 <= m')%Z).
  { subst m'. destruct (_ - _ - _)%Z; try lia.
    apply Z.shiftl_nonneg. lia. }
  pose proof (Z_div_mod m' (Zpos my) eq_refl) as D.
  destruct (Z.div_eucl m' (Zpos my)) as [q r].
  apply binary_round_aux_not_nan. nia.
Qed.

Lemma sum_from_not_nan (l : list float) :
  forall acc, Prim2SF acc <> S754_nan -> forallb is_number l = true ->
  Prim2SF (fold_left PrimFloat.add l acc) <> S754_nan.
Proof.
  induction l as [|x l IH]; intros acc Hacc Hl; cbn [fold_left]; [exact Hacc|].
  cbn [forallb] in Hl. apply andb_true_iff in Hl. destruct Hl as [Hx Hl].
  apply IH; [|exact Hl]. rewrite add_spec. apply SF64add_not_nan; [exact Hacc|].
  unfold is_number in Hx. unfold sf_number.
  destruct (Prim2SF x); (exact I || discriminate Hx).
Qed.

(** The length of a list of at most [max_datapoints] samples converts to a
    positive finite float. *)
Lemma float_of_small_length :
  forallb (fun n => positive_finite (Py.float_of_int (Z.of_nat n)))
          (seq 1 max_datapoints) = true.
Proof. vm_compute. reflexivity. Qed.

(** The average of the samples of one query is a number when the samples
    are. *)
Lemma average_is_number (l : list float) :
  l <> [] -> (List.length l <= max_datapoints)%nat ->
  forallb is_number l = true ->
  PrimFloat.is_nan (average l) = false.
Proof.
  intros Hne Hlen Hl. apply is_nan_false_iff.
  unfold average. rewrite div_spec.
  assert (Hy : positive_finite (Py.float_of_int (Py.len l)) = true).
  { pose proof float_of_small_length as F.
    rewrite forallb_forall in F. apply (F (List.length l)).
    apply in_seq. destruct l; [congruence|cbn [List.length] in *; lia]. }
  unfold positive_finite in Hy.
  destruct (Prim2SF (Py.float_of_int (Py.len l))) as [s|s| |s m e];
    try discriminate Hy.
  apply SF64div_not_nan. apply sum_from_not_nan; [|exact Hl].
  vm_compute. discriminate.
Qed.



(** ** The idle detector *)

Section IdleDetector.

Import Py.

Variable metrics : Dict.t (list float).
Variable instance_id : string.

Let gpu_util := Dict.get_default metrics "GPUUtilization" [].
Let gpu_memory := Dict.get_default metrics "GPUMemoryUtilization" [].
Let cpu_util := Dict.get_default metrics "CPUUtilization" [].

Lemma nonempty_guard {A} (l : list A) :
  truthy l && (0 <? len l)%Z = truthy l.
Proof. destruct l; reflexivity. Qed.

(** The four tests of [_is_instance_idle] as one conjunction. *)
Lemma is_instance_idle_unfold :
  Lambda._is_instance_idle metrics instance_id =
  passes 5.0 gpu_util && passes 10.0 gpu_memory && passes 10.0 cpu_util
  && any [truthy gpu_util; truthy gpu_memory; truthy cpu_util].
Proof.
  unfold Lambda._is_instance_idle, passes, average.
  fold gpu_util gpu_memory cpu_util.
  rewrite !nonempty_guard.
  destruct (truthy gpu_util && _); [reflexivity|].
  destruct (truthy gpu_memory && _); [reflexivity|].
  destruct (truthy cpu_util && _); [reflexivity|].
  cbn [negb andb]. destruct (any _); reflexivity.
Qed.

End IdleDetector.

Lemma passes_nonempty (bound : float) (samples : list float) :
  samples <> [] ->
  passes bound samples = negb (bound <=? average samples).
Proof. intros H. unfold passes. destruct samples; [congruence|reflexivity]. Qed.

Lemma passes_empty (bound : float) : passes bound [] = true.
Proof. reflexivity. Qed.

(** C1, as the code has it: an empty sequence does not disqualify by itself.
    The verdict is "idle" exactly when at least one of the three sequences is
    non-empty and no non-empty sequence has an average at or above its bound
    (5.0 for GPU utilization, 10.0 for GPU memory and CPU); in particular the
    verdict is "not idle" when all three sequences are empty. *)
Theorem idle_skips_empty_metrics (metrics : Dict.t (list float)) (iid : string) :
  let gpu_util := Dict.get_default metrics "GPUUtilization" [] in
  let gpu_memory := Dict.get_default metrics "GPUMemoryUtilization" [] in
  let cpu_util := Dict.get_default metrics "CPUUtilization" [] in
  (Lambda._is_instance_idle metrics iid = true <->
     (gpu_util <> [] \/ gpu_memory <> [] \/ cpu_util <> [])
     /\ (gpu_util <> [] -> (5.0 <=? average gpu_util) = false)
     /\ (gpu_memory <> [] -> (10.0 <=? average gpu_memory) = false)
     /\ (cpu_util <> [] -> (10.0 <=? average cpu_util) = false))
  /\ (gpu_util = [] /\ gpu_memory = [] /\ cpu_util = [] ->
      Lambda._is_instance_idle metrics iid = false).
Proof.
  intros gu gm cu. rewrite is_instance_idle_unfold. fold gu gm cu.
  split.
  - destruct gu as [|g gu'], gm as [|m gm'], cu as [|c cu'];
      rewrite ?passes_empty, ?passes_nonempty by discriminate;
      cbn [Py.any existsb Py.truthy orb andb];
      repeat match goal with
             | |- context [negb (?b <=? ?x)] => destruct (b <=? x)
             end;
      cbn [negb andb]; intuition (congruence || discriminate).
  - intros (-> & -> & ->). reflexivity.
Qed.

(** C1, the input of the claim: with no GPU-utilization sample and low
    memory and CPU averages the verdict of the code is "idle". *)
Lemma idle_with_empty_gpu_util :
  Dict.get_default (metrics_of [] [5] [1]) "GPUUtilization" [] = []
  /\ Lambda._is_instance_idle (metrics_of [] [5] [1]) "i-0abc" = true.
Proof. split; vm_compute; reflexivity. Qed.

(** C1 on two inputs: no sample at all is "not idle"; with CPU samples alone,
    the CPU average decides. *)
Lemma idle_skips_empty_metrics_example :
  Lambda._is_instance_idle (metrics_of [] [] []) "i-0abc" = false
  /\ Lambda._is_instance_idle (metrics_of [] [] [2; 4]) "i-0abc" = true.
Proof.
  split.
  - apply (proj2 (idle_skips_empty_metrics (metrics_of [] [] []) "i-0abc")).
    repeat split.
  - apply (proj1 (idle_skips_empty_metrics (metrics_of [] [] [2; 4]) "i-0abc")).
    split; [right; right; discriminate|].
    repeat split; intros H; try (exfalso; apply H; reflexivity);
      vm_compute; reflexivity.
Defined.

(** C4: when the three sequences are non-empty, the verdict is "idle" exactly
    when average(gpu_util) < 5.0 and average(gpu_mem_util) < 10.0 and
    average(cpu_util) < 10.0, the three comparisons strict. The averages are
    taken to be numbers; by [average_is_number] they are whenever the samples
    of a query are numbers. *)
Theorem idle_iff_averages_below_thresholds
    (metrics : Dict.t (list float)) (iid : string)
    (gpu_util gpu_mem_util cpu_util : list float) :
  Dict.get_default metrics "GPUUtilization" [] = gpu_util ->
  Dict.get_default metrics "GPUMemoryUtilization" [] = gpu_mem_util ->
  Dict.get_default metrics "CPUUtilization" [] = cpu_util ->
  gpu_util <> [] -> gpu_mem_util <> [] -> cpu_util <> [] ->
  PrimFloat.is_nan (average gpu_util) = false ->
  PrimFloat.is_nan (average gpu_mem_util) = false ->
  PrimFloat.is_nan (average cpu_util) = false ->
  (Lambda._is_instance_idle metrics iid = true <->
   (average gpu_util <? 5.0) = true
   /\ (average gpu_mem_util <? 10.0) = true
   /\ (average cpu_util <? 10.0) = true).
Proof.
  intros Eg Em Ec Ng Nm Nc Fg Fm Fc.
  rewrite is_instance_idle_unfold, Eg, Em, Ec.
  rewrite !passes_nonempty by assumption.
  rewrite <- !ltb_negb_leb by (assumption || reflexivity).
  destruct gpu_util, gpu_mem_util, cpu_util; try congruence.
  cbn [Py.any existsb Py.truthy orb].
  rewrite andb_true_r, !andb_true_iff. tauto.
Qed.

(** C4, the example of the claim: averages 3.0, 5.5 and 1.5, verdict
    "idle". *)
Lemma idle_iff_averages_below_thresholds_example :
  (average [2;3;4] = 3.0 /\ average [5;6] = 5.5 /\ average [1;2] = 1.5)
  /\ Lambda._is_instance_idle (metrics_of [2;3;4] [5;6] [1;2]) "i-0abc" = true.
Proof.
  split; [repeat split; vm_compute; reflexivity|].
  apply (idle_iff_averages_below_thresholds
           (metrics_of [2;3;4] [5;6] [1;2]) "i-0abc" [2;3;4] [5;6] [1;2]);
    try reflexivity; try discriminate.
  repeat split; vm_compute; reflexivity.
Defined.

(** ** Divisions in the price computations *)

Section PriceDivisions.

Import Py.

Lemma on_demand_prices_positive (k : string) (v : float) :
  Dict.get Automation.get_on_demand_prices k = Some v -> (0 <? v) = true.
Proof.
  unfold Automation.get_on_demand_prices. cbn [Dict.get].
  repeat match goal with
         | |- context [String.eqb k ?s] => destruct (String.eqb k s)
         end;
    intros E; inversion E; subst; vm_compute; reflexivity.
Qed.

Lemma savings_of_ok (spot on_demand : float) :
  (0 <? on_demand) = true -> exists s, Automation.savings_of spot on_demand = Ok s.
Proof.
  intros H. unfold Automation.savings_of.
  rewrite (truediv_positive _ _ H). cbn. eexists. reflexivity.
Qed.

Lemma potential_savings_ok (spot_prices : Dict.t Automation.spot_entry) :
  exists d, Automation.potential_savings spot_prices
              Automation.get_on_demand_prices = Ok d.
Proof.
  unfold Automation.potential_savings.
  generalize (@Dict.empty Automation.savings).
  induction spot_prices as [|[k entry] rest IH]; intros acc; cbn [fold_left].
  - eexists. reflexivity.
  - cbn [exc_bind].
    destruct (Dict.get Automation.get_on_demand_prices k) as [v|] eqn:E.
    + destruct (savings_of_ok (Automation.price entry) v
                  (on_demand_prices_positive _ _ E)) as [s ->].
      cbn [exc_bind]. apply IH.
    + apply IH.
Qed.

Lemma price_volatility_of_cons (p : float) (rest : list float) :
  Lambda.price_volatility_of (p :: rest) =
  Ok (if (0 <? min_from p rest)
      then (max_from p rest - min_from p rest) / min_from p rest
      else 0).
Proof.
  unfold Lambda.price_volatility_of. cbn [min max exc_bind].
  destruct (0 <? min_from p rest) eqn:E; [|reflexivity].
  apply truediv_positive, E.
Qed.

Lemma max_savings_percent_of_ok (az_stats : Dict.t Lambda.az_stat)
    (on_demand_price : float) :
  exists v, Lambda.max_savings_percent_of az_stats on_demand_price = Ok v
            /\ ((0 <? on_demand_price) = false -> v = 0).
Proof.
  unfold Lambda.max_savings_percent_of.
  destruct az_stats as [|[az st] rest]; cbn [truthy andb].
  - exists 0. split; reflexivity.
  - destruct (0 <? on_demand_price) eqn:E.
    + cbn [Dict.values map min exc_bind].
      rewrite (truediv_positive _ _ E). cbn [exc_bind].
      eexists. split; [reflexivity|discriminate].
    + exists 0. split; reflexivity.
Qed.

End PriceDivisions.

(** C10: no price computation divides by zero. [price_volatility] divides by
    [min(prices)] only when it is above 0 and is 0 otherwise;
    [max_savings_percent] divides by the on-demand price only when it is above
    0 and is 0 otherwise; the entries of the on-demand table are all above 0
    and [calculate_potential_savings], which divides by them only, never
    raises. *)
Theorem price_divisions_never_by_zero :
  (forall p rest,
      Lambda.price_volatility_of (p :: rest) =
      Py.Ok (if (0 <? Py.min_from p rest)
             then (Py.max_from p rest - Py.min_from p rest) / Py.min_from p rest
             else 0))
  /\ (forall prices,
         Lambda.price_volatility_of prices <> Py.Raise Py.ZeroDivisionError)
  /\ (forall az_stats on_demand_price,
         exists v,
           Lambda.max_savings_percent_of az_stats on_demand_price = Py.Ok v
           /\ ((0 <? on_demand_price) = false -> v = 0))
  /\ (forall k v,
         Dict.get Automation.get_on_demand_prices k = Some v -> (0 <? v) = true)
  /\ (forall self, exists d, Automation.calculate_potential_savings self = Py.Ok d).
Proof.
  split; [exact price_volatility_of_cons|].
  split.
  { intros [|p rest]; [discriminate|].
    rewrite price_volatility_of_cons. discriminate. }
  split; [exact max_savings_percent_of_ok|].
  split; [exact on_demand_prices_positive|].
  intros self. apply potential_savings_ok.
Qed.

(** C10 on concrete prices: a zone whose lowest price is 0 has volatility 0,
    and the on-demand price of g4dn.xlarge is above 0. *)
Lemma price_divisions_never_by_zero_example :
  Lambda.price_volatility_of [0.5; 0; 0.25] = Py.Ok 0
  /\ Lambda.price_volatility_of [0.5; 0.75; 0.25] = Py.Ok 2
  /\ (0 <? 1.19) = true.
Proof.
  destruct price_divisions_never_by_zero as (Hv & _ & _ & Ht & _).
  split; [|split].
  - rewrite Hv. vm_compute. reflexivity.
  - rewrite Hv. vm_compute. reflexivity.
  - apply (Ht "g4dn.xlarge"). reflexivity.
Defined.

(** ** The scaling step of the automation script *)

Section AutoScaling.

Import Py Aws.

Variable self : Automation.manager.

Let utilization := Automation.get_gpu_utilization self.
Let target := Automation.target_utilization (Automation.self_config self).
Let low := Automation.scale_down_threshold (Automation.self_config self).

(** The calls of [implement_auto_scaling] when the group is found. *)
Lemma implement_auto_scaling_events (name : string) (asg : auto_scaling_group)
    (rest : list auto_scaling_group) :
  Automation.asg_name_if_set self = Some name ->
  Automation.describe_auto_scaling_groups (Automation.aws self) name
  = Ok (asg :: rest) ->
  events (Automation.implement_auto_scaling self) =
  if (target <? utilization) && (DesiredCapacity asg <? MaxSize asg)%Z
  then [SetDesiredCapacity name (DesiredCapacity asg + 1)]
  else if (utilization <? low) && (MinSize asg <? DesiredCapacity asg)%Z
          && (0 <? len (Automation.check_idle_instances self))%Z
  then [SetDesiredCapacity name (DesiredCapacity asg - 1)]
  else [].
Proof.
  intros Hname Hasg. unfold Automation.implement_auto_scaling.
  rewrite Hname, Hasg. fold utilization target low.
  unfold try_except, bind, lift, perform, ret, events.
  destruct (target <? utilization); cbn [andb].
  - destruct (DesiredCapacity asg <? MaxSize asg)%Z eqn:E.
    + apply Z.ltb_lt in E. rewrite Z.min_l by lia.
      destruct (Automation.set_desired_capacity _ _ _); reflexivity.
    + destruct (utilization <? low); cbn [andb]; [|reflexivity].
      destruct (MinSize asg <? DesiredCapacity asg)%Z eqn:E'; cbn [andb];
        [|reflexivity].
      destruct (0 <? len _)%Z; [|reflexivity].
      apply Z.ltb_lt in E'. rewrite Z.max_l by lia.
      destruct (Automation.set_desired_capacity _ _ _); reflexivity.
  - destruct (utilization <? low); cbn [andb]; [|reflexivity].
    destruct (MinSize asg <? DesiredCapacity asg)%Z eqn:E'; cbn [andb];
      [|reflexivity].
    destruct (0 <? len _)%Z; [|reflexivity].
    apply Z.ltb_lt in E'. rewrite Z.max_l by lia.
    destruct (Automation.set_desired_capacity _ _ _); reflexivity.
Qed.

(** Whatever the provider answers, one invocation performs no call or one
    capacity write. *)
Lemma implement_auto_scaling_at_most_one :
  events (Automation.implement_auto_scaling self) = []
  \/ exists name n,
      events (Automation.implement_auto_scaling self)
      = [SetDesiredCapacity name n].
Proof.
  destruct (Automation.asg_name_if_set self) as [name|] eqn:Hname.
  - destruct (Automation.describe_auto_scaling_groups (Automation.aws self) name)
      as [[|asg rest]|e] eqn:Hasg.
    + left. unfold Automation.implement_auto_scaling.
      rewrite Hname, Hasg. reflexivity.
    + rewrite (implement_auto_scaling_events name asg rest Hname Hasg).
      destruct (_ && _); [right; eauto|].
      destruct (_ && _); [right; eauto|left; reflexivity].
    + left. unfold Automation.implement_auto_scaling.
      rewrite Hname, Hasg. reflexivity.
  - left. unfold Automation.implement_auto_scaling. rewrite Hname. reflexivity.
Qed.

(** The same, as three cases with their conditions. *)
Lemma implement_auto_scaling_cases (name : string) (asg : auto_scaling_group)
    (rest : list auto_scaling_group) :
  Automation.asg_name_if_set self = Some name ->
  Automation.describe_auto_scaling_groups (Automation.aws self) name
  = Ok (asg :: rest) ->
  let desired := DesiredCapacity asg in
  let calls := events (Automation.implement_auto_scaling self) in
  let no_scale_up :=
    (target <? utilization) = false \/ (MaxSize asg <= desired)%Z in
  (calls = [SetDesiredCapacity name (desired + 1)]
   /\ (target <? utilization) = true /\ (desired < MaxSize asg)%Z)
  \/ (calls = [SetDesiredCapacity name (desired - 1)]
      /\ no_scale_up /\ (utilization <? low) = true
      /\ (MinSize asg < desired)%Z
      /\ Automation.check_idle_instances self <> [])
  \/ (calls = [] /\ no_scale_up
      /\ ((utilization <? low) = false \/ (desired <= MinSize asg)%Z
          \/ Automation.check_idle_instances self = [])).
Proof.
  intros Hname Hasg desired calls no_scale_up. subst calls no_scale_up.
  rewrite (implement_auto_scaling_events name asg rest Hname Hasg).
  fold desired.
  assert (Hidle : forall l : list string,
             ((0 <? len l)%Z = true -> l <> [])
             /\ ((0 <? len l)%Z = false -> l = [])).
  { intros [|x l]; split; cbn; congruence. }
  destruct (Hidle (Automation.check_idle_instances self)) as [Hi1 Hi2].
  destruct (target <? utilization), (desired <? MaxSize asg)%Z eqn:Lmax,
    (utilization <? low), (MinSize asg <? desired)%Z eqn:Lmin,
    (0 <? len (Automation.check_idle_instances self))%Z;
    cbn [andb];
    try apply Z.ltb_lt in Lmax; try apply Z.ltb_ge in Lmax;
    try apply Z.ltb_lt in Lmin; try apply Z.ltb_ge in Lmin;
    try (left; repeat split; (reflexivity || assumption));
    try (right; left; repeat split; auto; fail);
    right; right; repeat split; auto.
Qed.

End AutoScaling.

(** The one element of a one-element list. *)
Lemma in_singleton {A} (x y : A) : In x [y] -> x = y.
Proof. intros [H|[]]. symmetry. exact H. Qed.

(** C5: a scale-up is performed exactly when the utilization is strictly
    above the target (70% by default) and desired < max; it raises desired by
    exactly 1 and stays within max; with desired = max no call raises the
    capacity. *)
Theorem scale_up_exactly_when (self : Automation.manager) (name : string)
    (asg : Aws.auto_scaling_group) (rest : list Aws.auto_scaling_group) :
  Automation.asg_name_if_set self = Some name ->
  Automation.describe_auto_scaling_groups (Automation.aws self) name
  = Py.Ok (asg :: rest) ->
  let utilization := Automation.get_gpu_utilization self in
  let target := Automation.target_utilization (Automation.self_config self) in
  let desired := Aws.DesiredCapacity asg in
  let calls := Aws.events (Automation.implement_auto_scaling self) in
  ((target <? utilization) = true /\ (desired < Aws.MaxSize asg)%Z <->
   calls = [Aws.SetDesiredCapacity name (desired + 1)])
  /\ (calls = [Aws.SetDesiredCapacity name (desired + 1)] ->
      (desired + 1 <= Aws.MaxSize asg)%Z)
  /\ (forall g n, In (Aws.SetDesiredCapacity g n) calls -> (desired < n)%Z ->
      n = (desired + 1)%Z)
  /\ (desired = Aws.MaxSize asg ->
      forall g n, In (Aws.SetDesiredCapacity g n) calls -> (n < desired)%Z).
Proof.
  intros Hname Hasg utilization target desired calls.
  pose proof (implement_auto_scaling_cases self name asg rest Hname Hasg) as C.
  cbv zeta in C. fold utilization target desired calls in C.
  destruct C as [(E & Hu & Hd)|[(E & Hno & _ & Hmin & _)|(E & Hno & _)]];
    rewrite E; (split; [split|split; [|split]]).
  - reflexivity.
  - intros _. split; assumption.
  - intros _. lia.
  - intros g n Hin%in_singleton _. inversion Hin. reflexivity.
  - intros Hmax. lia.
  - intros [Hu Hd]. destruct Hno as [Hno|Hno]; [congruence|lia].
  - intros H. inversion H. lia.
  - intros H. inversion H. lia.
  - intros g n Hin%in_singleton Hlt. inversion Hin. lia.
  - intros Hmax g n Hin%in_singleton. inversion Hin. lia.
  - intros [Hu Hd]. destruct Hno as [Hno|Hno]; [congruence|lia].
  - discriminate.
  - discriminate.
  - intros g n [].
  - intros Hmax g n [].
Qed.

(** C5, the example of the claim: desired 3, min 1, max 5 and 85%
    utilization scale up to 4. *)
Lemma scale_up_exactly_when_example :
  Aws.events (Automation.implement_auto_scaling Scenario.busy_manager)
  = [Aws.SetDesiredCapacity "gpu-asg" 4].
Proof.
  apply (proj1 (scale_up_exactly_when Scenario.busy_manager "gpu-asg"
                  Scenario.gpu_asg [] eq_refl eq_refl)).
  split; [vm_compute; reflexivity|reflexivity].
Defined.

(** ** Scale-down *)

Section ReduceCapacity.

Import Py.

Variables current_capacity min_size max_size ups downs : Z.

Let recs :=
  Lambda.scaling_recommendations current_capacity min_size max_size ups downs.

(** The Lambda recommends to reduce the capacity exactly when it saw no
    scale-up activity and desired > min; utilization is not an input. *)
Lemma reduce_capacity_iff (r : Lambda.scaling_recommendation) :
  In r recs /\ Lambda.sr_type r = "reduce_capacity" <->
  (ups = 0 /\ min_size < current_capacity)%Z
  /\ r = {| Lambda.sr_type := "reduce_capacity";
            Lambda.current := current_capacity;
            Lambda.recommended := current_capacity - 1 |}.
Proof.
  subst recs. unfold Lambda.scaling_recommendations. split.
  - intros [Hin T]. apply in_app_or in Hin. destruct Hin as [Hin|Hin].
    + destruct (ups =? 0)%Z eqn:U, (min_size <? current_capacity)%Z eqn:L;
        cbn in Hin; try contradiction.
      destruct Hin as [<-|[]].
      apply Z.eqb_eq in U. apply Z.ltb_lt in L.
      split; [lia|]. rewrite Z.max_r by lia. reflexivity.
    + destruct ((downs <? ups)%Z && (max_size <? 10)%Z);
        cbn in Hin; try contradiction.
      destruct Hin as [<-|[]]. cbn in T. discriminate T.
  - intros [[U L] ->]. split; [|reflexivity].
    apply in_or_app. left.
    rewrite (proj2 (Z.eqb_eq _ _) U), (proj2 (Z.ltb_lt _ _) L).
    cbn [andb]. left. rewrite Z.max_r by lia. reflexivity.
Qed.

End ReduceCapacity.

(** C3, as the code has it. In the automation script a scale-down is
    performed only when the utilization is strictly below the low threshold
    (20% by default), desired > min and [check_idle_instances] found at least
    one idle instance; it lowers desired by exactly 1, not below min, and with
    desired = min no call lowers the capacity. In the Lambda a
    [reduce_capacity] recommendation is produced exactly when no scale-up
    activity was seen and desired > min, whatever the utilization and the idle
    instances; it lowers desired by exactly 1, not below min, and with
    desired = min there is none. *)
Theorem scale_down_only_when (self : Automation.manager) (name : string)
    (asg : Aws.auto_scaling_group) (rest : list Aws.auto_scaling_group) :
  Automation.asg_name_if_set self = Some name ->
  Automation.describe_auto_scaling_groups (Automation.aws self) name
  = Py.Ok (asg :: rest) ->
  let utilization := Automation.get_gpu_utilization self in
  let low := Automation.scale_down_threshold (Automation.self_config self) in
  let desired := Aws.DesiredCapacity asg in
  let calls := Aws.events (Automation.implement_auto_scaling self) in
  (forall g n, In (Aws.SetDesiredCapacity g n) calls -> (n < desired)%Z ->
     (utilization <? low) = true /\ (Aws.MinSize asg < desired)%Z
     /\ Automation.check_idle_instances self <> []
     /\ n = (desired - 1)%Z /\ (Aws.MinSize asg <= n)%Z)
  /\ (desired = Aws.MinSize asg ->
      forall g n, In (Aws.SetDesiredCapacity g n) calls -> (desired < n)%Z)
  /\ (forall current_capacity min_size max_size ups downs r,
        In r (Lambda.scaling_recommendations current_capacity min_size
                max_size ups downs)
        /\ Lambda.sr_type r = "reduce_capacity" <->
        (ups = 0 /\ min_size < current_capacity)%Z
        /\ r = {| Lambda.sr_type := "reduce_capacity";
                  Lambda.current := current_capacity;
                  Lambda.recommended := current_capacity - 1 |}).
Proof.
  intros Hname Hasg utilization low desired calls.
  pose proof (implement_auto_scaling_cases self name asg rest Hname Hasg) as C.
  cbv zeta in C. fold utilization low desired calls in C.
  split; [|split; [|exact reduce_capacity_iff]].
  - intros g n Hin Hlt.
    destruct C as [(E & _)|[(E & _ & Hu & Hmin & Hidle)|(E & _)]];
      rewrite E in Hin.
    + apply in_singleton in Hin. inversion Hin. lia.
    + apply in_singleton in Hin. inversion Hin. subst n.
      repeat split; try assumption; lia.
    + destruct Hin.
  - intros Hmin g n Hin.
    destruct C as [(E & _)|[(E & _ & _ & Hlt & _)|(E & _)]]; rewrite E in Hin.
    + apply in_singleton in Hin. inversion Hin. lia.
    + lia.
    + destruct Hin.
Qed.

(** C3 on a group of 3 between 1 and 5 whose instances are at 3%: one step
    down, to 2. *)
Lemma scale_down_only_when_example :
  Aws.events (Automation.implement_auto_scaling Scenario.idle_manager)
  = [Aws.SetDesiredCapacity "gpu-asg" 2]
  /\ (Automation.get_gpu_utilization Scenario.idle_manager <? 20) = true
  /\ Automation.check_idle_instances Scenario.idle_manager <> [].
Proof.
  split; [vm_compute; reflexivity|].
  destruct (proj1 (scale_down_only_when Scenario.idle_manager "gpu-asg"
                     Scenario.gpu_asg [] eq_refl eq_refl) "gpu-asg" 2%Z)
    as (Hu & _ & Hidle & _).
  - vm_compute. left. reflexivity.
  - reflexivity.
  - split; assumption.
Defined.

(** C3, the Lambda: its instance runs at 95%, no instance is idle, and it
    recommends to go from 3 to 2 all the same. *)
Lemma reduce_capacity_without_idle_instance :
  Lambda._get_instance_metrics LambdaScenario.busy_optimizer "i-01"
  = metrics_of [95; 95] [95; 95] [95; 95]
  /\ Lambda.check_idle_resources LambdaScenario.busy_optimizer = Py.Ok []
  /\ Lambda.optimize_auto_scaling LambdaScenario.busy_optimizer
     = Lambda.Optimizations
         [{| Lambda.asg_name := "gpu-asg";
             Lambda.current_config := (3, 1, 5)%Z;
             Lambda.recent_activities := (0, 0)%Z;
             Lambda.recommendations :=
               [{| Lambda.sr_type := "reduce_capacity";
                   Lambda.current := 3;
                   Lambda.recommended := 2 |}] |}].
Proof. repeat split; vm_compute; reflexivity. Qed.

(** ** Calls issued by the Lambda *)

(** A run that issued no call and returned. *)
Ltac quiet_answer :=
  cbn; split; [left; reflexivity|eexists; reflexivity].

Section LambdaCalls.

Import Py Aws.

Variable round2 : float -> float.

Lemma send_cost_alert_calls (self : Lambda.optimizer) (alert_type : string) :
  at_most_one_publish (events (Lambda.send_cost_alert self alert_type))
  /\ exists sent, outcome (Lambda.send_cost_alert self alert_type) = Ok sent.
Proof.
  unfold Lambda.send_cost_alert, at_most_one_publish.
  destruct (Lambda.sns_topic_arn self) as [topic|];
    [|split; [left; reflexivity|eexists; reflexivity]].
  destruct (String.eqb topic "");
    [split; [left; reflexivity|eexists; reflexivity]|].
  destruct (Lambda.sns_publish _ _ _); cbn;
    (split; [right; eauto|eexists; reflexivity]).
Qed.

(** The report method publishes at most once, and only when one of its
    recommendations is critical. *)
Lemma generate_comprehensive_report_calls (self : Lambda.optimizer) :
  let run := Lambda.generate_comprehensive_report round2 self in
  at_most_one_publish (events run)
  /\ (forall r, outcome run = Ok r ->
        filter Lambda.is_critical (Lambda.report_recommendations r) = [] ->
        events run = [])
  /\ (forall e, outcome run = Raise e -> events run = []).
Proof.
  unfold Lambda.generate_comprehensive_report.
  destruct (Lambda.analyze_spot_price_trends self) as [spot|e];
    [|cbn; split; [left; reflexivity|split; intros; [discriminate|reflexivity]]].
  destruct (Lambda.check_idle_resources self) as [idle|e];
    [|cbn; split; [left; reflexivity|split; intros; [discriminate|reflexivity]]].
  cbn [lift bind app].
  set (recs := Lambda.spot_recommendations spot ++ _).
  destruct (truthy (filter Lambda.is_critical recs)) eqn:T.
  - destruct (send_cost_alert_calls self "critical_cost_alert")
      as [Hcalls [sent Hsent]].
    destruct (Lambda.send_cost_alert self "critical_cost_alert")
      as [calls out]. cbn in Hcalls, Hsent. subst out.
    cbn. rewrite app_nil_r. split; [exact Hcalls|split].
    + intros r Hr Hnone. inversion Hr. subst r. cbn in Hnone.
      fold recs in Hnone. rewrite Hnone in T. discriminate T.
    + intros; discriminate.
  - cbn. split; [left; reflexivity|split; intros; [reflexivity|discriminate]].
Qed.

(** The handler never lets an exception out and issues the calls of the
    action it ran. *)
Lemma lambda_handler_calls (init : exc Lambda.optimizer) (event : Dict.t string) :
  at_most_one_publish (events (Lambda.lambda_handler round2 init event))
  /\ exists response,
      outcome (Lambda.lambda_handler round2 init event) = Ok response.
Proof.
  unfold Lambda.lambda_handler.
  destruct init as [optim|e]; [|quiet_answer].
  cbn [lift bind app].
  destruct (String.eqb _ "spot_analysis");
    [destruct (Lambda.analyze_spot_price_trends optim); quiet_answer|].
  destruct (String.eqb _ "idle_check");
    [destruct (Lambda.check_idle_resources optim); quiet_answer|].
  destruct (String.eqb _ "cost_insights"); [quiet_answer|].
  destruct (String.eqb _ "scaling_optimization"); [quiet_answer|].
  destruct (generate_comprehensive_report_calls optim) as [Hcalls _].
  destruct (Lambda.generate_comprehensive_report round2 optim) as [calls [r|e]];
    cbn in Hcalls |- *; rewrite ?app_nil_r;
    (split; [exact Hcalls|eexists; reflexivity]).
Qed.

End LambdaCalls.

(** C7, as the code has it. The Lambda is advisory only: no run of its
    handler issues a capacity write. The automation script applies its
    decision itself: [implement_auto_scaling] issues no call or exactly one
    [set_desired_capacity], one unit away from desired, and nothing in it
    waits for a confirmation. *)
Theorem capacity_writes :
  (forall round2 init event g n,
      ~ In (Aws.SetDesiredCapacity g n)
           (Aws.events (Lambda.lambda_handler round2 init event)))
  /\ (forall self,
         Aws.events (Automation.implement_auto_scaling self) = []
         \/ exists name n,
             Aws.events (Automation.implement_auto_scaling self)
             = [Aws.SetDesiredCapacity name n])
  /\ (forall self name asg rest,
         Automation.asg_name_if_set self = Some name ->
         Automation.describe_auto_scaling_groups (Automation.aws self) name
         = Py.Ok (asg :: rest) ->
         forall g n,
           In (Aws.SetDesiredCapacity g n)
              (Aws.events (Automation.implement_auto_scaling self)) ->
           g = name
           /\ (n = Aws.DesiredCapacity asg + 1 \/ n = Aws.DesiredCapacity asg - 1)%Z).
Proof.
  split; [|split].
  - intros round2 init event g n Hin.
    destruct (lambda_handler_calls round2 init event) as [[E|(t & s & E)] _];
      rewrite E in Hin.
    + destruct Hin.
    + apply in_singleton in Hin. discriminate Hin.
  - exact implement_auto_scaling_at_most_one.
  - intros self name asg rest Hname Hasg g n Hin.
    pose proof (implement_auto_scaling_cases self name asg rest Hname Hasg) as C.
    cbv zeta in C.
    destruct C as [(E & _)|[(E & _)|(E & _)]]; rewrite E in Hin.
    + apply in_singleton in Hin. inversion Hin. auto.
    + apply in_singleton in Hin. inversion Hin. auto.
    + destruct Hin.
Qed.

(** C7, a run of the automation script: at 85% utilization the optimization
    cycle sets the desired capacity of the group to 4 by itself. *)
Lemma cycle_writes_capacity :
  In (Aws.SetDesiredCapacity "gpu-asg" 4)
     (Aws.events (Automation.run_optimization_cycle Scenario.busy_manager)).
Proof. vm_compute. left. reflexivity. Qed.

(** C7 on the two scripts at 85% and 95%: the scaling action of the Lambda
    answers with status 200 and issues no call; the scaling step of the
    automation script issues one capacity write. *)
Lemma capacity_writes_example :
  (Aws.events (Automation.implement_auto_scaling Scenario.busy_manager) = []
   \/ exists name n,
       Aws.events (Automation.implement_auto_scaling Scenario.busy_manager)
       = [Aws.SetDesiredCapacity name n])
  /\ ~ In (Aws.SetDesiredCapacity "gpu-asg" 2)
         (Aws.events
            (Lambda.lambda_handler LambdaScenario.round2_exact
               (Py.Ok LambdaScenario.busy_optimizer)
               [("action", "scaling_optimization")])).
Proof.
  destruct capacity_writes as (Hlambda & Hone & _).
  split; [apply Hone|apply Hlambda].
Defined.

(** ** The utilization observers *)

Section Sorting.

Import Py.

Context {A : Type} (key : A -> Z).

Let le (a b : A) : Prop := (key a <= key b)%Z.

Lemma insert_by_perm (x : A) (l : list A) :
  Permutation (x :: l) (insert_by key x l).
Proof.
  induction l as [|y r IH]; cbn [insert_by]; [reflexivity|].
  destruct (key y <=? key x)%Z; [|reflexivity].
  rewrite perm_swap. apply perm_skip, IH.
Qed.

Lemma insert_by_sorted (x : A) (l : list A) :
  StronglySorted le l -> StronglySorted le (insert_by key x l).
Proof.
  induction 1 as [|y r Hr IH Hy]; cbn [insert_by].
  - repeat constructor.
  - destruct (key y <=? key x)%Z eqn:E.
    + apply Z.leb_le in E. constructor; [exact IH|].
      apply (Permutation_Forall (insert_by_perm x r)).
      constructor; assumption.
    + apply Z.leb_gt in E. constructor; [constructor; assumption|].
      constructor; [unfold le; lia|].
      eapply Forall_impl; [|exact Hy]. unfold le. intros; lia.
Qed.

Lemma sorted_from (l acc : list A) :
  StronglySorted le acc ->
  StronglySorted le (fold_left (fun acc x => insert_by key x acc) l acc)
  /\ Permutation (acc ++ l)
       (fold_left (fun acc x => insert_by key x acc) l acc).
Proof.
  revert acc. induction l as [|x r IH]; intros acc Hacc; cbn [fold_left].
  - rewrite app_nil_r. split; [exact Hacc|reflexivity].
  - destruct (IH _ (insert_by_sorted x acc Hacc)) as [Hs Hp].
    split; [exact Hs|].
    rewrite <- Hp, <- insert_by_perm.
    symmetry. apply Permutation_middle.
Qed.

(** [sorted] sorts: its result is in ascending order of the keys and holds
    the elements of its argument. *)
Lemma sorted_spec (l : list A) :
  StronglySorted le (sorted key l) /\ Permutation l (sorted key l).
Proof. apply (sorted_from l []). constructor. Qed.

End Sorting.

Lemma get_instance_metrics_entry (self : Lambda.optimizer) (iid : string)
    (name namespace : string) :
  In (name, namespace) Lambda.metric_queries ->
  Dict.get (Lambda._get_instance_metrics self iid) name =
  Some match Lambda.get_metric_statistics (Lambda.aws self) namespace name iid with
       | Py.Ok datapoints =>
           map Aws.Average (Py.sorted Aws.Timestamp datapoints)
       | Py.Raise _ => []
       end.
Proof.
  cbv [Lambda._get_instance_metrics Lambda.metric_queries fold_left In].
  intros [E|[E|[E|[]]]]; inversion E; subst name namespace;
    destruct (Lambda.get_metric_statistics (Lambda.aws self)
                "GPU/AI-Starter-Kit" "GPUUtilization" iid),
             (Lambda.get_metric_statistics (Lambda.aws self)
                "GPU/AI-Starter-Kit" "GPUMemoryUtilization" iid),
             (Lambda.get_metric_statistics (Lambda.aws self)
                "AWS/EC2" "CPUUtilization" iid);
    reflexivity.
Qed.

(** C2, as the code has it. [_get_instance_metrics] of the Lambda returns,
    for each of its three metrics, the averages in ascending order of their
    timestamps, the empty sequence when the provider returns no data point,
    and the empty sequence when the query fails. [get_gpu_utilization] of the
    automation script returns 0.0 when the provider returns no data point and
    when the query fails; that value is the utilization
    [implement_auto_scaling] compares with its thresholds. *)
Theorem no_data_point_observed :
  (forall self iid name namespace,
      In (name, namespace) Lambda.metric_queries ->
      Dict.get (Lambda._get_instance_metrics self iid) name =
      Some match Lambda.get_metric_statistics (Lambda.aws self) namespace
                   name iid with
           | Py.Ok datapoints =>
               map Aws.Average (Py.sorted Aws.Timestamp datapoints)
           | Py.Raise _ => []
           end)
  /\ (forall datapoints,
         StronglySorted by_timestamp (Py.sorted Aws.Timestamp datapoints)
         /\ Permutation datapoints (Py.sorted Aws.Timestamp datapoints))
  /\ (forall self iid name namespace,
         In (name, namespace) Lambda.metric_queries ->
         Lambda.get_metric_statistics (Lambda.aws self) namespace name iid
         = Py.Ok [] ->
         Dict.get (Lambda._get_instance_metrics self iid) name = Some [])
  /\ (forall self,
         Automation.get_metric_statistics (Automation.aws self)
           (Automation.instance_id self) 10 = Py.Ok [] ->
         Automation.get_gpu_utilization self = 0)
  /\ (forall self e,
         Automation.get_metric_statistics (Automation.aws self)
           (Automation.instance_id self) 10 = Py.Raise e ->
         Automation.get_gpu_utilization self = 0).
Proof.
  split; [exact get_instance_metrics_entry|].
  split; [intros datapoints; apply (sorted_spec Aws.Timestamp)|].
  split; [|split].
  - intros self iid name namespace Hin Hnone.
    rewrite (get_instance_metrics_entry self iid name namespace Hin), Hnone.
    reflexivity.
  - intros self H. unfold Automation.get_gpu_utilization. rewrite H. reflexivity.
  - intros self e H. unfold Automation.get_gpu_utilization.
    rewrite H. reflexivity.
Qed.

(** C2, a run of the automation script: the provider has no data point for
    the last ten minutes, the utilization is taken to be 0.0, which is below
    the low threshold, and the group is scaled down from 3 to 2. *)
Lemma no_data_point_read_as_zero :
  Automation.get_metric_statistics (Automation.aws Scenario.blind_manager)
    (Automation.instance_id Scenario.blind_manager) 10 = Py.Ok []
  /\ Automation.get_gpu_utilization Scenario.blind_manager = 0
  /\ Aws.events (Automation.implement_auto_scaling Scenario.blind_manager)
     = [Aws.SetDesiredCapacity "gpu-asg" 2].
Proof. repeat split; vm_compute; reflexivity. Qed.

(** C2 on a provider without data points: the Lambda observer returns the
    empty sequence, the automation observer 0.0. *)
Lemma no_data_point_observed_example :
  Dict.get (Lambda._get_instance_metrics LambdaScenario.silent_optimizer "i-01")
    "GPUUtilization" = Some []
  /\ Automation.get_gpu_utilization Scenario.blind_manager = 0.
Proof.
  destruct no_data_point_observed as (_ & _ & Hempty & Hzero & _).
  split.
  - apply (Hempty LambdaScenario.silent_optimizer "i-01" "GPUUtilization"
             "GPU/AI-Starter-Kit"); [left|]; reflexivity.
  - apply Hzero. reflexivity.
Defined.

(** ** The price observers and the report *)

Section PriceBatch.

Import Py Aws.

Variable round2 : float -> float.
Variable self : Lambda.optimizer.

(** The analysis holds, for each instance type of the batch, the result of
    the loop turn of that type. *)
Lemma analyze_spot_price_trends_entries (zones : list string) :
  Lambda.describe_availability_zones (Lambda.aws self) = Ok zones ->
  exists analysis,
    Lambda.analyze_spot_price_trends self = Ok analysis
    /\ forall t, In t Lambda.instance_types ->
         Dict.get analysis t = Some (Lambda.analyze_instance_type self zones t).
Proof.
  intros Hz. unfold Lambda.analyze_spot_price_trends. rewrite Hz.
  cbn [exc_bind]. eexists. split; [reflexivity|].
  cbv [Lambda.instance_types fold_left In].
  intros t [<-|[<-|[<-|[<-|[<-|[]]]]]]; reflexivity.
Qed.

(** A lookup that raises becomes the error field of its own entry. *)
Lemma analyze_instance_type_error (zones : list string) (t : string) (e : exn) :
  Lambda.describe_spot_price_history (Lambda.aws self) [t] zones = Raise e ->
  Lambda.analyze_instance_type self zones t = Lambda.PriceError e.
Proof.
  intros H. unfold Lambda.analyze_instance_type,
    Lambda.analyze_instance_type_body. rewrite H. reflexivity.
Qed.

(** The report, when the two listings that have no handler succeed. *)
Lemma generate_comprehensive_report_outcome
    (spot : Dict.t Lambda.price_entry) (idle : list Lambda.idle_resource) :
  Lambda.analyze_spot_price_trends self = Ok spot ->
  Lambda.check_idle_resources self = Ok idle ->
  exists r,
    outcome (Lambda.generate_comprehensive_report round2 self) = Ok r
    /\ Lambda.spot_price_analysis r = spot
    /\ Lambda.idle_resources r = idle
    /\ Lambda.report_cost_insights r = Lambda.get_cost_insights round2 self
    /\ Lambda.scaling_optimizations r = Lambda.optimize_auto_scaling self.
Proof.
  intros Hs Hi. unfold Lambda.generate_comprehensive_report.
  rewrite Hs, Hi. cbn [lift bind app].
  destruct (truthy _).
  - destruct (send_cost_alert_calls self "critical_cost_alert")
      as [_ [sent Hsent]].
    destruct (Lambda.send_cost_alert self "critical_cost_alert")
      as [calls out]. cbn in Hsent. subst out. cbn.
    eexists. split; [reflexivity|]. cbn. repeat split.
  - cbn. eexists. split; [reflexivity|]. cbn. repeat split.
Qed.

End PriceBatch.

(** The entry of an instance type depends on the answers for that type
    only. *)
Lemma analyze_instance_type_local (self self' : Lambda.optimizer)
    (zones : list string) (t : string) :
  Lambda.describe_spot_price_history (Lambda.aws self) [t] zones
  = Lambda.describe_spot_price_history (Lambda.aws self') [t] zones ->
  Lambda.get_products (Lambda.aws self) t
  = Lambda.get_products (Lambda.aws self') t ->
  Lambda.analyze_instance_type self zones t
  = Lambda.analyze_instance_type self' zones t.
Proof.
  intros Hh Hp. unfold Lambda.analyze_instance_type,
    Lambda.analyze_instance_type_body, Lambda._get_on_demand_price.
  rewrite Hh, Hp. reflexivity.
Qed.

Lemma monitor_daily_costs_outcome (self : Automation.manager) :
  exists cost, Aws.outcome (Automation.monitor_daily_costs self) = Py.Ok cost.
Proof.
  unfold Automation.monitor_daily_costs.
  destruct (Dict.get _ _) as [entry|]; [|eexists; reflexivity].
  destruct (_ <? _); eexists; reflexivity.
Qed.

Lemma generate_cost_report_outcome (self : Automation.manager) :
  exists r, Aws.outcome (Automation.generate_cost_report self) = Py.Ok r.
Proof.
  unfold Automation.generate_cost_report.
  destruct (potential_savings_ok (Automation.get_current_spot_prices self))
    as [analysis Ha].
  unfold Automation.calculate_potential_savings. rewrite Ha.
  destruct (monitor_daily_costs_outcome self) as [cost Hc].
  destruct (Automation.monitor_daily_costs self) as [calls out].
  cbn in Hc. subst out.
  destruct analysis as [|first rest]; cbn; eexists; reflexivity.
Qed.

(** C6, as the code has it. In the Lambda a lookup error for one instance
    type does not abort the batch: that type gets an inline error field, the
    entry of every type of the batch is the result of its own lookup, which
    depends on the answers for that type only, and the idle and scaling
    sections of the report are populated as long as the two listings succeed.
    In the automation script the instance types are looked up by one query in
    one [try]: when that query or the reading of any of its records fails the
    price map is empty for all types; the report is produced all the same. *)
Theorem price_lookup_failures :
  (forall self zones,
      Lambda.describe_availability_zones (Lambda.aws self) = Py.Ok zones ->
      exists analysis,
        Lambda.analyze_spot_price_trends self = Py.Ok analysis
        /\ forall t, In t Lambda.instance_types ->
             Dict.get analysis t
             = Some (Lambda.analyze_instance_type self zones t))
  /\ (forall self zones t e,
         Lambda.describe_spot_price_history (Lambda.aws self) [t] zones
         = Py.Raise e ->
         Lambda.analyze_instance_type self zones t = Lambda.PriceError e)
  /\ (forall self self' zones t,
         Lambda.describe_spot_price_history (Lambda.aws self) [t] zones
         = Lambda.describe_spot_price_history (Lambda.aws self') [t] zones ->
         Lambda.get_products (Lambda.aws self) t
         = Lambda.get_products (Lambda.aws self') t ->
         Lambda.analyze_instance_type self zones t
         = Lambda.analyze_instance_type self' zones t)
  /\ (forall round2 self spot idle,
         Lambda.analyze_spot_price_trends self = Py.Ok spot ->
         Lambda.check_idle_resources self = Py.Ok idle ->
         exists r,
           Aws.outcome (Lambda.generate_comprehensive_report round2 self)
           = Py.Ok r
           /\ Lambda.spot_price_analysis r = spot
           /\ Lambda.idle_resources r = idle
           /\ Lambda.report_cost_insights r
              = Lambda.get_cost_insights round2 self
           /\ Lambda.scaling_optimizations r
              = Lambda.optimize_auto_scaling self)
  /\ (forall self e,
         Automation.get_current_spot_prices_body self = Py.Raise e ->
         Automation.get_current_spot_prices self = Dict.empty)
  /\ (forall self,
         exists r,
           Aws.outcome (Automation.generate_cost_report self) = Py.Ok r).
Proof.
  split; [exact analyze_spot_price_trends_entries|].
  split; [exact analyze_instance_type_error|].
  split; [exact analyze_instance_type_local|].
  split; [exact generate_comprehensive_report_outcome|].
  split; [|exact generate_cost_report_outcome].
  intros self e H. unfold Automation.get_current_spot_prices.
  rewrite H. reflexivity.
Qed.

(** C6, the automation script: one record of another instance type does not
    convert, and the price of g4dn.xlarge, which the same answer holds, is
    lost with it. *)
Lemma one_bad_record_empties_the_batch :
  Dict.get (Automation.get_current_spot_prices Scenario.busy_manager)
    "g4dn.xlarge"
  = Some {| Automation.price := 0.5; Automation.timestamp := 1000;
            Automation.az := "us-east-1a" |}
  /\ Automation.describe_spot_price_history
       (Automation.aws Scenario.garbled_manager)
     = Py.Ok (Scenario.cheap_prices
              ++ [{| Aws.InstanceType := "g5.xlarge";
                     Aws.AvailabilityZone := "us-east-1b";
                     Aws.SpotPrice :=
                       Py.Raise
                         (Py.ValueError "could not convert string to float");
                     Aws.PriceTimestamp := 1000 |}])
  /\ Automation.get_current_spot_prices Scenario.garbled_manager = Dict.empty.
Proof. repeat split. Qed.

(** C6, the Lambda: the history of g5.xlarge fails, its entry carries the
    error, and the entry of g4dn.xlarge has its price and its saving of 50%
    against the on-demand price of 1 dollar. *)
Lemma price_lookup_failures_example :
  exists analysis,
    Lambda.analyze_spot_price_trends LambdaScenario.partial_optimizer
    = Py.Ok analysis
    /\ Dict.get analysis "g5.xlarge"
       = Some (Lambda.PriceError (Py.ClientError "InternalError"))
    /\ Dict.get analysis "g4dn.xlarge"
       = Some (Lambda.PriceData
                 [("us-east-1a",
                   {| Lambda.current_price := 0.5; Lambda.avg_price := 0.5;
                      Lambda.min_price := 0.5; Lambda.max_price := 0.5;
                      Lambda.price_volatility := 0 |})]
                 1 (Some "us-east-1a") 50).
Proof.
  destruct price_lookup_failures as (Hentries & Herror & _).
  destruct (Hentries LambdaScenario.partial_optimizer ["us-east-1a"] eq_refl)
    as (analysis & Ha & Hget).
  exists analysis. split; [exact Ha|]. split.
  - rewrite Hget by (vm_compute; tauto).
    rewrite (Herror LambdaScenario.partial_optimizer ["us-east-1a"] "g5.xlarge"
               (Py.ClientError "InternalError") eq_refl).
    reflexivity.
  - rewrite Hget by (vm_compute; tauto). vm_compute. reflexivity.
Defined.

(** ** Alerts *)

Section Alerts.

Import Py Aws.

Variable round2 : float -> float.

(** With a topic configured, a critical recommendation is published. *)
Lemma critical_is_published (self : Lambda.optimizer) (topic : string)
    (r : Lambda.report) :
  Lambda.sns_topic_arn self = Some topic -> topic <> "" ->
  outcome (Lambda.generate_comprehensive_report round2 self) = Ok r ->
  filter Lambda.is_critical (Lambda.report_recommendations r) <> [] ->
  events (Lambda.generate_comprehensive_report round2 self)
  = [SnsPublish topic "AI Starter Kit Cost Alert - critical_cost_alert"].
Proof.
  intros Ht Hne. unfold Lambda.generate_comprehensive_report.
  destruct (Lambda.analyze_spot_price_trends self) as [spot|e];
    [|discriminate].
  destruct (Lambda.check_idle_resources self) as [idle|e]; [|discriminate].
  cbn [lift bind app].
  set (recs := Lambda.spot_recommendations spot ++ _).
  destruct (truthy (filter Lambda.is_critical recs)) eqn:T.
  - intros _ _. unfold Lambda.send_cost_alert. rewrite Ht.
    apply String.eqb_neq in Hne. rewrite Hne.
    destruct (Lambda.sns_publish _ _ _); reflexivity.
  - cbn. intros Hr Hcrit. inversion Hr. subst r. cbn in Hcrit.
    fold recs in Hcrit. destruct (filter Lambda.is_critical recs);
      [congruence|discriminate T].
Qed.

(** One call of [monitor_daily_costs] alerts at most once, and only above
    the threshold. *)
Lemma monitor_daily_costs_calls (self : Automation.manager) :
  events (Automation.monitor_daily_costs self) = []
  \/ exists cost,
      events (Automation.monitor_daily_costs self)
      = [CostAlertWarning cost
           (Automation.cost_alert_threshold (Automation.self_config self))]
      /\ (Automation.cost_alert_threshold (Automation.self_config self)
          <? cost) = true.
Proof.
  unfold Automation.monitor_daily_costs.
  destruct (Dict.get _ _) as [entry|]; [|left; reflexivity].
  destruct (_ <? _) eqn:E; [|left; reflexivity].
  right. eexists. split; [reflexivity|exact E].
Qed.

End Alerts.

(** C8, as the code has it. A report run of the Lambda dispatches at most
    one alert, none when no critical-priority recommendation is in the
    report, and exactly one when there is one and a topic is configured. In
    the automation script one call of [monitor_daily_costs] raises at most one
    alert, and only when the estimated daily cost is above the threshold. *)
Theorem alert_dispatches :
  (forall round2 self,
      let run := Lambda.generate_comprehensive_report round2 self in
      at_most_one_publish (Aws.events run)
      /\ (forall r, Aws.outcome run = Py.Ok r ->
            filter Lambda.is_critical (Lambda.report_recommendations r) = [] ->
            Aws.events run = [])
      /\ (forall e, Aws.outcome run = Py.Raise e -> Aws.events run = []))
  /\ (forall round2 self topic r,
         Lambda.sns_topic_arn self = Some topic -> topic <> "" ->
         Aws.outcome (Lambda.generate_comprehensive_report round2 self)
         = Py.Ok r ->
         filter Lambda.is_critical (Lambda.report_recommendations r) <> [] ->
         Aws.events (Lambda.generate_comprehensive_report round2 self)
         = [Aws.SnsPublish topic
              "AI Starter Kit Cost Alert - critical_cost_alert"])
  /\ (forall self,
         Aws.events (Automation.monitor_daily_costs self) = []
         \/ exists cost,
             Aws.events (Automation.monitor_daily_costs self)
             = [Aws.CostAlertWarning cost
                  (Automation.cost_alert_threshold
                     (Automation.self_config self))]
             /\ (Automation.cost_alert_threshold (Automation.self_config self)
                 <? cost) = true).
Proof.
  split; [exact generate_comprehensive_report_calls|].
  split; [exact critical_is_published|exact monitor_daily_costs_calls].
Qed.

(** C8, two runs. With 120 dollars spent the report run of the Lambda has no
    critical recommendation and dispatches no alert at all. With a spot price
    of 3 dollars an hour one optimization cycle of the automation script
    raises its cost alert twice, once from the monitoring step and once from
    the report it generates. *)
Lemma cycle_alerts_twice :
  Aws.events (Lambda.generate_comprehensive_report LambdaScenario.round2_exact
                LambdaScenario.busy_optimizer) = []
  /\ Aws.events (Automation.monitor_daily_costs Scenario.costly_manager)
     = [Aws.CostAlertWarning 72 50]
  /\ Aws.events (Automation.run_optimization_cycle Scenario.costly_manager)
     = [Aws.CostAlertWarning 72 50; Aws.CostAlertWarning 72 50].
Proof. repeat split; vm_compute; reflexivity. Qed.

(** C8, the Lambda on the same kind of month: 2500 dollars are above the
    critical threshold and the report run publishes one alert. *)
Lemma alert_dispatches_example :
  Aws.events (Lambda.generate_comprehensive_report LambdaScenario.round2_exact
                LambdaScenario.overspent_optimizer)
  = [Aws.SnsPublish "arn:aws:sns:us-east-1:000000000000:alerts"
       "AI Starter Kit Cost Alert - critical_cost_alert"].
Proof.
  destruct alert_dispatches as (_ & Hcritical & _).
  eapply Hcritical.
  - reflexivity.
  - discriminate.
  - vm_compute. reflexivity.
  - vm_compute. discriminate.
Defined.

(** ** The handler *)

(** The sections of the report whose method has a handler of its own carry
    the error inline. *)
Lemma sections_carry_errors (round2 : float -> float) (self : Lambda.optimizer)
    (e : Py.exn) :
  (Lambda.get_cost_and_usage (Lambda.aws self) = Py.Raise e ->
   Lambda.get_cost_insights round2 self = Lambda.InsightsError e)
  /\ (Lambda.describe_auto_scaling_groups (Lambda.aws self) = Py.Raise e ->
      Lambda.optimize_auto_scaling self = Lambda.ScalingError e).
Proof.
  split; intros H.
  - unfold Lambda.get_cost_insights, Lambda.get_cost_insights_body.
    rewrite H. reflexivity.
  - unfold Lambda.optimize_auto_scaling, Lambda.optimize_auto_scaling_body.
    rewrite H. reflexivity.
Qed.

Lemma check_idle_resources_ok (self : Lambda.optimizer)
    (reservations : list (list Lambda.instance)) :
  Lambda.describe_instances (Lambda.aws self) = Py.Ok reservations ->
  exists idle, Lambda.check_idle_resources self = Py.Ok idle.
Proof.
  intros H. unfold Lambda.check_idle_resources. rewrite H.
  eexists. reflexivity.
Qed.

(** With the two listings answered, the handler answers with status 200,
    whatever the action. *)
Lemma lambda_handler_200 (round2 : float -> float) (self : Lambda.optimizer)
    (event : Dict.t string) (zones : list string)
    (reservations : list (list Lambda.instance)) :
  Lambda.describe_availability_zones (Lambda.aws self) = Py.Ok zones ->
  Lambda.describe_instances (Lambda.aws self) = Py.Ok reservations ->
  exists body,
    Aws.outcome (Lambda.lambda_handler round2 (Py.Ok self) event)
    = Py.Ok (Lambda.Response200 body).
Proof.
  intros Hz Hi.
  destruct (analyze_spot_price_trends_entries self zones Hz) as (spot & Hs & _).
  destruct (check_idle_resources_ok self reservations Hi) as [idle Hidle].
  destruct (generate_comprehensive_report_outcome round2 self spot idle Hs Hidle)
    as (r & Hr & _).
  unfold Lambda.lambda_handler. cbn [Aws.lift Aws.bind app].
  destruct (String.eqb _ "spot_analysis"); [rewrite Hs; eexists; reflexivity|].
  destruct (String.eqb _ "idle_check"); [rewrite Hidle; eexists; reflexivity|].
  destruct (String.eqb _ "cost_insights"); [eexists; reflexivity|].
  destruct (String.eqb _ "scaling_optimization"); [eexists; reflexivity|].
  destruct (Lambda.generate_comprehensive_report round2 self) as [calls out].
  cbn in Hr. subst out. eexists. reflexivity.
Qed.

(** C9, as the code has it. No exception propagates out of [lambda_handler]:
    it always returns a structured result, with status 200 and the result of
    the action or with status 500 and an error body. When the listing of the
    zones and the listing of the instances are answered the result has status
    200, and in the report a failed spot lookup, cost query or scaling query
    is an inline error field of its section. *)
Theorem handler_always_answers :
  (forall round2 init event,
      exists response,
        Aws.outcome (Lambda.lambda_handler round2 init event) = Py.Ok response)
  /\ (forall round2 self event zones reservations,
         Lambda.describe_availability_zones (Lambda.aws self) = Py.Ok zones ->
         Lambda.describe_instances (Lambda.aws self) = Py.Ok reservations ->
         exists body,
           Aws.outcome (Lambda.lambda_handler round2 (Py.Ok self) event)
           = Py.Ok (Lambda.Response200 body))
  /\ (forall self zones t e,
         Lambda.describe_spot_price_history (Lambda.aws self) [t] zones
         = Py.Raise e ->
         Lambda.analyze_instance_type self zones t = Lambda.PriceError e)
  /\ (forall round2 self e,
         (Lambda.get_cost_and_usage (Lambda.aws self) = Py.Raise e ->
          Lambda.get_cost_insights round2 self = Lambda.InsightsError e)
         /\ (Lambda.describe_auto_scaling_groups (Lambda.aws self) = Py.Raise e ->
             Lambda.optimize_auto_scaling self = Lambda.ScalingError e)).
Proof.
  split; [intros; apply lambda_handler_calls|].
  split; [exact lambda_handler_200|].
  split; [exact analyze_instance_type_error|exact sections_carry_errors].
Qed.

(** C9, a throttled listing: [describe_instances] raises, the exception
    leaves [generate_comprehensive_report], the spot analysis that had
    succeeded is dropped, and the handler answers with status 500 and the
    error alone instead of a report. *)
Lemma throttled_listing_gives_500 :
  (exists spot,
      Lambda.analyze_spot_price_trends LambdaScenario.throttled_optimizer
      = Py.Ok spot)
  /\ Lambda.generate_comprehensive_report LambdaScenario.round2_exact
       LambdaScenario.throttled_optimizer
     = ([], Py.Raise (Py.ClientError "RequestLimitExceeded"))
  /\ Lambda.lambda_handler LambdaScenario.round2_exact
       (Py.Ok LambdaScenario.throttled_optimizer) Dict.empty
     = ([], Py.Ok (Lambda.Response500 (Py.ClientError "RequestLimitExceeded"))).
Proof. split; [eexists|split]; vm_compute; reflexivity. Qed.

(** C9 on a provider that answers the two listings: status 200. *)
Lemma handler_always_answers_example :
  exists body,
    Aws.outcome (Lambda.lambda_handler LambdaScenario.round2_exact
                   (Py.Ok LambdaScenario.busy_optimizer) Dict.empty)
    = Py.Ok (Lambda.Response200 body).
Proof.
  destruct handler_always_answers as (_ & H200 & _).
  apply (H200 LambdaScenario.round2_exact LambdaScenario.busy_optimizer
           Dict.empty ["us-east-1a"]
           [[{| Lambda.InstanceId := "i-01";
                Lambda.InstanceKind := "g4dn.xlarge";
                Lambda.LaunchTime := 0 |}]]); reflexivity.
Defined.

(** * Further properties of the two scripts *)

(** ** The order of floats *)

Lemma SFltb_trans (x y z : spec_float) :
  SFltb x y = true -> SFltb y z = true -> SFltb x z = true.
Proof.
  unfold SFltb.
  destruct x as [sx|sx| |sx mx ex], y as [sy|sy| |sy my ey],
    z as [sz|sz| |sz mz ez]; cbn;
    try discriminate; try (destruct sx, sy, sz; cbn; congruence);
    try (destruct sx, sy; cbn; congruence);
    try (destruct sy, sz; cbn; congruence);
    try (destruct sx, sz; cbn; congruence).
  all: destruct sx, sy, sz; cbn; try congruence.
  all: change (PosDef.Pos.compare_cont Eq) with Pos.compare.
  all: destruct (Z.compare_spec ex ey), (Z.compare_spec ey ez),
         (Z.compare_spec ex ez); cbn; try congruence; try lia.
  all: subst; try lia.
  all: destruct (Pos.compare_spec mx my), (Pos.compare_spec my mz),
         (Pos.compare_spec mx mz); cbn; try congruence; try lia.
Qed.

Lemma SFltb_irrefl (x : spec_float) : SFltb x x = false.
Proof.
  unfold SFltb. destruct x as [s|s| |s m e]; cbn; try reflexivity;
    destruct s; try reflexivity;
    rewrite Z.compare_refl; change (PosDef.Pos.compare_cont Eq) with Pos.compare;
    rewrite Pos.compare_refl; reflexivity.
Qed.

Lemma ltb_trans (x y z : float) :
  (x <? y) = true -> (y <? z) = true -> (x <? z) = true.
Proof. rewrite !ltb_spec. apply SFltb_trans. Qed.

Lemma ltb_irrefl (x : float) : (x <? x) = false.
Proof. rewrite ltb_spec. apply SFltb_irrefl. Qed.

(** Nothing is below an element that nothing seen so far was below, once a
    smaller one replaces it. *)
Lemma not_below_smaller (x y z : float) :
  (y <? x) = true -> (z <? x) = false -> (z <? y) = false.
Proof.
  intros Hyx Hzx. destruct (z <? y) eqn:E; [|reflexivity].
  rewrite (ltb_trans _ _ _ E Hyx) in Hzx. discriminate Hzx.
Qed.

(** ** Dictionaries *)

Section DictFacts.

Context {V : Type}.

Lemma get_set_same (d : Dict.t V) (k : string) (v : V) :
  Dict.get (Dict.set d k v) k = Some v.
Proof.
  induction d as [|[k' v'] r IH]; cbn.
  - rewrite String.eqb_refl. reflexivity.
  - destruct (String.eqb k k') eqn:E; cbn; rewrite ?String.eqb_refl, ?E;
      [reflexivity|exact IH].
Qed.

Lemma get_set_other (d : Dict.t V) (k k' : string) (v : V) :
  k <> k' -> Dict.get (Dict.set d k v) k' = Dict.get d k'.
Proof.
  intros Hne. induction d as [|[k0 v0] r IH]; cbn.
  - apply not_eq_sym, String.eqb_neq in Hne. rewrite Hne. reflexivity.
  - destruct (String.eqb k k0) eqn:E; cbn.
    + apply String.eqb_eq in E. subst k0.
      apply not_eq_sym, String.eqb_neq in Hne. rewrite Hne. reflexivity.
    + destruct (String.eqb k' k0); [reflexivity|exact IH].
Qed.

Lemma get_set (d : Dict.t V) (k k' : string) (v : V) :
  Dict.get (Dict.set d k v) k'
  = if String.eqb k k' then Some v else Dict.get d k'.
Proof.
  destruct (String.eqb k k') eqn:E.
  - apply String.eqb_eq in E. subst k'. apply get_set_same.
  - apply String.eqb_neq in E. apply get_set_other, E.
Qed.

Lemma keys_set (d : Dict.t V) (k : string) (v : V) (k' : string) :
  In k' (map fst (Dict.set d k v)) <-> k' = k \/ In k' (map fst d).
Proof.
  induction d as [|[k0 v0] r IH]; cbn.
  - intuition.
  - destruct (String.eqb k k0) eqn:E; cbn.
    + apply String.eqb_eq in E. subst k0. intuition.
    + rewrite IH. intuition.
Qed.

Lemma set_keys_distinct (d : Dict.t V) (k : string) (v : V) :
  keys_distinct d -> keys_distinct (Dict.set d k v).
Proof.
  unfold keys_distinct. induction d as [|[k0 v0] r IH]; cbn; intros H.
  - constructor; [intros []|constructor].
  - inversion H as [|? ? Hnot Hr]; subst.
    destruct (String.eqb k k0) eqn:E; cbn.
    + apply String.eqb_eq in E. subst k0. constructor; assumption.
    + constructor; [|apply IH, Hr].
      rewrite keys_set. intros [->|Hin]; [|contradiction].
      rewrite String.eqb_refl in E. discriminate E.
Qed.

Lemma get_in (d : Dict.t V) (k : string) (v : V) :
  Dict.get d k = Some v -> In (k, v) d.
Proof.
  induction d as [|[k0 v0] r IH]; cbn; [discriminate|].
  destruct (String.eqb k k0) eqn:E.
  - apply String.eqb_eq in E. subst k0. intros H. inversion H. left. reflexivity.
  - intros H. right. apply IH, H.
Qed.

Lemma in_get (d : Dict.t V) (k : string) (v : V) :
  keys_distinct d -> In (k, v) d -> Dict.get d k = Some v.
Proof.
  unfold keys_distinct. induction d as [|[k0 v0] r IH]; cbn; [intros _ []|].
  intros H Hin. inversion H as [|? ? Hnot Hr]; subst.
  destruct Hin as [E|Hin].
  - inversion E. subst. rewrite String.eqb_refl. reflexivity.
  - destruct (String.eqb k k0) eqn:E.
    + apply String.eqb_eq in E. subst k0. exfalso. apply Hnot.
      apply (in_map fst) in Hin. exact Hin.
    + apply IH; assumption.
Qed.

Lemma in_get_some (d : Dict.t V) (k : string) (v : V) :
  In (k, v) d -> exists v', Dict.get d k = Some v'.
Proof.
  induction d as [|[k0 v0] r IH]; cbn; [intros []|].
  intros Hin. destruct (String.eqb k k0) eqn:E; [eexists; reflexivity|].
  destruct Hin as [Eq|Hin]; [|apply IH, Hin].
  inversion Eq. subst. rewrite String.eqb_refl in E. discriminate E.
Qed.

End DictFacts.

(** A loop whose accumulator has raised keeps raising. *)
Lemma fold_raise {A B} (f : A -> B -> Py.exc A) (l : list B) (e : Py.exn) :
  fold_left (fun acc x => Py.exc_bind acc (fun a => f a x)) l (Py.Raise e)
  = Py.Raise e.
Proof. induction l as [|x r IH]; cbn; [reflexivity|exact IH]. Qed.

(** ** The current spot prices of the automation script *)

Section CurrentSpotPrices.

Import Py Aws.

Let step (acc : exc (Dict.t Automation.spot_entry)) (p : spot_price_info) :=
  exc_bind acc (fun d => Automation.keep_latest d p).

(** What a record does to the map when its entry is stored. *)
Lemma keep_latest_set (d0 : Dict.t Automation.spot_entry)
    (p : spot_price_info) (value : float) :
  SpotPrice p = Ok value ->
  (forall e0, Dict.get d0 (InstanceType p) = Some e0 ->
     (Automation.timestamp e0 <= PriceTimestamp p)%Z) ->
  let d1 := Dict.set d0 (InstanceType p)
              {| Automation.price := value;
                 Automation.timestamp := PriceTimestamp p;
                 Automation.az := AvailabilityZone p |} in
  (keys_distinct d0 -> keys_distinct d1)
  /\ (forall t e, Dict.get d1 t = Some e ->
        Dict.get d0 t = Some e \/ (t = InstanceType p /\ entry_of p e))
  /\ (forall t e0, Dict.get d0 t = Some e0 ->
        exists e, Dict.get d1 t = Some e
                  /\ (Automation.timestamp e0 <= Automation.timestamp e)%Z)
  /\ (exists e, Dict.get d1 (InstanceType p) = Some e
                /\ (PriceTimestamp p <= Automation.timestamp e)%Z).
Proof.
  intros Hv Hold d1. subst d1.
  split; [apply set_keys_distinct|]. split; [|split].
  - intros t e. rewrite get_set.
    destruct (String.eqb (InstanceType p) t) eqn:E; [|auto].
    apply String.eqb_eq in E. intros H. inversion H. subst.
    right. split; [reflexivity|]. repeat split. exact Hv.
  - intros t e0 H0. rewrite get_set.
    destruct (String.eqb (InstanceType p) t) eqn:E.
    + apply String.eqb_eq in E. subst t. eexists. split; [reflexivity|].
      cbn. apply Hold, H0.
    + exists e0. split; [exact H0|lia].
  - rewrite get_set_same. eexists. split; [reflexivity|]. cbn. lia.
Qed.

(** One turn of the loop: what it keeps and what it adds. *)
Lemma keep_latest_step (d0 d1 : Dict.t Automation.spot_entry)
    (p : spot_price_info) :
  Automation.keep_latest d0 p = Ok d1 ->
  (keys_distinct d0 -> keys_distinct d1)
  /\ (forall t e, Dict.get d1 t = Some e ->
        Dict.get d0 t = Some e \/ (t = InstanceType p /\ entry_of p e))
  /\ (forall t e0, Dict.get d0 t = Some e0 ->
        exists e, Dict.get d1 t = Some e
                  /\ (Automation.timestamp e0 <= Automation.timestamp e)%Z)
  /\ (exists e, Dict.get d1 (InstanceType p) = Some e
                /\ (PriceTimestamp p <= Automation.timestamp e)%Z).
Proof.
  unfold Automation.keep_latest.
  destruct (Dict.get d0 (InstanceType p)) as [e0|] eqn:G.
  - destruct (Automation.timestamp e0 <? PriceTimestamp p)%Z eqn:L.
    + destruct (SpotPrice p) as [value|err] eqn:Hv; cbn [exc_bind];
        [|discriminate].
      intros H. inversion H. apply (keep_latest_set d0 p value Hv).
      intros e0' He. rewrite G in He. inversion He. subst.
      apply Z.ltb_lt in L. lia.
    + intros H. inversion H. subst d1. apply Z.ltb_ge in L.
      split; [auto|]. split; [auto|]. split.
      * intros t e1 H1. exists e1. split; [exact H1|lia].
      * exists e0. split; [exact G|exact L].
  - destruct (SpotPrice p) as [value|err] eqn:Hv; cbn [exc_bind];
      [|discriminate].
    intros H. inversion H. apply (keep_latest_set d0 p value Hv).
    intros e0' He. rewrite G in He. discriminate He.
Qed.

(** The loop over a history. *)
Lemma keep_latest_loop (history : list spot_price_info) :
  forall d0 d,
    fold_left step history (Ok d0) = Ok d ->
    (keys_distinct d0 -> keys_distinct d)
    /\ (forall t e, Dict.get d t = Some e ->
          Dict.get d0 t = Some e
          \/ exists p, In p history /\ InstanceType p = t /\ entry_of p e)
    /\ (forall t e0, Dict.get d0 t = Some e0 ->
          exists e, Dict.get d t = Some e
                    /\ (Automation.timestamp e0 <= Automation.timestamp e)%Z)
    /\ (forall p, In p history ->
          exists e, Dict.get d (InstanceType p) = Some e
                    /\ (PriceTimestamp p <= Automation.timestamp e)%Z).
Proof.
  induction history as [|p rest IH]; intros d0 d; cbn [fold_left].
  - intros H. inversion H. subst d. split; [auto|]. split; [auto|]. split.
    + intros t e0 H0. exists e0. split; [exact H0|lia].
    + intros p [].
  - unfold step at 2. cbn [exc_bind].
    destruct (Automation.keep_latest d0 p) as [d1|err] eqn:K.
    + intros H. destruct (IH d1 d H) as (I1 & I2 & I3 & I4).
      destruct (keep_latest_step d0 d1 p K) as (S1 & S2 & S3 & S4).
      split; [auto|]. split; [|split].
      * intros t e He. destruct (I2 t e He) as [H1|(q & Hq & Ht & Hm)].
        -- destruct (S2 t e H1) as [H0|[Ht Hm]]; [left; exact H0|].
           right. exists p. split; [left; reflexivity|]. split; [auto|exact Hm].
        -- right. exists q. split; [right; exact Hq|]. split; assumption.
      * intros t e0 H0. destruct (S3 t e0 H0) as (e1 & H1 & L1).
        destruct (I3 t e1 H1) as (e & He & L). exists e. split; [exact He|lia].
      * intros q [<-|Hq]; [|apply I4, Hq].
        destruct S4 as (e1 & H1 & L1).
        destruct (I3 _ e1 H1) as (e & He & L). exists e. split; [exact He|lia].
    + unfold step. rewrite fold_raise. discriminate.
Qed.

(** The loop raises only on a record whose price does not convert. *)
Lemma keep_latest_loop_ok (history : list spot_price_info) :
  Forall price_converts history ->
  forall d0, exists d, fold_left step history (Ok d0) = Ok d.
Proof.
  induction 1 as [|p rest [value Hv] _ IH]; intros d0; cbn [fold_left].
  - eexists. reflexivity.
  - unfold step at 2. cbn [exc_bind]. unfold Automation.keep_latest.
    rewrite Hv. cbn [exc_bind]. destruct (match Dict.get d0 _ with
                                          | Some _ => _ | None => _ end);
      apply IH.
Qed.

Lemma current_spot_prices_spec (self : Automation.manager)
    (history : list spot_price_info) :
  Automation.describe_spot_price_history (Automation.aws self) = Ok history ->
  Forall price_converts history ->
  let d := Automation.get_current_spot_prices self in
  keys_distinct d
  /\ (forall p, In p history ->
        exists e, Dict.get d (InstanceType p) = Some e
                  /\ (PriceTimestamp p <= Automation.timestamp e)%Z)
  /\ (forall t e, Dict.get d t = Some e ->
        exists p, In p history /\ InstanceType p = t /\ entry_of p e).
Proof.
  intros Hh Hc d. subst d.
  unfold Automation.get_current_spot_prices,
    Automation.get_current_spot_prices_body.
  rewrite Hh. cbn [exc_bind].
  destruct (keep_latest_loop_ok history Hc Dict.empty) as [d Hd].
  fold step. rewrite Hd.
  destruct (keep_latest_loop history Dict.empty d Hd) as (I1 & I2 & _ & I4).
  split; [apply I1; constructor|]. split; [exact I4|].
  intros t e He. destruct (I2 t e He) as [H0|H]; [discriminate H0|exact H].
Qed.

(** Whatever the provider answers, the keys of the price map are distinct. *)
Lemma current_spot_prices_distinct (self : Automation.manager) :
  keys_distinct (Automation.get_current_spot_prices self).
Proof.
  unfold Automation.get_current_spot_prices,
    Automation.get_current_spot_prices_body.
  destruct (Automation.describe_spot_price_history _) as [history|err];
    cbn [exc_bind]; [|constructor].
  fold step.
  destruct (fold_left step history (Ok Dict.empty)) as [d|err] eqn:Hd;
    [|constructor].
  apply (keep_latest_loop history Dict.empty d Hd). constructor.
Qed.

End CurrentSpotPrices.

(** X1: when the price query answers and every price converts,
    [get_current_spot_prices] holds, for each instance type of the history,
    one entry; that entry is built from a record of the history of that type,
    and no record of that type has a later timestamp. *)
Theorem latest_price_per_instance_type (self : Automation.manager)
    (history : list Aws.spot_price_info) :
  Automation.describe_spot_price_history (Automation.aws self)
  = Py.Ok history ->
  Forall price_converts history ->
  let d := Automation.get_current_spot_prices self in
  keys_distinct d
  /\ (forall p, In p history ->
        exists e, Dict.get d (Aws.InstanceType p) = Some e
                  /\ (Aws.PriceTimestamp p <= Automation.timestamp e)%Z)
  /\ (forall t e, Dict.get d t = Some e ->
        exists p, In p history /\ Aws.InstanceType p = t /\ entry_of p e).
Proof. exact (current_spot_prices_spec self history). Qed.

(** X1 on a history with two records of g4dn.xlarge: the later one is
    kept. *)
Lemma latest_price_per_instance_type_example :
  Automation.get_current_spot_prices MoreScenarios.mixed_manager
  = [("g4dn.xlarge",
      {| Automation.price := 0.75; Automation.timestamp := 1200;
         Automation.az := "us-east-1c" |});
     ("g5.xlarge",
      {| Automation.price := 0.25; Automation.timestamp := 900;
         Automation.az := "us-east-1b" |})]
  /\ keys_distinct
       (Automation.get_current_spot_prices MoreScenarios.mixed_manager).
Proof.
  split; [vm_compute; reflexivity|].
  apply (latest_price_per_instance_type MoreScenarios.mixed_manager
           MoreScenarios.mixed_prices eq_refl).
  repeat constructor; eexists; reflexivity.
Defined.

(** ** Savings and the best spot option *)

Section Savings.

Import Py Aws.

Lemma savings_of_entry (spot on_demand : float) :
  (0 <? on_demand) = true ->
  Automation.savings_of spot on_demand = Ok (savings_entry spot on_demand).
Proof.
  intros H. unfold Automation.savings_of.
  rewrite (truediv_positive _ _ H). reflexivity.
Qed.

(** The loop of [calculate_potential_savings] over a price map with distinct
    keys. *)
Lemma potential_savings_get (spot_prices : Dict.t Automation.spot_entry) :
  keys_distinct spot_prices ->
  forall r0, exists r,
    fold_left
      (fun acc item =>
         exc_bind acc (fun savings_analysis =>
           let '(instance_type, entry) := item in
           match Dict.get Automation.get_on_demand_prices instance_type with
           | Some on_demand =>
               exc_bind (Automation.savings_of (Automation.price entry) on_demand)
                 (fun s => Ok (Dict.set savings_analysis instance_type s))
           | None => Ok savings_analysis
           end))
      spot_prices (Ok r0) = Ok r
    /\ forall t,
        Dict.get r t
        = match Dict.get spot_prices t,
                Dict.get Automation.get_on_demand_prices t with
          | Some e, Some on_demand =>
              Some (savings_entry (Automation.price e) on_demand)
          | _, _ => Dict.get r0 t
          end.
Proof.
  unfold keys_distinct.
  induction spot_prices as [|[k e] rest IH]; intros Hd r0; cbn [fold_left].
  - exists r0. split; [reflexivity|]. intros t. reflexivity.
  - inversion Hd as [|? ? Hnot Hrest]; subst. cbn [exc_bind].
    assert (Hk : Dict.get rest k = None).
    { destruct (Dict.get rest k) as [v|] eqn:G; [|reflexivity].
      exfalso. apply Hnot. apply get_in in G.
      apply (in_map fst) in G. exact G. }
    destruct (Dict.get Automation.get_on_demand_prices k) as [od|] eqn:T.
    + rewrite (savings_of_entry _ _ (on_demand_prices_positive _ _ T)).
      cbn [exc_bind].
      destruct (IH Hrest (Dict.set r0 k (savings_entry (Automation.price e) od)))
        as (r & Hr & Hget).
      exists r. split; [exact Hr|]. intros t. rewrite Hget. cbn [Dict.get].
      destruct (String.eqb t k) eqn:E.
      * apply String.eqb_eq in E. subst t. rewrite Hk, T, get_set_same.
        reflexivity.
      * rewrite get_set_other
          by (intros ->; rewrite String.eqb_refl in E; discriminate E).
        reflexivity.
    + destruct (IH Hrest r0) as (r & Hr & Hget).
      exists r. split; [exact Hr|]. intros t. rewrite Hget. cbn [Dict.get].
      destruct (String.eqb t k) eqn:E; [|reflexivity].
      apply String.eqb_eq in E. subst t. rewrite Hk, T. reflexivity.
Qed.

Lemma calculate_potential_savings_spec (self : Automation.manager) :
  exists analysis,
    Automation.calculate_potential_savings self = Ok analysis
    /\ forall t,
        Dict.get analysis t
        = match Dict.get (Automation.get_current_spot_prices self) t,
                Dict.get Automation.get_on_demand_prices t with
          | Some e, Some on_demand =>
              Some (savings_entry (Automation.price e) on_demand)
          | _, _ => None
          end.
Proof.
  destruct (potential_savings_get (Automation.get_current_spot_prices self)
              (current_spot_prices_distinct self) Dict.empty)
    as (r & Hr & Hget).
  exists r. split; [exact Hr|]. intros t. rewrite Hget.
  destruct (Dict.get _ t); [destruct (Dict.get _ t)|]; reflexivity.
Qed.

Variable self : Automation.manager.

Let pick (best : option string * float) (item : string * Automation.savings) :=
  let '(instance_type, analysis) := item in
  if (snd best <? Automation.savings_percent analysis)
     && (Automation.spot_price analysis
         <=? Automation.max_spot_price (Automation.self_config self))
  then (Some instance_type, Automation.savings_percent analysis)
  else best.

(** What the loop of [optimize_spot_instance_pricing] knows of the items it
    has seen. *)
Let chosen (seen : list (string * Automation.savings))
    (best : option string * float) : Prop :=
  (forall t a, In (t, a) seen -> affordable self a = true ->
     (snd best <? Automation.savings_percent a) = false)
  /\ match fst best with
     | Some t =>
         exists a, In (t, a) seen /\ snd best = Automation.savings_percent a
                   /\ affordable self a = true /\ (0 <? snd best) = true
     | None => snd best = 0
     end.

Lemma pick_chosen (seen : list (string * Automation.savings))
    (best : option string * float) (item : string * Automation.savings) :
  chosen seen best -> chosen (seen ++ [item]) (pick best item).
Proof.
  intros [Hmax Hbest]. destruct item as [t a]. unfold pick.
  destruct (snd best <? Automation.savings_percent a) eqn:L; cbn [andb].
  - destruct (Automation.spot_price a <=? _) eqn:A.
    + split; cbn [fst snd].
      * intros t' a' Hin Ha'. apply in_app_or in Hin.
        destruct Hin as [Hin|[E|[]]].
        -- destruct (Automation.savings_percent a
                     <? Automation.savings_percent a') eqn:L'; [|reflexivity].
           pose proof (Hmax t' a' Hin Ha') as Hn.
           rewrite (ltb_trans _ _ _ L L') in Hn. discriminate Hn.
        -- inversion E. subst. apply ltb_irrefl.
      * exists a. split; [apply in_or_app; right; left; reflexivity|].
        split; [reflexivity|]. split; [exact A|].
        destruct (fst best) as [t0|].
        -- destruct Hbest as (a0 & _ & _ & _ & H0).
           apply (ltb_trans _ _ _ H0 L).
        -- rewrite Hbest in L. exact L.
    + split.
      * intros t' a' Hin Ha'. apply in_app_or in Hin.
        destruct Hin as [Hin|[E|[]]]; [apply (Hmax t' a' Hin Ha')|].
        inversion E. subst. unfold affordable in Ha'.
        rewrite A in Ha'. discriminate Ha'.
      * destruct (fst best) as [t0|]; [|exact Hbest].
        destruct Hbest as (a0 & Hin & H).
        exists a0. split; [apply in_or_app; left; exact Hin|exact H].
  - split.
    + intros t' a' Hin Ha'. apply in_app_or in Hin.
      destruct Hin as [Hin|[E|[]]]; [apply (Hmax t' a' Hin Ha')|].
      inversion E. subst. exact L.
    + destruct (fst best) as [t0|]; [|exact Hbest].
      destruct Hbest as (a0 & Hin & H).
      exists a0. split; [apply in_or_app; left; exact Hin|exact H].
Qed.

Lemma fold_pick_chosen (rest : list (string * Automation.savings)) :
  forall seen best,
    chosen seen best -> chosen (seen ++ rest) (fold_left pick rest best).
Proof.
  induction rest as [|item rest IH]; intros seen best H; cbn [fold_left].
  - rewrite app_nil_r. exact H.
  - replace (seen ++ item :: rest) with ((seen ++ [item]) ++ rest)
      by (rewrite <- app_assoc; reflexivity).
    apply IH, pick_chosen, H.
Qed.

Lemma best_option_of_chosen (savings_analysis : Dict.t Automation.savings) :
  chosen savings_analysis (Automation.best_option_of self savings_analysis).
Proof.
  apply (fold_pick_chosen savings_analysis [] (None, 0)).
  split; [intros t a []|reflexivity].
Qed.

End Savings.

(** X2: [calculate_potential_savings] always returns, and holds an analysis
    exactly for the instance types that have both a current spot price and an
    entry of the on-demand table; the analysis of such a type is computed from
    these two prices (hourly saving on-demand minus spot, times 24 a day,
    times 30 a month, percentage of the on-demand price). *)
Theorem potential_savings_entries (self : Automation.manager) :
  exists analysis,
    Automation.calculate_potential_savings self = Py.Ok analysis
    /\ forall t,
        Dict.get analysis t
        = match Dict.get (Automation.get_current_spot_prices self) t,
                Dict.get Automation.get_on_demand_prices t with
          | Some e, Some on_demand =>
              Some (savings_entry (Automation.price e) on_demand)
          | _, _ => None
          end.
Proof. exact (calculate_potential_savings_spec self). Qed.

(** X3: the option [optimize_spot_instance_pricing] selects is an analysed
    instance type whose spot price is within [max_spot_price] and whose saving
    is above 0, and no analysed type within [max_spot_price] saves strictly
    more; when it selects none the best saving is still 0 and no type within
    [max_spot_price] saves more than 0. *)
Theorem best_option_is_best (self : Automation.manager)
    (savings_analysis : Dict.t Automation.savings) :
  let best := Automation.best_option_of self savings_analysis in
  (forall t a, In (t, a) savings_analysis -> affordable self a = true ->
     (snd best <? Automation.savings_percent a) = false)
  /\ match fst best with
     | Some t =>
         exists a, In (t, a) savings_analysis
                   /\ snd best = Automation.savings_percent a
                   /\ affordable self a = true /\ (0 <? snd best) = true
     | None => snd best = 0
     end.
Proof. exact (best_option_of_chosen self savings_analysis). Qed.

(** The pricing step never raises: the option it selects has a spot
    price. *)
Lemma optimize_spot_instance_pricing_ok (self : Automation.manager) :
  Automation.optimize_spot_instance_pricing self = Py.Ok tt.
Proof.
  unfold Automation.optimize_spot_instance_pricing.
  destruct (calculate_potential_savings_spec self) as (analysis & Ha & Hget).
  rewrite Ha. cbn [Py.exc_bind].
  destruct (best_option_of_chosen self analysis) as [_ Hbest].
  destruct (fst (Automation.best_option_of self analysis)) as [t|];
    [|reflexivity].
  destruct Hbest as (a & Hin & _).
  destruct (in_get_some analysis t a Hin) as [a' Hget'].
  rewrite Hget in Hget'.
  destruct (Dict.get (Automation.get_current_spot_prices self) t);
    [reflexivity|discriminate Hget'].
Qed.

(** ** The idle instances of the group *)

Section IdleInstances.

Import Py Aws.

Variable self : Automation.manager.

Let window := Automation.idle_timeout_minutes (Automation.self_config self).
Let threshold := Automation.scale_down_threshold (Automation.self_config self).

Lemma idle_among_sound (instances : list asg_instance) (id : string) :
  In id (Automation.idle_among self instances) ->
  exists datapoints,
    In {| AsgInstanceId := id |} instances
    /\ Automation.get_metric_statistics (Automation.aws self) id window
       = Ok datapoints
    /\ datapoints <> []
    /\ (sum (map Average datapoints) / float_of_int (len datapoints)
        <? threshold) = true.
Proof.
  induction instances as [|[id0] rest IH]; cbn [Automation.idle_among];
    [intros []|].
  cbn [AsgInstanceId]. fold window threshold.
  destruct (Automation.get_metric_statistics _ id0 window)
    as [datapoints|err] eqn:Q; [|intros []].
  intros Hin. apply in_app_or in Hin. destruct Hin as [Hin|Hin].
  - destruct datapoints as [|dp dps]; [destruct Hin|].
    cbn [truthy andb] in Hin.
    destruct (_ <? threshold) eqn:L; [|destruct Hin].
    destruct Hin as [<-|[]].
    exists (dp :: dps). split; [left; reflexivity|].
    split; [exact Q|]. split; [discriminate|exact L].
  - destruct (IH Hin) as (dps & Hi & H). exists dps.
    split; [right; exact Hi|exact H].
Qed.

Lemma idle_among_stops (before after : list asg_instance)
    (inst : asg_instance) (err : exn) :
  Automation.get_metric_statistics (Automation.aws self) (AsgInstanceId inst)
    window = Raise err ->
  Automation.idle_among self (before ++ inst :: after)
  = Automation.idle_among self before.
Proof.
  intros Q. induction before as [|b rest IH]; cbn [app Automation.idle_among].
  - fold window. rewrite Q. reflexivity.
  - fold window.
    destruct (Automation.get_metric_statistics (Automation.aws self)
                (AsgInstanceId b) window) eqn:Qb.
    + rewrite IH. reflexivity.
    + reflexivity.
Qed.

End IdleInstances.

(** X4: every instance [check_idle_instances] reports is an instance of the
    group of the manager, its utilization query returned at least one data
    point, and the average of these data points is strictly below the
    scale-down threshold. *)
Theorem idle_instances_are_idle (self : Automation.manager) (id : string) :
  In id (Automation.check_idle_instances self) ->
  exists name asg rest datapoints,
    Automation.asg_name_if_set self = Some name
    /\ Automation.describe_auto_scaling_groups (Automation.aws self) name
       = Py.Ok (asg :: rest)
    /\ In {| Aws.AsgInstanceId := id |} (Aws.Instances asg)
    /\ Automation.get_metric_statistics (Automation.aws self) id
         (Automation.idle_timeout_minutes (Automation.self_config self))
       = Py.Ok datapoints
    /\ datapoints <> []
    /\ (Py.sum (map Aws.Average datapoints)
        / Py.float_of_int (Py.len datapoints)
        <? Automation.scale_down_threshold (Automation.self_config self))
       = true.
Proof.
  unfold Automation.check_idle_instances.
  destruct (Automation.asg_name_if_set self) as [name|]; [|intros []].
  destruct (Automation.describe_auto_scaling_groups _ name)
    as [[|asg rest]|err] eqn:D; try (intros []).
  intros Hin. destruct (idle_among_sound self _ id Hin) as (dps & H).
  exists name, asg, rest, dps. split; [reflexivity|]. split; [exact D|].
  exact H.
Qed.

(** X4 on the group whose instances are at 3%. *)
Lemma idle_instances_are_idle_example :
  Automation.check_idle_instances Scenario.idle_manager
  = ["i-01"; "i-02"; "i-03"]
  /\ exists name asg rest datapoints,
      Automation.asg_name_if_set Scenario.idle_manager = Some name
      /\ Automation.describe_auto_scaling_groups
           (Automation.aws Scenario.idle_manager) name
         = Py.Ok (asg :: rest)
      /\ In {| Aws.AsgInstanceId := "i-02" |} (Aws.Instances asg)
      /\ Automation.get_metric_statistics
           (Automation.aws Scenario.idle_manager) "i-02"
           (Automation.idle_timeout_minutes
              (Automation.self_config Scenario.idle_manager))
         = Py.Ok datapoints
      /\ datapoints <> []
      /\ (Py.sum (map Aws.Average datapoints)
          / Py.float_of_int (Py.len datapoints)
          <? Automation.scale_down_threshold
               (Automation.self_config Scenario.idle_manager))
         = true.
Proof.
  split; [vm_compute; reflexivity|].
  apply (idle_instances_are_idle Scenario.idle_manager "i-02").
  vm_compute. right. left. reflexivity.
Defined.

(** X5: a utilization query that raises ends the scan of
    [check_idle_instances]: the result is what the scan of the instances
    before the failing one gives, so that no instance at or after it is
    reported, idle or not. *)
Theorem idle_scan_stops_at_failure (self : Automation.manager) (name : string)
    (asg : Aws.auto_scaling_group) (rest : list Aws.auto_scaling_group)
    (before after : list Aws.asg_instance) (inst : Aws.asg_instance)
    (err : Py.exn) :
  Automation.asg_name_if_set self = Some name ->
  Automation.describe_auto_scaling_groups (Automation.aws self) name
  = Py.Ok (asg :: rest) ->
  Aws.Instances asg = before ++ inst :: after ->
  Automation.get_metric_statistics (Automation.aws self)
    (Aws.AsgInstanceId inst)
    (Automation.idle_timeout_minutes (Automation.self_config self))
  = Py.Raise err ->
  Automation.check_idle_instances self = Automation.idle_among self before
  /\ forall id, In id (Automation.check_idle_instances self) ->
       In {| Aws.AsgInstanceId := id |} before.
Proof.
  intros Hname Hasg Hinst Q.
  assert (E : Automation.check_idle_instances self
              = Automation.idle_among self before).
  { unfold Automation.check_idle_instances. rewrite Hname, Hasg, Hinst.
    apply (idle_among_stops self before after inst err Q). }
  split; [exact E|]. rewrite E. intros id Hin.
  destruct (idle_among_sound self before id Hin) as (dps & H & _). exact H.
Qed.

(** X5 on a group of three whose second query fails: i-03, which is idle
    too, is not reported. *)
Lemma idle_scan_stops_at_failure_example :
  Automation.check_idle_instances FailingScenario.flaky_manager = ["i-01"]
  /\ forall id,
       In id (Automation.check_idle_instances FailingScenario.flaky_manager) ->
       In {| Aws.AsgInstanceId := id |} [{| Aws.AsgInstanceId := "i-01" |}].
Proof.
  split; [vm_compute; reflexivity|].
  apply (idle_scan_stops_at_failure FailingScenario.flaky_manager "gpu-asg"
           Scenario.gpu_asg []
           [{| Aws.AsgInstanceId := "i-01" |}]
           [{| Aws.AsgInstanceId := "i-03" |}]
           {| Aws.AsgInstanceId := "i-02" |} (Py.ClientError "Throttling"));
    reflexivity.
Defined.

(** ** Idle resources of the Lambda *)

Lemma get_default_of_get {V} (d : Dict.t V) (k : string) (v default : V) :
  Dict.get d k = Some v -> Dict.get_default d k default = v.
Proof. unfold Dict.get_default. intros ->. reflexivity. Qed.

Lemma no_data_not_idle (self : Lambda.optimizer) (iid : string) :
  (forall namespace name,
      no_data (Lambda.get_metric_statistics (Lambda.aws self) namespace name iid)) ->
  Lambda._is_instance_idle (Lambda._get_instance_metrics self iid) iid = false.
Proof.
  intros Hno. rewrite is_instance_idle_unfold.
  assert (E : forall name namespace,
             In (name, namespace) Lambda.metric_queries ->
             Dict.get_default (Lambda._get_instance_metrics self iid) name []
             = []).
  { intros name namespace Hin. apply get_default_of_get.
    rewrite (get_instance_metrics_entry self iid name namespace Hin).
    specialize (Hno namespace name). unfold no_data in Hno.
    destruct (Lambda.get_metric_statistics _ _ _ _); [subst|]; reflexivity. }
  rewrite (E "GPUUtilization" "GPU/AI-Starter-Kit") by (left; reflexivity).
  rewrite (E "GPUMemoryUtilization" "GPU/AI-Starter-Kit")
    by (right; left; reflexivity).
  rewrite (E "CPUUtilization" "AWS/EC2") by (right; right; left; reflexivity).
  reflexivity.
Qed.

(** X6: when no metric query brings data (each one raises or returns no data
    point), [check_idle_resources] reports no instance as idle, however many
    instances are running. *)
Theorem metrics_outage_reports_nothing (self : Lambda.optimizer)
    (reservations : list (list Lambda.instance)) :
  Lambda.describe_instances (Lambda.aws self) = Py.Ok reservations ->
  (forall namespace name iid,
      no_data (Lambda.get_metric_statistics (Lambda.aws self) namespace name iid)) ->
  Lambda.check_idle_resources self = Py.Ok [].
Proof.
  intros Hd Hno. unfold Lambda.check_idle_resources. rewrite Hd.
  cbn [Py.exc_bind]. f_equal.
  clear Hd. induction reservations as [|reservation rest IH]; [reflexivity|].
  cbn [flat_map]. rewrite IH, app_nil_r.
  clear IH. induction reservation as [|inst more IH]; [reflexivity|].
  cbn [flat_map]. rewrite IH, app_nil_r. unfold Lambda.check_instance.
  rewrite no_data_not_idle by (intros; apply Hno). reflexivity.
Qed.

(** X6 on a provider without data points. *)
Lemma metrics_outage_reports_nothing_example :
  Lambda.check_idle_resources LambdaScenario.silent_optimizer = Py.Ok [].
Proof.
  apply (metrics_outage_reports_nothing LambdaScenario.silent_optimizer
           [[{| Lambda.InstanceId := "i-01";
                Lambda.InstanceKind := "g4dn.xlarge";
                Lambda.LaunchTime := 0 |}]]).
  - reflexivity.
  - intros namespace name iid. reflexivity.
Defined.

(** ** The scaling optimizations of the Lambda *)

Section ScalingOptimizations.

Import Py Aws.

(** The counters of the activity loop. *)
Lemma count_activities_from (activities : list Lambda.activity) :
  forall ups downs,
    let counts :=
      fold_left
        (fun counts activity =>
           let '(ups, downs) := counts in
           if contains "scale up" (lower (Lambda.Description activity))
           then (ups + 1, downs)%Z
           else if contains "scale down" (lower (Lambda.Description activity))
           then (ups, downs + 1)%Z
           else (ups, downs))
        activities (ups, downs) in
    (ups <= fst counts /\ downs <= snd counts
     /\ fst counts + snd counts <= ups + downs + len activities)%Z.
Proof.
  induction activities as [|a rest IH]; intros ups downs; cbn [fold_left].
  - cbn. unfold len. cbn. lia.
  - cbv zeta in IH |- *.
    assert (L : len (a :: rest) = (len rest + 1)%Z)
      by (unfold len; cbn [List.length]; lia).
    rewrite L.
    destruct (contains "scale up" _);
      [|destruct (contains "scale down" _)].
    + specialize (IH (ups + 1)%Z downs). lia.
    + specialize (IH ups (downs + 1)%Z). lia.
    + specialize (IH ups downs). lia.
Qed.

Lemma count_activities_bounds (activities : list Lambda.activity) :
  (0 <= fst (Lambda.count_activities activities)
   /\ 0 <= snd (Lambda.count_activities activities)
   /\ fst (Lambda.count_activities activities)
      + snd (Lambda.count_activities activities) <= len activities)%Z.
Proof.
  pose proof (count_activities_from activities 0 0) as H. cbv zeta in H.
  unfold Lambda.count_activities. lia.
Qed.

(** With counters that are not negative the two recommendations exclude each
    other. *)
Lemma at_most_one_scaling_recommendation
    (current_capacity min_size max_size ups downs : Z) :
  (0 <= downs)%Z ->
  (List.length (Lambda.scaling_recommendations current_capacity min_size
                  max_size ups downs) <= 1)%nat.
Proof.
  intros Hd. unfold Lambda.scaling_recommendations.
  destruct (ups =? 0)%Z eqn:U.
  - apply Z.eqb_eq in U.
    replace (downs <? ups)%Z with false by (symmetry; apply Z.ltb_ge; lia).
    cbn [andb]. destruct (min_size <? current_capacity)%Z; cbn; lia.
  - cbn [andb]. destruct ((downs <? ups)%Z && (max_size <? 10)%Z); cbn; lia.
Qed.

Variable self : Lambda.optimizer.

(** The group loop: one optimization per tagged group, in order. *)
Lemma optimize_groups_ok (groups : list auto_scaling_group) :
  forall done result,
    fold_left (fun acc asg =>
                 exc_bind acc (fun done =>
                   exc_bind (Lambda.optimize_group self asg) (fun more =>
                     Ok (done ++ more))))
              groups (Ok done) = Ok result ->
    exists more,
      result = done ++ more
      /\ Forall2 (fun asg o =>
                    exists activities,
                      Lambda.describe_scaling_activities (Lambda.aws self)
                        (AutoScalingGroupName asg) = Ok activities
                      /\ o = optimization_of asg activities)
                 (filter Lambda.is_ai_starter_kit groups) more.
Proof.
  induction groups as [|asg rest IH]; intros done result; cbn [fold_left].
  - intros H. inversion H. exists []. rewrite app_nil_r.
    split; [reflexivity|constructor].
  - cbn [exc_bind filter]. unfold Lambda.optimize_group at 2.
    destruct (Lambda.is_ai_starter_kit asg) eqn:T; cbn [negb].
    + destruct (Lambda.describe_scaling_activities _ _) as [acts|err] eqn:Q;
        cbn [exc_bind].
      * destruct (Lambda.count_activities acts) as [ups downs] eqn:C.
        cbn [exc_bind]. intros H.
        destruct (IH _ _ H) as (more & -> & HF).
        eexists (_ :: more). split; [rewrite <- app_assoc; reflexivity|].
        constructor; [|exact HF].
        exists acts. split; [exact Q|].
        unfold optimization_of. rewrite C. reflexivity.
      * rewrite fold_raise. discriminate.
    + cbn [exc_bind]. rewrite app_nil_r. apply IH.
Qed.

(** A tagged group whose activity query raises makes the loop raise. *)
Lemma optimize_groups_raise (groups : list auto_scaling_group)
    (asg : auto_scaling_group) (err : exn) :
  In asg groups -> Lambda.is_ai_starter_kit asg = true ->
  Lambda.describe_scaling_activities (Lambda.aws self)
    (AutoScalingGroupName asg) = Raise err ->
  forall done, exists err',
    fold_left (fun acc asg =>
                 exc_bind acc (fun done =>
                   exc_bind (Lambda.optimize_group self asg) (fun more =>
                     Ok (done ++ more))))
              groups (Ok done) = Raise err'.
Proof.
  intros Hin T Q. induction groups as [|g rest IH]; [destruct Hin|].
  intros done. cbn [fold_left exc_bind].
  destruct (Lambda.optimize_group self g) as [more|e] eqn:G; cbn [exc_bind].
  - destruct Hin as [->|Hin]; [|apply IH, Hin].
    unfold Lambda.optimize_group in G. rewrite T, Q in G. discriminate G.
  - exists e. apply fold_raise.
Qed.

Lemma optimize_auto_scaling_spec (groups : list auto_scaling_group)
    (optimizations : list Lambda.optimization) :
  Lambda.describe_auto_scaling_groups (Lambda.aws self) = Ok groups ->
  Lambda.optimize_auto_scaling self = Lambda.Optimizations optimizations ->
  Forall2 (fun asg o =>
             exists activities,
               Lambda.describe_scaling_activities (Lambda.aws self)
                 (AutoScalingGroupName asg) = Ok activities
               /\ o = optimization_of asg activities)
          (filter Lambda.is_ai_starter_kit groups) optimizations.
Proof.
  intros Hg. unfold Lambda.optimize_auto_scaling,
    Lambda.optimize_auto_scaling_body. rewrite Hg. cbn [exc_bind].
  destruct (fold_left _ groups (Ok [])) as [result|err] eqn:F; [|discriminate].
  intros H. inversion H. subst result.
  destruct (optimize_groups_ok groups [] optimizations F) as (more & -> & HF).
  exact HF.
Qed.

End ScalingOptimizations.

(** X7: the optimizations [optimize_auto_scaling] returns are those of the
    groups tagged Project = AI-Starter-Kit, one for each, in the order of the
    listing; an untagged group is never analysed. *)
Theorem only_tagged_groups_are_optimized (self : Lambda.optimizer)
    (groups : list Aws.auto_scaling_group)
    (optimizations : list Lambda.optimization) :
  Lambda.describe_auto_scaling_groups (Lambda.aws self) = Py.Ok groups ->
  Lambda.optimize_auto_scaling self = Lambda.Optimizations optimizations ->
  map Lambda.asg_name optimizations
  = map Aws.AutoScalingGroupName (filter Lambda.is_ai_starter_kit groups)
  /\ map Lambda.current_config optimizations
     = map (fun asg => (Aws.DesiredCapacity asg, Aws.MinSize asg,
                        Aws.MaxSize asg))
           (filter Lambda.is_ai_starter_kit groups).
Proof.
  intros Hg Ho.
  pose proof (optimize_auto_scaling_spec self groups optimizations Hg Ho) as HF.
  clear Hg Ho.
  induction HF as [|asg o gs os Hhead _ IH]; [split; reflexivity|].
  destruct Hhead as (acts & _ & ->). destruct IH as [IH1 IH2].
  cbn [map]. rewrite IH1, IH2. split; reflexivity.
Qed.

(** X7 on a listing of an untagged and a tagged group: the activity query of
    the untagged group would raise and is never made. *)
Lemma only_tagged_groups_are_optimized_example :
  map Lambda.asg_name
    (match Lambda.optimize_auto_scaling ScalingScenario.active_optimizer with
     | Lambda.Optimizations optimizations => optimizations
     | Lambda.ScalingError _ => []
     end) = ["gpu-asg"]
  /\ map Lambda.current_config
       (match Lambda.optimize_auto_scaling ScalingScenario.active_optimizer with
        | Lambda.Optimizations optimizations => optimizations
        | Lambda.ScalingError _ => []
        end) = [(3, 1, 5)%Z].
Proof.
  destruct (Lambda.optimize_auto_scaling ScalingScenario.active_optimizer)
    as [err|optimizations] eqn:E; [vm_compute in E; discriminate E|].
  apply (only_tagged_groups_are_optimized ScalingScenario.active_optimizer
           [ScalingScenario.other_asg; Scenario.gpu_asg] optimizations eq_refl E).
Defined.

(** X8: no group gets both recommendations: every optimization
    [optimize_auto_scaling] returns carries at most one recommendation, and
    its two counters are not negative and add up to no more than the number
    of activities returned for the group. *)
Theorem at_most_one_recommendation_per_group (self : Lambda.optimizer)
    (groups : list Aws.auto_scaling_group)
    (optimizations : list Lambda.optimization) (o : Lambda.optimization) :
  Lambda.describe_auto_scaling_groups (Lambda.aws self) = Py.Ok groups ->
  Lambda.optimize_auto_scaling self = Lambda.Optimizations optimizations ->
  In o optimizations ->
  (List.length (Lambda.recommendations o) <= 1)%nat
  /\ exists activities,
      Lambda.describe_scaling_activities (Lambda.aws self) (Lambda.asg_name o)
      = Py.Ok activities
      /\ (0 <= fst (Lambda.recent_activities o)
          /\ 0 <= snd (Lambda.recent_activities o)
          /\ fst (Lambda.recent_activities o) + snd (Lambda.recent_activities o)
             <= Py.len activities)%Z.
Proof.
  intros Hg Ho Hin.
  pose proof (optimize_auto_scaling_spec self groups optimizations Hg Ho) as HF.
  clear Hg Ho.
  induction HF as [|asg o' gs os Hhead _ IH]; [destruct Hin|].
  destruct Hhead as (acts & Q & ->).
  destruct Hin as [<-|Hin]; [|apply IH, Hin].
  pose proof (count_activities_bounds acts) as B.
  split.
  - apply at_most_one_scaling_recommendation. apply B.
  - exists acts. split; [exact Q|exact B].
Qed.

(** X8 on the tagged group of the listing: two scale-ups, one scale-down
    (a description with both phrases counts as a scale-up), the maximum is
    raised from 5 to 7 and the capacity is not reduced. *)
Lemma at_most_one_recommendation_per_group_example :
  Lambda.optimize_auto_scaling ScalingScenario.active_optimizer
  = Lambda.Optimizations
      [{| Lambda.asg_name := "gpu-asg";
          Lambda.current_config := (3, 1, 5)%Z;
          Lambda.recent_activities := (3, 1)%Z;
          Lambda.recommendations :=
            [{| Lambda.sr_type := "increase_max_capacity";
                Lambda.current := 5; Lambda.recommended := 7 |}] |}]
  /\ (List.length
        (Lambda.recommendations
           (optimization_of Scenario.gpu_asg
              [{| Lambda.Description := "Scale up to 3 instances" |};
               {| Lambda.Description := "Launching: scale up" |};
               {| Lambda.Description := "Scale down after scale up" |};
               {| Lambda.Description := "scale down to 2" |};
               {| Lambda.Description := "Health check" |}])) <= 1)%nat.
Proof.
  split; [vm_compute; reflexivity|].
  eapply (at_most_one_recommendation_per_group ScalingScenario.active_optimizer
            [ScalingScenario.other_asg; Scenario.gpu_asg]).
  - reflexivity.
  - vm_compute. reflexivity.
  - left. vm_compute. reflexivity.
Defined.

(** X9: when the activity query of one tagged group raises,
    [optimize_auto_scaling] returns an error alone: the optimizations of the
    groups analysed before it are lost with it. *)
Theorem one_failed_activity_query_loses_all (self : Lambda.optimizer)
    (groups : list Aws.auto_scaling_group) (asg : Aws.auto_scaling_group)
    (err : Py.exn) :
  Lambda.describe_auto_scaling_groups (Lambda.aws self) = Py.Ok groups ->
  In asg groups -> Lambda.is_ai_starter_kit asg = true ->
  Lambda.describe_scaling_activities (Lambda.aws self)
    (Aws.AutoScalingGroupName asg) = Py.Raise err ->
  exists err', Lambda.optimize_auto_scaling self = Lambda.ScalingError err'.
Proof.
  intros Hg Hin T Q. unfold Lambda.optimize_auto_scaling,
    Lambda.optimize_auto_scaling_body. rewrite Hg. cbn [Py.exc_bind].
  destruct (optimize_groups_raise self groups asg err Hin T Q []) as [err' ->].
  exists err'. reflexivity.
Qed.

(** X9 on the listing whose activity queries are throttled. *)
Lemma one_failed_activity_query_loses_all_example :
  exists err',
    Lambda.optimize_auto_scaling ScalingScenario.throttled_optimizer
    = Lambda.ScalingError err'.
Proof.
  apply (one_failed_activity_query_loses_all
           ScalingScenario.throttled_optimizer
           [ScalingScenario.other_asg; Scenario.gpu_asg] Scenario.gpu_asg
           (Py.ClientError "Throttling")).
  - reflexivity.
  - right. left. reflexivity.
  - reflexivity.
  - reflexivity.
Defined.

(** X10: a recommendation to raise the maximum is produced only when there
    were more scale-ups than scale-downs and the maximum is below 10; it
    proposes the maximum plus 2, capped at 10, which is above the current
    maximum and never above 10. *)
Theorem increase_max_capacity_bounds
    (current_capacity min_size max_size ups downs : Z)
    (r : Lambda.scaling_recommendation) :
  In r (Lambda.scaling_recommendations current_capacity min_size max_size
          ups downs) ->
  Lambda.sr_type r = "increase_max_capacity" ->
  (downs < ups /\ max_size < 10)%Z
  /\ Lambda.current r = max_size
  /\ Lambda.recommended r = Z.min 10 (max_size + 2)
  /\ (max_size < Lambda.recommended r <= 10)%Z.
Proof.
  unfold Lambda.scaling_recommendations. intros Hin T.
  apply in_app_or in Hin. destruct Hin as [Hin|Hin].
  - destruct ((ups =? 0)%Z && (min_size <? current_capacity)%Z);
      cbn in Hin; [|contradiction].
    destruct Hin as [<-|[]]. cbn in T. discriminate T.
  - destruct (downs <? ups)%Z eqn:L, (max_size <? 10)%Z eqn:M;
      cbn in Hin; try contradiction.
    destruct Hin as [<-|[]]. apply Z.ltb_lt in L. apply Z.ltb_lt in M.
    cbn. repeat split; lia.
Qed.

(** X10 on a group with a maximum of 9: the proposal is 10, not 11. *)
Lemma increase_max_capacity_bounds_example :
  Lambda.scaling_recommendations 3 1 9 2 1
  = [{| Lambda.sr_type := "increase_max_capacity"; Lambda.current := 9;
        Lambda.recommended := 10 |}]
  /\ (9 < 10 <= 10)%Z.
Proof.
  split; [reflexivity|].
  destruct (increase_max_capacity_bounds 3 1 9 2 1
              {| Lambda.sr_type := "increase_max_capacity";
                 Lambda.current := 9; Lambda.recommended := 10 |})
    as (_ & _ & _ & H); [left; reflexivity|reflexivity|exact H].
Defined.

(** ** The spot price analysis of the Lambda *)

Section Minimum.

Import Py.

Context {A : Type} (key : A -> float).

(** The loop of [min] with a key: its result is an element that no element
    is strictly below. *)
Lemma min_loop_spec (rest : list A) :
  forall seen acc,
    In acc seen ->
    (forall y, In y seen -> (key y <? key acc) = false) ->
    let m := fold_left (fun acc y => if (key y <? key acc) then y else acc)
               rest acc in
    In m (seen ++ rest)
    /\ forall y, In y (seen ++ rest) -> (key y <? key m) = false.
Proof.
  induction rest as [|z rest IH]; intros seen acc Hin Hmin; cbn [fold_left].
  - cbv zeta. rewrite app_nil_r. split; assumption.
  - replace (seen ++ z :: rest) with ((seen ++ [z]) ++ rest)
      by (rewrite <- app_assoc; reflexivity).
    destruct (key z <? key acc) eqn:L; apply IH.
    + apply in_or_app. right. left. reflexivity.
    + intros y Hy. apply in_app_or in Hy. destruct Hy as [Hy|[<-|[]]].
      * apply (not_below_smaller (key acc)); [exact L|apply Hmin, Hy].
      * apply ltb_irrefl.
    + apply in_or_app. left. exact Hin.
    + intros y Hy. apply in_app_or in Hy. destruct Hy as [Hy|[<-|[]]].
      * apply Hmin, Hy.
      * exact L.
Qed.

Lemma min_by_spec (x : A) (rest : list A) :
  exists m,
    min_by key (x :: rest) = Ok m
    /\ In m (x :: rest)
    /\ forall y, In y (x :: rest) -> (key y <? key m) = false.
Proof.
  eexists. split; [reflexivity|].
  apply (min_loop_spec rest [x] x); [left; reflexivity|].
  intros y [<-|[]]. apply ltb_irrefl.
Qed.

End Minimum.

Section MinMax.

Import Py.

Lemma min_from_spec (x : float) (rest : list float) :
  In (min_from x rest) (x :: rest)
  /\ forall y, In y (x :: rest) -> (y <? min_from x rest) = false.
Proof.
  apply (min_loop_spec (fun v => v) rest [x] x); [left; reflexivity|].
  intros y [<-|[]]. apply ltb_irrefl.
Qed.

(** The loop of [max]: its result is an element that is strictly below no
    element. *)
Lemma max_loop_spec (rest : list float) :
  forall seen acc,
    In acc seen ->
    (forall y, In y seen -> (acc <? y) = false) ->
    In (max_from acc rest) (seen ++ rest)
    /\ forall y, In y (seen ++ rest) -> (max_from acc rest <? y) = false.
Proof.
  unfold max_from.
  induction rest as [|z rest IH]; intros seen acc Hin Hmax; cbn [fold_left].
  - rewrite app_nil_r. split; assumption.
  - replace (seen ++ z :: rest) with ((seen ++ [z]) ++ rest)
      by (rewrite <- app_assoc; reflexivity).
    destruct (acc <? z) eqn:L; apply IH.
    + apply in_or_app. right. left. reflexivity.
    + intros y Hy. apply in_app_or in Hy. destruct Hy as [Hy|[<-|[]]].
      * destruct (z <? y) eqn:L'; [|reflexivity].
        pose proof (Hmax y Hy) as Hn.
        rewrite (ltb_trans _ _ _ L L') in Hn. discriminate Hn.
      * apply ltb_irrefl.
    + apply in_or_app. left. exact Hin.
    + intros y Hy. apply in_app_or in Hy. destruct Hy as [Hy|[<-|[]]].
      * apply Hmax, Hy.
      * exact L.
Qed.

Lemma max_from_spec (x : float) (rest : list float) :
  In (max_from x rest) (x :: rest)
  /\ forall y, In y (x :: rest) -> (max_from x rest <? y) = false.
Proof.
  apply (max_loop_spec rest [x] x); [left; reflexivity|].
  intros y [<-|[]]. apply ltb_irrefl.
Qed.

Lemma positive_finite_not_zero (x : float) :
  positive_finite x = true -> (x =? 0) = false.
Proof.
  unfold positive_finite. rewrite eqb_spec.
  change (Prim2SF 0) with (S754_zero false).
  destruct (Prim2SF x) as [s|s| |s m e]; try discriminate.
  destruct s; [discriminate|reflexivity].
Qed.

Lemma small_length_not_zero {B} (l : list B) :
  l <> [] -> (List.length l <= max_datapoints)%nat ->
  (float_of_int (len l) =? 0) = false.
Proof.
  intros Hne Hlen. apply positive_finite_not_zero.
  pose proof float_of_small_length as F. rewrite forallb_forall in F.
  apply (F (List.length l)). apply in_seq.
  destruct l; [congruence|cbn [List.length] in *; lia].
Qed.

End MinMax.

(** X11: the statistics of one zone. For a list of 1 to 1440 prices
    [az_stat_of] does not raise; the current price is the first price of the
    list, the minimum is a price of the list that no price is strictly below,
    and the maximum is a price of the list that is strictly below no price. *)
Theorem zone_statistics (p : float) (rest : list float) :
  (List.length (p :: rest) <= max_datapoints)%nat ->
  exists st,
    Lambda.az_stat_of (p :: rest) = Py.Ok st
    /\ Lambda.current_price st = p
    /\ Lambda.avg_price st = average (p :: rest)
    /\ (In (Lambda.min_price st) (p :: rest)
        /\ forall q, In q (p :: rest) -> (q <? Lambda.min_price st) = false)
    /\ (In (Lambda.max_price st) (p :: rest)
        /\ forall q, In q (p :: rest) -> (Lambda.max_price st <? q) = false).
Proof.
  intros Hlen. unfold Lambda.az_stat_of, Py.truediv.
  rewrite (small_length_not_zero (p :: rest)) by (discriminate || exact Hlen).
  rewrite price_volatility_of_cons. cbn [Py.exc_bind Py.min Py.max].
  eexists. split; [reflexivity|]. cbn.
  split; [reflexivity|]. split; [reflexivity|].
  split; [apply min_from_spec|apply max_from_spec].
Qed.

(** X11 on three prices. *)
Lemma zone_statistics_example :
  exists st,
    Lambda.az_stat_of [0.5; 0.25; 0.75] = Py.Ok st
    /\ Lambda.current_price st = 0.5
    /\ Lambda.avg_price st = average [0.5; 0.25; 0.75]
    /\ (In (Lambda.min_price st) [0.5; 0.25; 0.75]
        /\ forall q, In q [0.5; 0.25; 0.75] ->
             (q <? Lambda.min_price st) = false)
    /\ (In (Lambda.max_price st) [0.5; 0.25; 0.75]
        /\ forall q, In q [0.5; 0.25; 0.75] ->
             (Lambda.max_price st <? q) = false).
Proof.
  apply (zone_statistics 0.5 [0.25; 0.75]). vm_compute. lia.
Defined.

(** X12: [best_az] never raises; it is absent exactly when there is no zone,
    and otherwise it is a zone of the statistics whose current price no zone
    is strictly below. *)
Theorem best_zone_is_cheapest (az_stats : Dict.t Lambda.az_stat) :
  exists best,
    Lambda.best_az_of az_stats = Py.Ok best
    /\ match best with
       | None => az_stats = []
       | Some az =>
           exists st,
             In (az, st) az_stats
             /\ forall az' st', In (az', st') az_stats ->
                  (Lambda.current_price st' <? Lambda.current_price st) = false
       end.
Proof.
  unfold Lambda.best_az_of. destruct az_stats as [|item rest].
  - exists None. split; reflexivity.
  - cbn [Py.truthy].
    destruct (min_by_spec (fun x : string * Lambda.az_stat =>
                             Lambda.current_price (snd x)) item rest)
      as ([az st] & -> & Hin & Hmin).
    cbn [Py.exc_bind fst]. eexists. split; [reflexivity|].
    exists st. split; [exact Hin|].
    intros az' st' H. apply (Hmin (az', st') H).
Qed.

(** ** The grouping of the price history by zone *)

Section GroupPrices.

Import Py Aws.

Lemma in_set {V} (d : Dict.t V) (k : string) (v : V) (k' : string) (v' : V) :
  In (k', v') (Dict.set d k v) -> (k' = k /\ v' = v) \/ In (k', v') d.
Proof.
  induction d as [|[k0 v0] r IH]; cbn.
  - intros [E|[]]. inversion E. left. split; reflexivity.
  - destruct (String.eqb k k0) eqn:E; cbn.
    + intros [H|H]; [|right; right; exact H].
      inversion H. left. split; reflexivity.
    + intros [H|H]; [right; left; exact H|].
      destruct (IH H) as [H'|H']; [left; exact H'|right; right; exact H'].
Qed.

Lemma get_default_set {V} (d : Dict.t V) (k k' : string) (v default : V) :
  Dict.get_default (Dict.set d k v) k' default
  = if String.eqb k k' then v else Dict.get_default d k' default.
Proof.
  unfold Dict.get_default. rewrite get_set.
  destruct (String.eqb k k'); reflexivity.
Qed.

(** One turn of the loop appends the price to the list of its zone. *)
Lemma add_price_spec (d : Dict.t (list float)) (p : spot_price_info)
    (value : float) :
  SpotPrice p = Ok value ->
  Lambda.add_price d p
  = Ok (Dict.set d (AvailabilityZone p)
          (Dict.get_default d (AvailabilityZone p) [] ++ [value])).
Proof.
  intros Hv. unfold Lambda.add_price, Dict.get_default. rewrite Hv.
  cbn [exc_bind]. destruct (Dict.get d (AvailabilityZone p)); reflexivity.
Qed.

Lemma group_prices_loop (history : list spot_price_info) :
  forall d0,
    Forall price_converts history ->
    keys_distinct d0 ->
    (forall az prices, In (az, prices) d0 -> prices <> []) ->
    exists d,
      fold_left (fun acc price_info =>
                   exc_bind acc (fun d => Lambda.add_price d price_info))
        history (Ok d0) = Ok d
      /\ keys_distinct d
      /\ (forall az, Dict.get_default d az []
                     = Dict.get_default d0 az [] ++ prices_in az history)
      /\ (forall az prices, In (az, prices) d -> prices <> []).
Proof.
  induction history as [|p rest IH]; intros d0 HF Hd Hne.
  - exists d0. cbn. split; [reflexivity|]. split; [exact Hd|].
    split; [intros az; rewrite app_nil_r; reflexivity|exact Hne].
  - inversion HF as [|? ? [value Hv] HF']; subst.
    cbn [fold_left exc_bind]. rewrite (add_price_spec d0 p value Hv).
    destruct (IH (Dict.set d0 (AvailabilityZone p)
                    (Dict.get_default d0 (AvailabilityZone p) [] ++ [value]))
                 HF' (set_keys_distinct _ _ _ Hd)) as (d & Hfold & Hdd & Hget & Hn).
    + intros az prices Hin. apply in_set in Hin.
      destruct Hin as [[_ ->]|Hin]; [|apply (Hne az), Hin].
      intros E. apply app_eq_nil in E. destruct E as [_ E]. discriminate E.
    + exists d. split; [exact Hfold|]. split; [exact Hdd|].
      split; [|exact Hn].
      intros az. rewrite Hget, get_default_set. cbn [prices_in flat_map].
      rewrite Hv. rewrite (String.eqb_sym az).
      destruct (String.eqb (AvailabilityZone p) az) eqn:E.
      * apply String.eqb_eq in E. subst az. rewrite <- app_assoc. reflexivity.
      * reflexivity.
Qed.

End GroupPrices.

(** X13: when the price of every record converts, [group_prices] returns a
    dictionary that maps each zone to the prices of its records, in the
    order of the history; its keys are distinct and none of its lists is
    empty, so that every zone it holds gets statistics. *)
Theorem prices_grouped_by_zone (history : list Aws.spot_price_info) :
  Forall price_converts history ->
  exists d,
    Lambda.group_prices history = Py.Ok d
    /\ keys_distinct d
    /\ (forall az, Dict.get_default d az [] = prices_in az history)
    /\ (forall az prices, In (az, prices) d -> prices <> []).
Proof.
  intros HF.
  destruct (group_prices_loop history Dict.empty HF) as (d & Hf & Hd & Hg & Hn).
  - constructor.
  - intros az prices [].
  - exists d. split; [exact Hf|]. split; [exact Hd|]. split; [|exact Hn].
    intros az. rewrite Hg. reflexivity.
Qed.

(** X13 on the history with records of two zones. *)
Lemma prices_grouped_by_zone_example :
  Forall price_converts MoreScenarios.mixed_prices
  /\ exists d,
       Lambda.group_prices MoreScenarios.mixed_prices = Py.Ok d
       /\ keys_distinct d
       /\ (forall az, Dict.get_default d az []
                      = prices_in az MoreScenarios.mixed_prices)
       /\ (forall az prices, In (az, prices) d -> prices <> []).
Proof.
  assert (H : Forall price_converts MoreScenarios.mixed_prices).
  { repeat constructor; eexists; reflexivity. }
  split; [exact H|].
  exact (prices_grouped_by_zone MoreScenarios.mixed_prices H).
Defined.

(** ** The on-demand price of the Lambda *)

Section OnDemandPrice.

Import Py Aws.

Variable self : Lambda.optimizer.

Lemma on_demand_price_of_failure (t : string) (e : exn) :
  Lambda.get_products (Lambda.aws self) t = Raise e ->
  Lambda._get_on_demand_price self t = 0.
Proof.
  intros H. unfold Lambda._get_on_demand_price. rewrite H. reflexivity.
Qed.

(** Without an on-demand price the analysis of a type shows no saving. *)
Lemma analyze_without_on_demand_price (zones : list string) (t : string) :
  Lambda._get_on_demand_price self t = 0 ->
  match Lambda.analyze_instance_type self zones t with
  | Lambda.PriceData _ odp _ sav => odp = 0 /\ sav = 0
  | Lambda.PriceError _ => True
  end.
Proof.
  intros H0. unfold Lambda.analyze_instance_type, Lambda.analyze_instance_type_body.
  destruct (Lambda.describe_spot_price_history (Lambda.aws self) [t] zones)
    as [history|e]; cbn [exc_bind]; [|exact I].
  destruct (Lambda.group_prices history) as [d|e]; cbn [exc_bind]; [|exact I].
  destruct (Lambda.az_stats_of d) as [stats|e]; cbn [exc_bind]; [|exact I].
  destruct (Lambda.best_az_of stats) as [best|e]; cbn [exc_bind]; [|exact I].
  rewrite H0. unfold Lambda.max_savings_percent_of.
  replace (0 <? 0) with false by reflexivity.
  rewrite Bool.andb_false_r. cbn. split; reflexivity.
Qed.

Lemma spot_recommendations_none (spot : Dict.t Lambda.price_entry) :
  (forall t azs odp best sav,
     In (t, Lambda.PriceData azs odp best sav) spot -> sav = 0) ->
  Lambda.spot_recommendations spot = [].
Proof.
  unfold Lambda.spot_recommendations.
  induction spot as [|[t entry] rest IH]; intros H; [reflexivity|].
  cbn [flat_map snd fst]. rewrite IH.
  - destruct entry as [e|azs odp best sav]; [reflexivity|].
    rewrite (H t azs odp best sav (or_introl eq_refl)). reflexivity.
  - intros t' azs odp best sav Hin. apply (H t' azs odp best sav).
    right. exact Hin.
Qed.

Lemma trends_entries_in (zones : list string) (t : string)
    (entry : Lambda.price_entry) (spot : Dict.t Lambda.price_entry) :
  Lambda.describe_availability_zones (Lambda.aws self) = Ok zones ->
  Lambda.analyze_spot_price_trends self = Ok spot ->
  In (t, entry) spot ->
  In t Lambda.instance_types
  /\ entry = Lambda.analyze_instance_type self zones t.
Proof.
  intros Hz Hs Hin. unfold Lambda.analyze_spot_price_trends in Hs.
  rewrite Hz in Hs. cbn in Hs. inversion Hs. subst spot. clear Hs.
  cbn in Hin.
  repeat (destruct Hin as [Hin|Hin];
          [inversion Hin; subst; split; [cbn; tauto|reflexivity]|]).
  destruct Hin.
Qed.

End OnDemandPrice.

(** X14: when the pricing query fails for every instance type, the analysis
    still succeeds, every entry that has data shows an on-demand price of
    0.0 and a saving of 0, and the report gets no spot_savings
    recommendation, whatever the spot prices are. *)
Theorem pricing_outage_hides_savings (self : Lambda.optimizer)
    (spot : Dict.t Lambda.price_entry) :
  (forall t, exists e, Lambda.get_products (Lambda.aws self) t = Py.Raise e) ->
  Lambda.analyze_spot_price_trends self = Py.Ok spot ->
  (forall t azs odp best sav,
     In (t, Lambda.PriceData azs odp best sav) spot -> odp = 0 /\ sav = 0)
  /\ Lambda.spot_recommendations spot = [].
Proof.
  intros Hp Hs.
  assert (Hall : forall t azs odp best sav,
             In (t, Lambda.PriceData azs odp best sav) spot ->
             odp = 0 /\ sav = 0).
  { intros t azs odp best sav Hin.
    destruct (Lambda.describe_availability_zones (Lambda.aws self))
      as [zones|e] eqn:Hz.
    - destruct (trends_entries_in self zones t _ spot Hz Hs Hin) as [_ He].
      destruct (Hp t) as [e Hr].
      pose proof (analyze_without_on_demand_price self zones t
                    (on_demand_price_of_failure self t e Hr)) as Ha.
      rewrite <- He in Ha. exact Ha.
    - unfold Lambda.analyze_spot_price_trends in Hs. rewrite Hz in Hs.
      discriminate Hs. }
  split; [exact Hall|].
  apply spot_recommendations_none.
  intros t azs odp best sav Hin. apply (Hall t azs odp best sav Hin).
Qed.

(** X14 in the scenario whose pricing query is denied. *)
Lemma pricing_outage_hides_savings_example :
  exists spot,
    Lambda.analyze_spot_price_trends ScalingScenario.active_optimizer
    = Py.Ok spot
    /\ (forall t azs odp best sav,
          In (t, Lambda.PriceData azs odp best sav) spot -> odp = 0 /\ sav = 0)
    /\ Lambda.spot_recommendations spot = [].
Proof.
  eexists. split; [reflexivity|].
  apply (pricing_outage_hides_savings ScalingScenario.active_optimizer).
  - intros t. eexists. reflexivity.
  - reflexivity.
Defined.

(** ** The actions of the handler *)

Section HandlerActions.

Import Py Aws.

Variable round2 : float -> float.

Lemma action_is_not (action name : string) :
  ~ In action single_stage_actions -> In name single_stage_actions ->
  String.eqb action name = false.
Proof.
  intros Hn Hin. apply String.eqb_neq. intros ->. exact (Hn Hin).
Qed.

Lemma single_stage_events (init : exc Lambda.optimizer) (event : Dict.t string) :
  In (action_of event) single_stage_actions ->
  events (Lambda.lambda_handler round2 init event) = [].
Proof.
  unfold action_of. intros Hin. unfold Lambda.lambda_handler.
  destruct init as [optim|e]; [|reflexivity].
  cbn in Hin.
  destruct Hin as [<-|[<-|[<-|[<-|[]]]]]; cbn.
  - destruct (Lambda.analyze_spot_price_trends optim); reflexivity.
  - destruct (Lambda.check_idle_resources optim); reflexivity.
  - reflexivity.
  - reflexivity.
Qed.

End HandlerActions.

(** X15: an event whose action is none of the four single-stage actions,
    or that names no action, is answered exactly like the empty event: the
    handler runs the comprehensive report. *)
Theorem unknown_action_runs_report (round2 : float -> float)
    (init : Py.exc Lambda.optimizer) (event : Dict.t string) :
  ~ In (action_of event) single_stage_actions ->
  Lambda.lambda_handler round2 init event
  = Lambda.lambda_handler round2 init Dict.empty.
Proof.
  unfold action_of. intros Hn. unfold Lambda.lambda_handler.
  set (action := Dict.get_default event "action" "comprehensive_report") in *.
  destruct init as [optim|e]; [|reflexivity].
  cbn [Aws.lift Aws.bind Aws.try_except].
  rewrite (action_is_not action "spot_analysis" Hn) by (cbn; tauto).
  rewrite (action_is_not action "idle_check" Hn) by (cbn; tauto).
  rewrite (action_is_not action "cost_insights" Hn) by (cbn; tauto).
  rewrite (action_is_not action "scaling_optimization" Hn) by (cbn; tauto).
  reflexivity.
Qed.

(** X15 for an event that asks for an action the handler does not know. *)
Lemma unknown_action_runs_report_example :
  Lambda.lambda_handler LambdaScenario.round2_exact
    (Py.Ok LambdaScenario.overspent_optimizer) [("action", "cleanup")]
  = Lambda.lambda_handler LambdaScenario.round2_exact
      (Py.Ok LambdaScenario.overspent_optimizer) Dict.empty.
Proof.
  apply (unknown_action_runs_report LambdaScenario.round2_exact
           (Py.Ok LambdaScenario.overspent_optimizer) [("action", "cleanup")]).
  cbn. intros [H|[H|[H|[H|[]]]]]; discriminate H.
Defined.

(** X16: the four single-stage actions never publish an alert, whatever the
    costs are; [cost_insights] and [scaling_optimization] are always
    answered with status 200, a failure being part of the body. *)
Theorem single_stage_actions_are_silent (round2 : float -> float)
    (self : Lambda.optimizer) (event : Dict.t string) :
  In (action_of event) single_stage_actions ->
  Aws.events (Lambda.lambda_handler round2 (Py.Ok self) event) = []
  /\ (action_of event = "cost_insights" ->
      Aws.outcome (Lambda.lambda_handler round2 (Py.Ok self) event)
      = Py.Ok (Lambda.Response200
                 (Lambda.CostInsights (Lambda.get_cost_insights round2 self))))
  /\ (action_of event = "scaling_optimization" ->
      Aws.outcome (Lambda.lambda_handler round2 (Py.Ok self) event)
      = Py.Ok (Lambda.Response200
                 (Lambda.ScalingOptimization
                    (Lambda.optimize_auto_scaling self)))).
Proof.
  intros Hin. split; [apply single_stage_events, Hin|].
  unfold action_of, Lambda.lambda_handler.
  split; intros ->; reflexivity.
Qed.

(** X16 when 2500 dollars were spent: the cost insights are returned and
    nothing is published. *)
Lemma single_stage_actions_are_silent_example :
  Aws.events (Lambda.lambda_handler LambdaScenario.round2_exact
                (Py.Ok LambdaScenario.overspent_optimizer)
                [("action", "cost_insights")]) = []
  /\ Aws.outcome (Lambda.lambda_handler LambdaScenario.round2_exact
                    (Py.Ok LambdaScenario.overspent_optimizer)
                    [("action", "cost_insights")])
     = Py.Ok (Lambda.Response200
                (Lambda.CostInsights
                   (Lambda.get_cost_insights LambdaScenario.round2_exact
                      LambdaScenario.overspent_optimizer))).
Proof.
  destruct (single_stage_actions_are_silent LambdaScenario.round2_exact
              LambdaScenario.overspent_optimizer [("action", "cost_insights")])
    as (Hev & Hci & _).
  - cbn. tauto.
  - split; [exact Hev|apply Hci; reflexivity].
Defined.

(** ** The cost monitoring and the cycle of the automation script *)

Section Cycle.

Import Py Aws.

Variable self : Automation.manager.

Lemma implement_auto_scaling_outcome :
  outcome (Automation.implement_auto_scaling self) = Ok tt.
Proof.
  unfold Automation.implement_auto_scaling.
  destruct (Automation.asg_name_if_set self) as [name|]; [|reflexivity].
  destruct (Automation.describe_auto_scaling_groups (Automation.aws self) name)
    as [[|asg rest]|e]; try reflexivity.
  unfold try_except, bind, lift, perform, ret, outcome.
  cbn [fst snd app].
  destruct (_ && _).
  - destruct (Automation.set_desired_capacity _ _ _) as [[]|e]; reflexivity.
  - destruct (_ && _); [|reflexivity].
    destruct (0 <? len _)%Z; [|reflexivity].
    destruct (Automation.set_desired_capacity _ _ _) as [[]|e]; reflexivity.
Qed.

Lemma generate_cost_report_events :
  events (Automation.generate_cost_report self)
  = events (Automation.monitor_daily_costs self).
Proof.
  unfold Automation.generate_cost_report.
  destruct (potential_savings_ok (Automation.get_current_spot_prices self))
    as [analysis Ha].
  unfold Automation.calculate_potential_savings. rewrite Ha.
  destruct (monitor_daily_costs_outcome self) as [cost Hc].
  destruct (Automation.monitor_daily_costs self) as [calls out].
  cbn in Hc. subst out.
  destruct analysis as [|first rest]; cbn; rewrite !app_nil_r; reflexivity.
Qed.

Lemma current_spot_prices_of_failure (e : exn) :
  Automation.describe_spot_price_history (Automation.aws self) = Raise e ->
  Automation.get_current_spot_prices self = Dict.empty.
Proof.
  intros H. unfold Automation.get_current_spot_prices,
    Automation.get_current_spot_prices_body.
  rewrite H. reflexivity.
Qed.

End Cycle.

(** X17: when the spot price query fails, the failure is not reported: the
    price map and the savings analysis are empty, [monitor_daily_costs]
    returns 0.0 without raising an alert, and the report is produced with
    an estimated daily cost of 0.0. *)
Theorem price_outage_reads_as_zero_cost (self : Automation.manager)
    (e : Py.exn) :
  Automation.describe_spot_price_history (Automation.aws self) = Py.Raise e ->
  Automation.get_current_spot_prices self = Dict.empty
  /\ Automation.calculate_potential_savings self = Py.Ok Dict.empty
  /\ Automation.monitor_daily_costs self = ([], Py.Ok 0)
  /\ exists r,
       Automation.generate_cost_report self = ([], Py.Ok r)
       /\ Automation.spot_prices r = Dict.empty
       /\ Automation.savings_analysis r = Dict.empty
       /\ Automation.estimated_daily_cost r = 0.
Proof.
  intros H. pose proof (current_spot_prices_of_failure self e H) as Hp.
  split; [exact Hp|].
  assert (Hs : Automation.calculate_potential_savings self = Py.Ok Dict.empty).
  { unfold Automation.calculate_potential_savings. rewrite Hp. reflexivity. }
  split; [exact Hs|].
  assert (Hm : Automation.monitor_daily_costs self = ([], Py.Ok 0)).
  { unfold Automation.monitor_daily_costs. rewrite Hp. reflexivity. }
  split; [exact Hm|].
  unfold Automation.generate_cost_report. rewrite Hs, Hm, Hp.
  eexists. split; [reflexivity|]. cbn. repeat split.
Qed.

(** X17 for a provider whose price query is throttled. *)
Lemma price_outage_reads_as_zero_cost_example :
  Automation.get_current_spot_prices FailingScenario.priceless_manager
  = Dict.empty
  /\ Automation.calculate_potential_savings FailingScenario.priceless_manager
     = Py.Ok Dict.empty
  /\ Automation.monitor_daily_costs FailingScenario.priceless_manager
     = ([], Py.Ok 0)
  /\ exists r,
       Automation.generate_cost_report FailingScenario.priceless_manager
       = ([], Py.Ok r)
       /\ Automation.spot_prices r = Dict.empty
       /\ Automation.savings_analysis r = Dict.empty
       /\ Automation.estimated_daily_cost r = 0.
Proof.
  apply (price_outage_reads_as_zero_cost FailingScenario.priceless_manager
           (Py.ClientError "RequestLimitExceeded")).
  reflexivity.
Defined.

(** X18: one optimization cycle, for a provider whose answers do not change
    during the cycle. No step raises before the report is written: the
    calls of the cycle are those of [implement_auto_scaling] followed by
    those of [monitor_daily_costs] twice, once for step 4 and once inside
    [generate_cost_report]; the cycle itself never raises, also when the
    writing of the report fails. *)
Theorem optimization_cycle_runs_every_step (self : Automation.manager) :
  Automation.run_optimization_cycle self
  = (Aws.events (Automation.implement_auto_scaling self)
     ++ Aws.events (Automation.monitor_daily_costs self)
     ++ Aws.events (Automation.monitor_daily_costs self),
     Py.Ok tt).
Proof.
  unfold Automation.run_optimization_cycle.
  rewrite optimize_spot_instance_pricing_ok.
  pose proof (implement_auto_scaling_outcome self) as Hs.
  pose proof (generate_cost_report_events self) as He.
  destruct (generate_cost_report_outcome self) as [r Hr].
  destruct (monitor_daily_costs_outcome self) as [cost Hc].
  destruct (Automation.implement_auto_scaling self) as [l1 o1].
  destruct (Automation.monitor_daily_costs self) as [l2 o2].
  destruct (Automation.generate_cost_report self) as [l3 o3].
  cbn in Hs, He, Hr, Hc. subst o1 o2 o3 l3.
  unfold Automation.optimize_storage_costs, Automation.cleanup_unused_resources.
  destruct (Automation.save_report (Automation.aws self)) as [[]|e];
    cbn; rewrite ?app_nil_r; reflexivity.
Qed.

(** ** The cost insights of the Lambda *)

Section CostInsights.

Import Py Aws.

Variable round2 : float -> float.

Lemma filter_none {A} (f : A -> bool) (l : list A) :
  existsb f l = false -> filter f l = [].
Proof.
  induction l as [|x r IH]; cbn; [reflexivity|].
  destruct (f x); cbn; [discriminate|exact IH].
Qed.

Lemma get_rounded (d : Dict.t float) (s : string) :
  Dict.get (map (fun kv => (fst kv, round2 (snd kv))) d) s
  = option_map round2 (Dict.get d s).
Proof.
  induction d as [|[k v] r IH]; cbn; [reflexivity|].
  destruct (String.eqb s k); [reflexivity|exact IH].
Qed.

Lemma add_group_spec (total : float) (d : Dict.t float) (g : Lambda.cost_group)
    (value : float) :
  Lambda.Amount g = Ok value ->
  Lambda.add_group (total, d) g
  = Ok (total + value,
        Dict.set d (service_of g)
          (Dict.get_default d (service_of g) 0 + value)).
Proof.
  intros Hv. unfold Lambda.add_group, service_of. rewrite Hv. reflexivity.
Qed.

(** The loop over the cost groups: the total and the cost of each service
    are the sums, from left to right, of the amounts booked. *)
Lemma cost_loop (groups : list Lambda.cost_group) :
  forall total0 d0,
    Forall amount_converts groups ->
    exists d,
      fold_left (fun acc group =>
                   exc_bind acc (fun a => Lambda.add_group a group))
        groups (Ok (total0, d0))
      = Ok (fold_left PrimFloat.add (amounts groups) total0, d)
      /\ forall s,
           Dict.get d s
           = if existsb (booked_on s) groups
             then Some (fold_left PrimFloat.add (amounts_of s groups)
                          (Dict.get_default d0 s 0))
             else Dict.get d0 s.
Proof.
  induction groups as [|g rest IH]; intros total0 d0 HF.
  - exists d0. split; reflexivity.
  - inversion HF as [|? ? [value Hv] HF']; subst.
    cbn [fold_left exc_bind]. rewrite (add_group_spec total0 d0 g value Hv).
    destruct (IH (total0 + value)
                 (Dict.set d0 (service_of g)
                    (Dict.get_default d0 (service_of g) 0 + value)) HF')
      as (d & Hfold & Hget).
    exists d. split.
    + rewrite Hfold. cbn [amounts flat_map]. rewrite Hv. reflexivity.
    + intros s. rewrite Hget, get_default_set, get_set.
      unfold amounts_of. cbn [existsb filter].
      assert (Hb : booked_on s g = String.eqb (service_of g) s)
        by apply String.eqb_sym.
      rewrite Hb.
      destruct (String.eqb (service_of g) s) eqn:E; cbn [orb].
      * cbn [amounts flat_map]. rewrite Hv. cbn [app fold_left].
        rewrite (proj1 (String.eqb_eq _ _) E).
        destruct (existsb (booked_on s) rest) eqn:Ex; [reflexivity|].
        rewrite (filter_none _ _ Ex). reflexivity.
      * reflexivity.
Qed.

Lemma critical_only_from_costs (self : Lambda.optimizer)
    (spot : Dict.t Lambda.price_entry) (idle : list Lambda.idle_resource) :
  filter Lambda.is_critical
    (Lambda.spot_recommendations spot ++ Lambda.idle_recommendations idle
     ++ Lambda.cost_recommendations self (Lambda.get_cost_insights round2 self))
  = if over_critical round2 self
    then [{| Lambda.type := "cost_alert"; Lambda.priority := "critical";
             Lambda.subject := "monthly costs" |}]
    else [].
Proof.
  rewrite !filter_app.
  assert (Hs : filter Lambda.is_critical (Lambda.spot_recommendations spot) = []).
  { unfold Lambda.spot_recommendations.
    induction spot as [|[t entry] rest IH]; [reflexivity|].
    cbn [flat_map]. rewrite filter_app, IH, app_nil_r.
    destruct entry as [e|azs odp best sav]; [reflexivity|]. cbn [snd].
    destruct (60 <? sav); reflexivity. }
  assert (Hi : filter Lambda.is_critical (Lambda.idle_recommendations idle) = []).
  { unfold Lambda.idle_recommendations. destruct (truthy idle); reflexivity. }
  rewrite Hs, Hi. cbn [app].
  unfold over_critical, Lambda.cost_recommendations.
  destruct (Lambda.get_cost_insights round2 self) as [e|cur f b tr o];
    [reflexivity|].
  destruct (Lambda.monthly_critical _ <? cur); [reflexivity|].
  destruct (Lambda.monthly_warning _ <? cur); reflexivity.
Qed.

(** The report publishes nothing unless the cost is over the critical
    threshold. *)
Lemma report_silent_unless_over_critical (self : Lambda.optimizer) :
  over_critical round2 self = false ->
  events (Lambda.generate_comprehensive_report round2 self) = [].
Proof.
  intros Hc. unfold Lambda.generate_comprehensive_report.
  destruct (Lambda.analyze_spot_price_trends self) as [spot|e]; [|reflexivity].
  destruct (Lambda.check_idle_resources self) as [idle|e]; [|reflexivity].
  cbn [lift bind app].
  rewrite (critical_only_from_costs self spot idle), Hc. reflexivity.
Qed.

End CostInsights.

(** X19: the cost insights when the cost query and the forecast succeed and
    every amount converts. The month-to-date cost is the rounded sum of all
    amounts, added from left to right starting from 0.0; the breakdown has
    an entry for exactly the services that occur, the rounded sum of the
    amounts booked on the service; the trend and the savings opportunity are
    decided on the sum before rounding. *)
Theorem cost_insights_totals (round2 : float -> float)
    (self : Lambda.optimizer) (results : list (list Lambda.cost_group))
    (forecast : float) :
  Lambda.get_cost_and_usage (Lambda.aws self) = Py.Ok results ->
  Forall amount_converts (List.concat results) ->
  Lambda.get_cost_forecast (Lambda.aws self) = Py.Ok forecast ->
  let groups := List.concat results in
  let total := Py.sum (amounts groups) in
  exists breakdown,
    Lambda.get_cost_insights round2 self
    = Lambda.Insights (round2 total) (round2 forecast) breakdown
        (if (total <? forecast) then "increasing" else "stable")
        (if (Lambda.monthly_warning (Lambda.cost_thresholds self) <? total)
         then ["cost_alert"] else [])
    /\ forall s,
         Dict.get breakdown s
         = if existsb (booked_on s) groups
           then Some (round2 (Py.sum (amounts_of s groups)))
           else None.
Proof.
  intros Hu HF Hf groups total.
  destruct (cost_loop (List.concat results) 0 Dict.empty HF) as (d & Hfold & Hget).
  unfold Lambda.get_cost_insights, Lambda.get_cost_insights_body.
  rewrite Hu. cbn [Py.exc_bind]. rewrite Hfold. cbn [Py.exc_bind].
  rewrite Hf. cbn [Py.exc_bind].
  eexists. split; [reflexivity|].
  intros s. rewrite get_rounded, Hget. fold groups.
  destruct (existsb (booked_on s) groups); reflexivity.
Qed.

(** X19 on three groups of two services: 2500 dollars in all. *)
Lemma cost_insights_totals_example :
  exists breakdown,
    Lambda.get_cost_insights LambdaScenario.round2_exact
      CostScenario.booked_optimizer
    = Lambda.Insights 2500 3000 breakdown "increasing" ["cost_alert"]
    /\ Dict.get breakdown "Amazon Elastic Compute Cloud" = Some 2250
    /\ Dict.get breakdown "Amazon Simple Storage Service" = Some 250
    /\ Dict.get breakdown "Amazon Bedrock" = None.
Proof.
  destruct (cost_insights_totals LambdaScenario.round2_exact
              CostScenario.booked_optimizer CostScenario.booked_groups 3000)
    as (breakdown & Hb & Hget).
  - reflexivity.
  - repeat constructor; eexists; reflexivity.
  - reflexivity.
  - exists breakdown. split; [exact Hb|].
    rewrite !Hget. repeat split; reflexivity.
Defined.

(** X20: a report run whose two listings succeed and whose topic is
    configured publishes the alert exactly when the cost insights succeeded
    and their rounded month-to-date cost is above the critical threshold;
    spot savings and idle resources never trigger it. *)
Theorem alert_only_over_critical (round2 : float -> float)
    (self : Lambda.optimizer) (topic : string)
    (spot : Dict.t Lambda.price_entry) (idle : list Lambda.idle_resource) :
  Lambda.sns_topic_arn self = Some topic ->
  topic <> "" ->
  Lambda.analyze_spot_price_trends self = Py.Ok spot ->
  Lambda.check_idle_resources self = Py.Ok idle ->
  Aws.events (Lambda.generate_comprehensive_report round2 self)
  = if over_critical round2 self
    then [Aws.SnsPublish topic
            "AI Starter Kit Cost Alert - critical_cost_alert"]
    else [].
Proof.
  intros Ht Hne Hs Hi.
  destruct (over_critical round2 self) eqn:Hc;
    [|apply report_silent_unless_over_critical, Hc].
  unfold Lambda.generate_comprehensive_report. rewrite Hs, Hi.
  cbn [Aws.lift Aws.bind app].
  rewrite (critical_only_from_costs round2 self spot idle), Hc.
  cbn [Py.truthy]. unfold Lambda.send_cost_alert. rewrite Ht.
  apply String.eqb_neq in Hne. rewrite Hne.
  destruct (Lambda.sns_publish (Lambda.aws self) topic _) as [[]|e];
    reflexivity.
Qed.

(** X20 with 2500 dollars booked against a threshold of 2000. *)
Lemma alert_only_over_critical_example :
  Aws.events (Lambda.generate_comprehensive_report LambdaScenario.round2_exact
                CostScenario.booked_optimizer)
  = [Aws.SnsPublish "arn:aws:sns:us-east-1:000000000000:alerts"
       "AI Starter Kit Cost Alert - critical_cost_alert"].
Proof.
  refine (alert_only_over_critical LambdaScenario.round2_exact
            CostScenario.booked_optimizer
            "arn:aws:sns:us-east-1:000000000000:alerts" _ _ _ _ _ _).
  - reflexivity.
  - discriminate.
  - reflexivity.
  - reflexivity.
Defined.

(** X21: when the forecast query fails, the cost section of the report is
    an error, the month-to-date cost already added up is dropped, and the
    report publishes no alert, however high that cost is. *)
Theorem forecast_failure_silences_alert (round2 : float -> float)
    (self : Lambda.optimizer) (e : Py.exn) :
  Lambda.get_cost_forecast (Lambda.aws self) = Py.Raise e ->
  (exists e', Lambda.get_cost_insights round2 self = Lambda.InsightsError e')
  /\ Lambda.cost_recommendations self (Lambda.get_cost_insights round2 self)
     = []
  /\ Aws.events (Lambda.generate_comprehensive_report round2 self) = [].
Proof.
  intros Hf.
  assert (He : exists e', Lambda.get_cost_insights round2 self
                          = Lambda.InsightsError e').
  { unfold Lambda.get_cost_insights, Lambda.get_cost_insights_body.
    destruct (Lambda.get_cost_and_usage (Lambda.aws self)) as [results|e1];
      cbn [Py.exc_bind]; [|eexists; reflexivity].
    destruct (fold_left _ _ _) as [[total d]|e2]; cbn [Py.exc_bind];
      [|eexists; reflexivity].
    rewrite Hf. eexists. reflexivity. }
  destruct He as [e' He]. split; [exists e'; exact He|].
  split; [rewrite He; reflexivity|].
  apply report_silent_unless_over_critical.
  unfold over_critical. rewrite He. reflexivity.
Qed.

(** X21 with 2500 dollars booked and no forecast available. *)
Lemma forecast_failure_silences_alert_example :
  (exists e', Lambda.get_cost_insights LambdaScenario.round2_exact
                CostScenario.unforecast_optimizer
              = Lambda.InsightsError e')
  /\ Lambda.cost_recommendations CostScenario.unforecast_optimizer
       (Lambda.get_cost_insights LambdaScenario.round2_exact
          CostScenario.unforecast_optimizer)
     = []
  /\ Aws.events (Lambda.generate_comprehensive_report
                   LambdaScenario.round2_exact
                   CostScenario.unforecast_optimizer) = [].
Proof.
  apply (forecast_failure_silences_alert LambdaScenario.round2_exact
           CostScenario.unforecast_optimizer
           (Py.ClientError "DataUnavailableException")).
  reflexivity.
Defined.

(** ** The analysis of one instance type, end to end *)

Section TypeAnalysis.

Import Py Aws.

Lemma az_stat_of_ok (prices : list float) :
  prices <> [] -> (List.length prices <= max_datapoints)%nat ->
  exists st, Lambda.az_stat_of prices = Ok st.
Proof.
  intros Hne Hlen. destruct prices as [|p rest]; [congruence|].
  unfold Lambda.az_stat_of, truediv.
  rewrite (small_length_not_zero (p :: rest) Hne Hlen).
  rewrite price_volatility_of_cons. cbn [exc_bind min max].
  eexists. reflexivity.
Qed.

Lemma get_absent {V} (d : Dict.t V) (k : string) :
  ~ In k (map fst d) -> Dict.get d k = None.
Proof.
  induction d as [|[k0 v0] r IH]; cbn; [reflexivity|].
  intros Hn. destruct (String.eqb k k0) eqn:E.
  - apply String.eqb_eq in E. subst k0. exfalso. apply Hn. left. reflexivity.
  - apply IH. intros H. apply Hn. right. exact H.
Qed.

(** The loop that computes the statistics: one entry for each zone of the
    grouping. *)
Lemma az_stats_loop (items : Dict.t (list float)) :
  forall s0,
    NoDup (map fst items) ->
    (forall az prices, In (az, prices) items ->
       prices <> [] /\ (List.length prices <= max_datapoints)%nat) ->
    exists s,
      fold_left (fun acc item =>
                   exc_bind acc (fun az_stats =>
                     let '(az, prices) := item in
                     if truthy prices
                     then exc_bind (Lambda.az_stat_of prices)
                            (fun st => Ok (Dict.set az_stats az st))
                     else Ok az_stats))
        items (Ok s0) = Ok s
      /\ forall az,
           Dict.get s az
           = match Dict.get items az with
             | Some prices =>
                 match Lambda.az_stat_of prices with
                 | Ok st => Some st
                 | Raise _ => None
                 end
             | None => Dict.get s0 az
             end.
Proof.
  induction items as [|[k prices] rest IH]; intros s0 Hnd Hok.
  - exists s0. split; reflexivity.
  - inversion Hnd as [|? ? Hnot Hnd']; subst.
    destruct (Hok k prices (or_introl eq_refl)) as [Hne Hlen].
    destruct (az_stat_of_ok prices Hne Hlen) as [st Hst].
    cbn [fold_left exc_bind]. rewrite Hst.
    destruct prices as [|p r]; [congruence|]. cbn [truthy exc_bind].
    destruct (IH (Dict.set s0 k st) Hnd') as (s & Hfold & Hget).
    { intros az ps Hin. apply (Hok az). right. exact Hin. }
    exists s. split; [exact Hfold|].
    intros az. rewrite Hget. cbn [Dict.get].
    destruct (String.eqb az k) eqn:E.
    + apply String.eqb_eq in E. subst az.
      rewrite (get_absent rest k Hnot), get_set_same, Hst. reflexivity.
    + rewrite get_set_other; [reflexivity|].
      intros ->. rewrite String.eqb_refl in E. discriminate E.
Qed.

Lemma prices_in_length (az : string) (history : list spot_price_info) :
  (List.length (prices_in az history) <= List.length history)%nat.
Proof.
  unfold prices_in.
  induction history as [|p rest IH]; cbn [flat_map List.length]; [lia|].
  rewrite length_app.
  destruct (String.eqb az (AvailabilityZone p)); cbn [List.length]; [|lia].
  destruct (SpotPrice p); cbn [List.length]; lia.
Qed.

Lemma best_az_of_ok (az_stats : Dict.t Lambda.az_stat) :
  exists best, Lambda.best_az_of az_stats = Ok best.
Proof.
  unfold Lambda.best_az_of. destruct az_stats as [|item rest].
  - eexists. reflexivity.
  - cbn [truthy].
    destruct (min_by_spec (fun x : string * Lambda.az_stat =>
                             Lambda.current_price (snd x)) item rest)
      as (m & -> & _).
    eexists. reflexivity.
Qed.

End TypeAnalysis.

(** X22: the analysis of one instance type, when its price history has at
    most 1440 records, all with a price that converts. The entry is not an
    error; it carries the on-demand price of the type; the zones that have
    statistics are exactly the zones with a record in the history, and the
    statistics of a zone are those of the prices of its records, in the
    order of the history. *)
Theorem analysis_covers_every_zone (self : Lambda.optimizer)
    (zones : list string) (t : string) (history : list Aws.spot_price_info) :
  Lambda.describe_spot_price_history (Lambda.aws self) [t] zones
  = Py.Ok history ->
  Forall price_converts history ->
  (List.length history <= max_datapoints)%nat ->
  exists stats best sav,
    Lambda.analyze_instance_type self zones t
    = Lambda.PriceData stats (Lambda._get_on_demand_price self t) best sav
    /\ (forall az, prices_in az history = [] -> Dict.get stats az = None)
    /\ (forall az, prices_in az history <> [] ->
          exists st, Dict.get stats az = Some st
                     /\ Lambda.az_stat_of (prices_in az history) = Py.Ok st).
Proof.
  intros Hh HF Hlen.
  destruct (group_prices_loop history Dict.empty HF) as (d & Hf & Hd & Hg0 & Hn).
  { constructor. }
  { intros az prices []. }
  assert (Hg : forall az, Dict.get_default d az [] = prices_in az history).
  { intros az. rewrite Hg0. reflexivity. }
  clear Hg0.
  assert (Hval : forall az prices, Dict.get d az = Some prices ->
                   prices = prices_in az history).
  { intros az prices H. rewrite <- Hg. unfold Dict.get_default.
    rewrite H. reflexivity. }
  destruct (az_stats_loop d Dict.empty Hd) as (stats & Hs & Hget).
  { intros az prices Hin. split; [apply (Hn az), Hin|].
    rewrite (Hval az prices (in_get d az prices Hd Hin)).
    pose proof (prices_in_length az history). lia. }
  destruct (best_az_of_ok stats) as [best Hb].
  destruct (max_savings_percent_of_ok stats (Lambda._get_on_demand_price self t))
    as (sav & Hsav & _).
  exists stats, best, sav. split.
  - unfold Lambda.analyze_instance_type, Lambda.analyze_instance_type_body.
    rewrite Hh. cbn [Py.exc_bind]. unfold Lambda.group_prices. rewrite Hf.
    cbn [Py.exc_bind]. unfold Lambda.az_stats_of. rewrite Hs.
    cbn [Py.exc_bind]. rewrite Hb. cbn [Py.exc_bind]. rewrite Hsav.
    reflexivity.
  - split.
    + intros az Hnone. rewrite Hget.
      destruct (Dict.get d az) as [prices|] eqn:E; [|reflexivity].
      exfalso. apply (Hn az prices (get_in d az prices E)).
      rewrite (Hval az prices E). exact Hnone.
    + intros az Hsome. rewrite Hget.
      destruct (Dict.get d az) as [prices|] eqn:E.
      * rewrite (Hval az prices E).
        destruct (az_stat_of_ok (prices_in az history) Hsome) as [st Hst].
        { pose proof (prices_in_length az history). lia. }
        rewrite Hst. exists st. split; reflexivity.
      * exfalso. apply Hsome. rewrite <- Hg. unfold Dict.get_default.
        rewrite E. reflexivity.
Qed.

(** X22 in the steady scenario: one record in zone us-east-1a. *)
Lemma analysis_covers_every_zone_example :
  exists stats best sav,
    Lambda.analyze_instance_type LambdaScenario.busy_optimizer
      ["us-east-1a"] "g4dn.xlarge"
    = Lambda.PriceData stats
        (Lambda._get_on_demand_price LambdaScenario.busy_optimizer
           "g4dn.xlarge") best sav
    /\ (forall az, prices_in az Scenario.cheap_prices = [] ->
          Dict.get stats az = None)
    /\ (forall az, prices_in az Scenario.cheap_prices <> [] ->
          exists st, Dict.get stats az = Some st
                     /\ Lambda.az_stat_of (prices_in az Scenario.cheap_prices)
                        = Py.Ok st).
Proof.
  apply (analysis_covers_every_zone LambdaScenario.busy_optimizer
           ["us-east-1a"] "g4dn.xlarge" Scenario.cheap_prices).
  - reflexivity.
  - repeat constructor. eexists. reflexivity.
  - vm_compute. lia.
Defined.

(** ** The report and the delivery of the alert *)

Section Delivery.

Import Py Aws.

Variable round2 : float -> float.

Lemma send_cost_alert_outcome (self : Lambda.optimizer) (alert_type : string) :
  exists sent, outcome (Lambda.send_cost_alert self alert_type) = Ok sent.
Proof.
  unfold Lambda.send_cost_alert.
  destruct (Lambda.sns_topic_arn self) as [topic|]; [|eexists; reflexivity].
  destruct (String.eqb topic ""); [eexists; reflexivity|].
  destruct (Lambda.sns_publish (Lambda.aws self) topic _) as [[]|e];
    eexists; reflexivity.
Qed.

(** The outcome of a report run, without the alert. *)
Lemma report_outcome_unfold (self : Lambda.optimizer) :
  outcome (Lambda.generate_comprehensive_report round2 self)
  = exc_bind (Lambda.analyze_spot_price_trends self) (fun spot =>
    exc_bind (Lambda.check_idle_resources self) (fun idle =>
      Ok {| Lambda.report_region := Lambda.region self;
            Lambda.spot_price_analysis := spot;
            Lambda.idle_resources := idle;
            Lambda.report_cost_insights := Lambda.get_cost_insights round2 self;
            Lambda.scaling_optimizations := Lambda.optimize_auto_scaling self;
            Lambda.report_recommendations :=
              Lambda.spot_recommendations spot
              ++ Lambda.idle_recommendations idle
              ++ Lambda.cost_recommendations self
                   (Lambda.get_cost_insights round2 self) |})).
Proof.
  unfold Lambda.generate_comprehensive_report.
  destruct (Lambda.analyze_spot_price_trends self) as [spot|e]; [|reflexivity].
  destruct (Lambda.check_idle_resources self) as [idle|e]; [|reflexivity].
  cbn [lift bind exc_bind app].
  destruct (truthy _); [|reflexivity].
  destruct (send_cost_alert_outcome self "critical_cost_alert") as [sent Hs].
  destruct (Lambda.send_cost_alert self "critical_cost_alert") as [log out].
  cbn in Hs. subst out. reflexivity.
Qed.

End Delivery.

(** X23: the delivery of the alert never changes the report. Whatever the
    topic is, configured or not, and whatever the SNS client answers, a
    report run returns the same report, or raises the same exception, as
    with any other topic and answer: the result of [send_cost_alert] is
    dropped and its failure is caught. *)
Theorem alert_delivery_never_changes_report (round2 : float -> float)
    (self : Lambda.optimizer) (topic : option string)
    (publish : string -> string -> Py.exc unit) :
  Aws.outcome (Lambda.generate_comprehensive_report round2
                 (with_sns self topic publish))
  = Aws.outcome (Lambda.generate_comprehensive_report round2 self).
Proof.
  rewrite !report_outcome_unfold. reflexivity.
Qed.
